(** * ics_paper_2: the dataset-construction pipeline of [src/build_dataset.py]

    A shallow embedding of [format_ids], [merge_ins_uoa] and the recoding,
    joining and merging steps of [build_dataset], with the properties the
    specification states about them.

    Conventions.
    - A pandas column is a list of cells, a table a list of rows; a row is a
      record with one field per column the code reads, and a type parameter
      for the columns it only carries along.
    - A missing value (NaN, pd.NA, None) of a text or nullable-integer column
      is [None]; float columns hold IEEE binary64 values, [nan] included.
    - An integer is a [Z]. Where the code stores it in 64 bits the range
      check, the wrap-around or the rounding to binary64 is written out.
    - A Python exception is a [Raise] in the [result] monad.
    - Text is a [string] of characters with code points below 256. *)

From Stdlib Require Import ZArith List String Ascii Bool Lia.
From Stdlib Require Import Floats DecimalString.
From Stdlib Require DecimalPos.
Import ListNotations.

Local Open Scope Z_scope.
Local Open Scope string_scope.

(* ================================================================= *)
(** ** Python and pandas primitives *)

Module Py.

(** The exceptions the modelled code can raise. *)
Inductive exn : Set :=
| KeyError
| ValueError
| TypeError
| AssertionError
| OverflowError.

Inductive result (A : Type) : Type :=
| Ok (a : A)
| Raise (e : exn).
Arguments Ok {A} a.
Arguments Raise {A} e.

Definition bind {A B : Type} (m : result A) (k : A -> result B) : result B :=
  match m with
  | Ok a => k a
  | Raise e => Raise e
  end.

Notation "x <- m ;; k" := (bind m (fun x => k))
  (at level 61, m at next level, right associativity).

(** [assert c]. *)
Definition assert (c : bool) : result unit :=
  if c then Ok tt else Raise AssertionError.

(** Element-wise application of a fallible conversion to a column: the first
    failing cell aborts the whole operation. *)
Fixpoint mapM {A B : Type} (f : A -> result B) (l : list A) : result (list B) :=
  match l with
  | [] => Ok []
  | a :: l' => b <- f a ;; bs <- mapM f l' ;; Ok (b :: bs)
  end.

(** *** Characters *)

Definition code (c : ascii) : nat := nat_of_ascii c.

Definition is_digit (c : ascii) : bool :=
  (48 <=? code c)%nat && (code c <=? 57)%nat.

Definition digit_val (c : ascii) : Z := Z.of_nat (code c - 48).

(** [str.isspace] on code points below 256: TAB, LF, VT, FF, CR, the four
    separators 0x1c-0x1f, SPACE, NEL (0x85) and NBSP (0xa0). *)
Definition is_space (c : ascii) : bool :=
  let n := code c in
  ((9 <=? n)%nat && (n <=? 13)%nat)
  || ((28 <=? n)%nat && (n <=? 32)%nat)
  || (n =? 133)%nat || (n =? 160)%nat.

(** The whitespace [int] ignores around an integer literal: TAB, LF, VT, FF,
    CR and SPACE, and in text with characters beyond ASCII also NEL and
    NBSP; the four separators 0x1c-0x1f are no whitespace for [int]. *)
Definition is_int_space (c : ascii) : bool :=
  let n := code c in
  ((9 <=? n)%nat && (n <=? 13)%nat)
  || (n =? 32)%nat || (n =? 133)%nat || (n =? 160)%nat.

Definition is_colon (c : ascii) : bool := Ascii.eqb c ":".
Definition is_newline (c : ascii) : bool := (code c =? 10)%nat.

(** *** [str.strip] *)

Fixpoint lstrip_by (p : ascii -> bool) (s : string) : string :=
  match s with
  | EmptyString => EmptyString
  | String c s' => if p c then lstrip_by p s' else s
  end.

Fixpoint rstrip_by (p : ascii -> bool) (s : string) : string :=
  match s with
  | EmptyString => EmptyString
  | String c s' =>
      match rstrip_by p s' with
      | EmptyString => if p c then EmptyString else String c EmptyString
      | r => String c r
      end
  end.

Definition strip_by (p : ascii -> bool) (s : string) : string :=
  rstrip_by p (lstrip_by p s).

(** [s.strip()] *)
Definition strip (s : string) : string := strip_by is_space s.

(** [s.strip(':')] *)
Definition strip_colons (s : string) : string := strip_by is_colon s.

(** *** The two regular-expression substitutions of the collapser *)

(** [re.sub(r':.*', '', s)]: every match starts at a colon and runs to the end
    of the line, since [.] does not match a line feed; [skip] says that the
    scan is inside a match. *)
Fixpoint sub_colon_dotstar_from (skip : bool) (s : string) : string :=
  match s with
  | EmptyString => EmptyString
  | String c s' =>
      if is_newline c then String c (sub_colon_dotstar_from false s')
      else if skip then sub_colon_dotstar_from true s'
      else if is_colon c then sub_colon_dotstar_from true s'
      else String c (sub_colon_dotstar_from false s')
  end.

Definition sub_colon_dotstar (s : string) : string :=
  sub_colon_dotstar_from false s.

(** [re.sub(':+', ':', s)]: a run of colons becomes one colon; [prev] says
    that the previous character was a colon. *)
Fixpoint sub_colon_plus_from (prev : bool) (s : string) : string :=
  match s with
  | EmptyString => EmptyString
  | String c s' =>
      if is_colon c
      then if prev then sub_colon_plus_from true s'
           else String c (sub_colon_plus_from true s')
      else String c (sub_colon_plus_from false s')
  end.

Definition sub_colon_plus (s : string) : string :=
  sub_colon_plus_from false s.

(** *** Text columns *)

(** [Series.astype(str)] on a cell of a text column: a missing value prints
    as ['nan']. *)
Definition astype_str (c : option string) : string :=
  match c with
  | Some s => s
  | None => "nan"
  end.

(** [Series.replace(old, new)]: replaces cells that are equal to [old] as a
    whole. *)
Definition replace_value (old new s : string) : string :=
  if String.eqb s old then new else s.

(** *** Integers and text *)

(** [str(z)] for a Python [int]. *)
Definition str_of_int (z : Z) : string :=
  NilZero.string_of_int (Z.to_int z).

(** The digits of an integer literal as [int(s)] reads them: decimal digits,
    single underscores allowed between two digits. [seen] says that the
    previous character was a digit. *)
Fixpoint int_digits (s : string) (acc : Z) (seen : bool) : option Z :=
  match s with
  | EmptyString => if seen then Some acc else None
  | String c s' =>
      if is_digit c then int_digits s' (10 * acc + digit_val c) true
      else if Ascii.eqb c "_"
           then if seen then int_digits s' acc false else None
           else None
  end.

(** [int(s)] on text: surrounding whitespace is ignored, one sign is allowed;
    anything else is a [ValueError]. The value is a Python [int], without
    bound. *)
Definition int_of_str (s : string) : result Z :=
  let body := strip_by is_int_space s in
  let parsed :=
    match body with
    | String "-" d => option_map Z.opp (int_digits d 0 false)
    | String "+" d => int_digits d 0 false
    | _ => int_digits body 0 false
    end in
  match parsed with
  | Some z => Ok z
  | None => Raise ValueError
  end.

(** *** 64-bit integers and floats *)

Definition int64_min : Z := - 2 ^ 63.
Definition int64_max : Z := 2 ^ 63 - 1.

Definition in_int64 (z : Z) : bool :=
  (int64_min <=? z)%Z && (z <=? int64_max)%Z.

(** A Python [int] stored in an int64 array: a value that does not fit is an
    [OverflowError]. *)
Definition to_int64 (z : Z) : result Z :=
  if in_int64 z then Ok z else Raise OverflowError.

(** Arithmetic on int64 arrays wraps around. *)
Definition wrap64 (z : Z) : Z := (z + 2 ^ 63) mod 2 ^ 64 - 2 ^ 63.

(** An integer stored in a float64 array: the nearest value with 53
    significant bits, ties to the even one. *)
Definition round_binary64 (z : Z) : Z :=
  let a := Z.abs z in
  if (a <? 2 ^ 53)%Z then z
  else
    let e := Z.log2 a - 52 in
    let q := a / 2 ^ e in
    let r := a mod 2 ^ e in
    let half := 2 ^ (e - 1) in
    let q := if (half <? r)%Z || ((r =? half)%Z && Z.odd q) then q + 1 else q in
    Z.sgn z * (q * 2 ^ e).

(** [np.asarray] of an [Int64] column: an int64 array when no value is
    missing, and a float64 array with NaN for the missing values otherwise,
    every number then being rounded to 53 significant bits. *)
Definition asarray_Int64 (col : list (option Z)) : list (option Z) :=
  if existsb (fun c => match c with
                       | Some _ => false
                       | None => true
                       end) col
  then map (option_map round_binary64) col
  else col.

(** [Series.astype('Int64')] on a cell of a text column: a missing value
    becomes [pd.NA], text goes through [int] and into an int64 array. *)
Definition astype_Int64 (c : option string) : result (option Z) :=
  match c with
  | None => Ok None
  | Some s => z <- int_of_str s ;; z <- to_int64 z ;; Ok (Some z)
  end.

(** [s.startswith(p)] *)
Fixpoint startswith (p s : string) : bool :=
  match p, s with
  | EmptyString, _ => true
  | String a p', String b s' => Ascii.eqb a b && startswith p' s'
  | String _ _, EmptyString => false
  end.

(** [s.replace(old, new)] for a non-empty [old]: the occurrences of [old] are
    replaced from left to right, without overlap; [skip] counts the
    characters of a replaced occurrence that are still to be passed over. *)
Fixpoint str_replace_from (old new : string) (skip : nat) (s : string) : string :=
  match s with
  | EmptyString => EmptyString
  | String c s' =>
      match skip with
      | S k => str_replace_from old new k s'
      | O =>
          if startswith old s
          then new ++ str_replace_from old new (String.length old - 1) s'
          else String c (str_replace_from old new O s')
      end
  end.

Definition str_replace (old new s : string) : string :=
  str_replace_from old new O s.

(** [Series.str.replace(old, new)]: the pattern is literal ([regex=False] is the
    default of the pandas versions that know the option set at line 11);
    missing stays missing. *)
Definition series_str_replace (old new : string) (c : option string) : option string :=
  option_map (str_replace old new) c.

(** The leading run of decimal digits of [s] as a number, continuing [acc]. *)
Fixpoint digit_run (s : string) (acc : Z) : Z :=
  match s with
  | String c s' => if is_digit c then digit_run s' (10 * acc + digit_val c) else acc
  | EmptyString => acc
  end.

Definition starts_with_digit (s : string) : bool :=
  match s with
  | String c _ => is_digit c
  | EmptyString => false
  end.

(** [s.str.extract(r'([-]?\d+)', expand=False)] on one cell, and the number
    [pd.to_numeric] reads in the match: the leftmost match of an optional
    minus sign followed by digits, as an integer; missing when nothing
    matches. How the column of these numbers is stored is
    [to_numeric_Int64] below. *)
Fixpoint extract_int (s : string) : option Z :=
  match s with
  | EmptyString => None
  | String c s' =>
      if is_digit c then Some (digit_run s 0)
      else if Ascii.eqb c "-" && starts_with_digit s'
           then Some (- digit_run s' 0)
           else extract_int s'
  end.

(** [pd.to_numeric(extracted, errors='coerce').astype('Int64')] on the column
    of the numbers read in the matches. [pd.to_numeric] gives an int64 array
    when every row has a number and all of them fit, and a float64 array as
    soon as a row has none or a number lies below the int64 range, every
    number then being rounded to 53 significant bits. The cast to [Int64]
    checks that the values survive it: a value from 2^63 on does not, and
    the cast fails with a [TypeError]. *)
Definition to_numeric_Int64 (col : list (option Z)) : result (list (option Z)) :=
  let is_float64 :=
    existsb (fun c => match c with
                      | Some z => (z <? int64_min)%Z
                      | None => true
                      end) col in
  let stored := if is_float64 then map (option_map round_binary64) col else col in
  if forallb (fun c => match c with
                       | Some z => in_int64 z
                       | None => true
                       end) stored
  then Ok stored
  else Raise TypeError.

(** *** Numbers in text *)

(** The whitespace of the C parser behind [pd.to_numeric]. *)
Definition is_c_space (c : ascii) : bool :=
  let n := code c in
  ((9 <=? n)%nat && (n <=? 13)%nat) || (n =? 32)%nat.

(** The text as that parser sees it: what precedes its first NUL character. *)
Fixpoint c_string (s : string) : string :=
  match s with
  | EmptyString => EmptyString
  | String c s' => if (code c =? 0)%nat then EmptyString else String c (c_string s')
  end.

Fixpoint drop_digits (s : string) : string :=
  match s with
  | String c s' => if is_digit c then drop_digits s' else s
  | EmptyString => EmptyString
  end.

Definition drop_sign (s : string) : string :=
  match s with
  | String c s' => if Ascii.eqb c "+" || Ascii.eqb c "-" then s' else s
  | EmptyString => EmptyString
  end.

(** The shape of a decimal number: whitespace, a sign, digits with at most
    one point and at least one digit, an exponent, whitespace; all of them
    optional but the digit. An [e] that no digit follows is no exponent. *)
Definition numeral_shape (s : string) : bool :=
  let s := drop_sign (lstrip_by is_c_space s) in
  let whole := starts_with_digit s in
  let s := drop_digits s in
  let fraction :=
    match s with
    | String c s' => Ascii.eqb c "." && starts_with_digit s'
    | EmptyString => false
    end in
  let s :=
    match s with
    | String c s' => if Ascii.eqb c "." then drop_digits s' else s
    | EmptyString => EmptyString
    end in
  let s :=
    match s with
    | String c s' =>
        if (Ascii.eqb c "e" || Ascii.eqb c "E") && starts_with_digit (drop_sign s')
        then drop_digits (drop_sign s')
        else s
    | EmptyString => EmptyString
    end in
  (whole || fraction)
  && match lstrip_by is_c_space s with
     | EmptyString => true
     | String _ _ => false
     end.

Definition lower (c : ascii) : ascii :=
  if (65 <=? code c)%nat && (code c <=? 90)%nat then ascii_of_nat (code c + 32) else c.

Fixpoint lower_text (s : string) : string :=
  match s with
  | EmptyString => EmptyString
  | String c s' => String (lower c) (lower_text s')
  end.

(** The names of the infinities, in any mix of upper and lower case. *)
Definition is_infinity_name (s : string) : bool :=
  existsb (String.eqb (lower_text s))
    ["inf"; "+inf"; "-inf"; "infinity"; "+infinity"; "-infinity"].

(** The texts in which [pd.to_numeric] reads a number. *)
Definition numeric_text (s : string) : bool :=
  numeral_shape (c_string s) || is_infinity_name (c_string s).

(** *** [np.where] *)

(** [np.where(cond, a, b)] at one position. *)
Definition np_where {A : Type} (cond : bool) (a b : A) : A :=
  if cond then a else b.

(** [column == k] at one position of an object column of integers: a missing
    value compares unequal. *)
Definition eq_int (c : option Z) (k : Z) : bool :=
  match c with
  | Some z => (z =? k)%Z
  | None => false
  end.

(** Comparison of a cell of a nullable-integer ([Int64]) column with a
    constant: the result is [pd.NA] on a missing value. *)
Definition le_Int64 (c : option Z) (k : Z) : option bool :=
  option_map (fun z => (z <=? k)%Z) c.

Definition gt_Int64 (c : option Z) (k : Z) : option bool :=
  option_map (fun z => (k <? z)%Z) c.

(** [a & b] on nullable booleans (Kleene logic). *)
Definition and_boolean (a b : option bool) : option bool :=
  match a, b with
  | Some false, _ | _, Some false => Some false
  | Some true, Some true => Some true
  | _, _ => None
  end.

(** A nullable boolean used as the condition of [np.where]: the mask is
    converted cell by cell with [bool], and [bool(pd.NA)] is a [TypeError]. *)
Definition truth (c : option bool) : result bool :=
  match c with
  | Some b => Ok b
  | None => Raise TypeError
  end.

(** *** Cells of a spreadsheet column *)

(** What [pd.read_excel] leaves in a column of mixed content: an empty cell,
    a whole number, a fractional number or text. *)
Inductive cell : Set :=
| NaN
| Int (z : Z)
| Flt (f : float)
| Str (s : string).

(** [cell != s] for a text constant [s]: only text can be equal to text. *)
Definition cell_ne_str (c : cell) (s : string) : bool :=
  match c with
  | Str t => negb (String.eqb t s)
  | _ => true
  end.

(** [int(f)] for a float: truncation toward zero; a NaN or an infinity has
    no integer value. *)
Definition trunc_float (f : float) : option Z :=
  match Prim2SF f with
  | S754_zero _ => Some 0
  | S754_finite s m e =>
      let mag := if (0 <=? e)%Z then Z.pos m * 2 ^ e else Z.pos m / 2 ^ (- e) in
      Some (if s then - mag else mag)
  | S754_infinity _ | S754_nan => None
  end.

(** [astype(int)] on one cell of an object column: [int] of the cell's
    value, stored in an int64 array. An empty cell, a NaN and text that is
    no integer literal are refused with a [ValueError], an infinity and a
    value that does not fit with an [OverflowError]. *)
Definition astype_int (c : cell) : result Z :=
  match c with
  | NaN => Raise ValueError
  | Int z => to_int64 z
  | Flt f => match trunc_float f with
             | Some z => to_int64 z
             | None => if PrimFloat.is_nan f then Raise ValueError
                       else Raise OverflowError
             end
  | Str s => z <- int_of_str s ;; to_int64 z
  end.

(** [float(z)] for a Python [int]: the nearest binary64 value, ties to even. *)
Definition float_of_int (z : Z) : float :=
  SF2Prim (binary_normalize prec emax z 0 false).

(** [Series.fillna('')] on a cell of a text column. *)
Definition fillna_empty (c : option string) : option string :=
  match c with
  | Some s => Some s
  | None => Some ""
  end.

(** Equality of join keys: pandas matches a missing key with a missing key. *)
Definition key_eqb {K : Type} (eqb : K -> K -> bool) (a b : option K) : bool :=
  match a, b with
  | Some x, Some y => eqb x y
  | None, None => true
  | _, _ => false
  end.

(** [left.merge(right, how='left', ...)] with the key comparison [same_key]:
    the rows of [left] in order, each paired with every matching row of
    [right] in the order of [right], or once with nothing (all columns of
    [right] missing) when no row matches. *)
Definition merge_left {L R : Type} (same_key : L -> R -> bool)
    (left : list L) (right : list R) : list (L * option R) :=
  flat_map
    (fun l =>
       match filter (same_key l) right with
       | [] => [(l, None)]
       | matches => map (fun r => (l, Some r)) matches
       end)
    left.

(** How often a left row appears in a left join: once for every row of
    [right] that matches it, and once when none does. *)
Definition times_joined {R : Type} (matches : R -> bool) (right : list R) : nat :=
  Nat.max 1 (List.length (filter matches right)).

End Py.

Import Py.

(* ================================================================= *)
(** ** [build_dataset]: the multi-part question collapser (lines 69-76) *)

(** The loop body's treatment of one sub-column cell. *)
Definition clean_subcolumn (c : option string) : string :=
  let s := astype_str c in
  let s := replace_value "nan" "" s in
  sub_colon_dotstar (strip s).

(** [df['Q3'] = ''; for q in ...: df['Q3'] = df['Q3'] + df[col_name] + ':'],
    then the two clean-up steps, for one respondent row whose sub-column cells
    are [cols], in column order. *)
Definition multipart_collapse (cols : list (option string)) : string :=
  let joined :=
    fold_left (fun acc c => acc ++ clean_subcolumn c ++ ":") cols "" in
  strip_colons (sub_colon_plus joined).


(** What the specification says of the collapsed text: no run of colons, no
    colon at either end; and of a sub-column: what precedes its first colon. *)
Fixpoint has_colon_run (s : string) : bool :=
  match s with
  | EmptyString => false
  | String a s' =>
      match s' with
      | EmptyString => false
      | String b _ => (is_colon a && is_colon b) || has_colon_run s'
      end
  end.

Definition starts_with_colon (s : string) : bool :=
  match s with
  | EmptyString => false
  | String a _ => is_colon a
  end.

Fixpoint ends_with_colon (s : string) : bool :=
  match s with
  | EmptyString => false
  | String a EmptyString => is_colon a
  | String _ s' => ends_with_colon s'
  end.

Fixpoint before_first_colon (s : string) : string :=
  match s with
  | EmptyString => EmptyString
  | String a s' => if is_colon a then EmptyString else String a (before_first_colon s')
  end.

Fixpoint has_newline (s : string) : bool :=
  match s with
  | EmptyString => false
  | String a s' => is_newline a || has_newline s'
  end.

(** The lines of a text, that is the pieces between its line feeds, and the
    text of given lines. *)
Fixpoint lines (s : string) : list string :=
  match s with
  | EmptyString => [EmptyString]
  | String c s' =>
      if is_newline c then EmptyString :: lines s'
      else match lines s' with
           | l :: ls => String c l :: ls
           | [] => [String c EmptyString]
           end
  end.

Definition join_lines (ls : list string) : string :=
  String.concat (String "010" EmptyString) ls.

(** The text the loop gathers from the sub-columns [cols], written as one
    concatenation. *)
Fixpoint gathered (cols : list (option string)) : string :=
  match cols with
  | [] => ""
  | c :: rest => (clean_subcolumn c ++ ":") ++ gathered rest
  end.

(* ================================================================= *)
(** ** [build_dataset]: career stage (lines 101-107) *)

(** [df_clean['Q4_years'] = 2021 - df_clean['Q4']] at one row of the [Int64]
    column. *)
Definition Q4_years (Q4 : option Z) : option Z :=
  option_map (fun y => wrap64 (2021 - y)) Q4.

(** The three [np.where] assignments to [Q4_stage] at one row. The column
    starts as NaN, which [np.where] turns into the text ['nan'] next to the
    text labels. *)
Definition Q4_stage (years : option Z) : result string :=
  let stage := "nan" in
  c1 <- truth (le_Int64 years 10) ;;
  let stage := np_where c1 "Early" stage in
  c2 <- truth (and_boolean (gt_Int64 years 10) (le_Int64 years 25)) ;;
  let stage := np_where c2 "Middle" stage in
  c3 <- truth (gt_Int64 years 25) ;;
  let stage := np_where c3 "Senior" stage in
  Ok stage.

(** The two derived columns over the whole [Q4] column. *)
Definition Q4_stage_column (Q4 : list (option Z)) : result (list string) :=
  mapM (fun y => Q4_stage (Q4_years y)) Q4.

(* ================================================================= *)
(** ** [build_dataset]: ranked/Likert collapser (lines 312-321) *)

(** [df[[c1, ..., c7]].bfill(axis=1).iloc[:, 0]] at one row: the first
    sub-column that is not missing. *)
Fixpoint bfill_first (cols : list (option string)) : option string :=
  match cols with
  | [] => None
  | Some s :: _ => Some s
  | None :: rest => bfill_first rest
  end.

(** One item of a Likert family whose anchors are labelled [hi], [lo] and
    [mid]; [cols] are the seven pagination sub-columns of the item. *)
Definition likert_collapse (hi lo mid : string) (cols : list (option string))
  : result (option Z) :=
  let v := bfill_first cols in
  let v := series_str_replace hi "3" v in
  let v := series_str_replace lo "-3" v in
  let v := series_str_replace mid "0" v in
  astype_Int64 v.

(** [Q12_q] from [Q13_q_1 .. Q13_q_7]. *)
Definition Q12_item : list (option string) -> result (option Z) :=
  likert_collapse "(3) extremely possible" "(-3) not at all possible" "(0) neither".




(* ================================================================= *)
(** ** [build_dataset]: panel and domain of a subject area (lines 183-289) *)

(** The 34 assignments [np.where(df_clean['Q8_uoa'] == k, v, ...)] to
    [Q8_panel], in source order. *)
Definition Q8_panel_rules : list (Z * string) :=
  [ (1, "A"); (2, "A"); (3, "A"); (4, "A"); (5, "A"); (6, "A");
    (7, "B"); (8, "B"); (9, "B"); (10, "B"); (11, "B"); (12, "B");
    (13, "C"); (14, "C"); (15, "C"); (16, "C"); (17, "C"); (18, "C");
    (19, "C"); (20, "C"); (21, "C"); (22, "C"); (23, "C"); (24, "C");
    (25, "D"); (26, "D"); (27, "D"); (28, "D"); (29, "D"); (30, "D");
    (31, "D"); (32, "D"); (33, "D"); (34, "D") ].

(** The 34 assignments to [Q8_stemshape], in source order. *)
Definition Q8_stemshape_rules : list (Z * string) :=
  [ (1, "STEM"); (2, "STEM"); (3, "STEM"); (4, "SHAPE"); (5, "STEM");
    (6, "STEM"); (7, "STEM"); (8, "STEM"); (9, "STEM"); (10, "STEM");
    (11, "STEM"); (12, "STEM"); (13, "SHAPE"); (14, "SHAPE"); (15, "SHAPE");
    (16, "SHAPE"); (17, "SHAPE"); (18, "SHAPE"); (19, "SHAPE"); (20, "SHAPE");
    (21, "SHAPE"); (22, "SHAPE"); (23, "SHAPE"); (24, "SHAPE"); (25, "SHAPE");
    (26, "SHAPE"); (27, "SHAPE"); (28, "SHAPE"); (29, "SHAPE"); (30, "SHAPE");
    (31, "SHAPE"); (32, "SHAPE"); (33, "SHAPE"); (34, "SHAPE") ].

(** The 34 assignments to [Q8_stemshape_binary], in source order; next to the
    NaN column the integers 1 and 0 are stored as floats. *)
Definition Q8_stemshape_binary_rules : list (Z * float) :=
  [ (1, 1%float); (2, 1%float); (3, 1%float); (4, 0%float); (5, 1%float);
    (6, 1%float); (7, 1%float); (8, 1%float); (9, 1%float); (10, 1%float);
    (11, 1%float); (12, 1%float); (13, 0%float); (14, 0%float);
    (15, 0%float); (16, 0%float); (17, 0%float); (18, 0%float);
    (19, 0%float); (20, 0%float); (21, 0%float); (22, 0%float);
    (23, 0%float); (24, 0%float); (25, 0%float); (26, 0%float);
    (27, 0%float); (28, 0%float); (29, 0%float); (30, 0%float);
    (31, 0%float); (32, 0%float); (33, 0%float); (34, 0%float) ].

(** A column that starts at [init] and is overwritten by one [np.where] per
    rule, at the row whose subject-area code is [uoa]. *)
Definition recode {V : Type} (rules : list (Z * V)) (init : V) (uoa : option Z) : V :=
  fold_left (fun prev rule => np_where (eq_int uoa (fst rule)) (snd rule) prev)
            rules init.

Definition Q8_panel : option Z -> string := recode Q8_panel_rules "nan".
Definition Q8_stemshape : option Z -> string := recode Q8_stemshape_rules "nan".
Definition Q8_stemshape_binary : option Z -> float :=
  recode Q8_stemshape_binary_rules nan.

(* ================================================================= *)
(** ** [format_ids] (lines 13-36) *)

(** A row of a sheet of the REF workbooks, as [format_ids] receives it: the
    institution code, ['Unit of assessment number'], ['Multiple submission
    letter'], and the remaining columns by label. The sheets have rows
    that hold the placeholder [' '], so that the columns are object columns
    and a cell is whatever [pd.read_excel] found in it. *)
Record sheet_row : Set := {
  institution_code : cell;
  unit_of_assessment_number : cell;
  multiple_submission_letter : option string;
  other_columns : list (string * cell)
}.

(** A sheet: the label of its institution code column, and its rows. *)
Record sheet : Set := {
  institution_label : string;
  body : list sheet_row
}.

(** A row that carries the two identifiers of a department. *)
Class Keyed (R : Type) : Type := {
  inst_id : R -> Z;
  uoa_id : R -> string
}.

(** A row of the table [format_ids] returns. *)
Record id_row : Set := {
  id_row_inst_id : Z;
  id_row_uoa_id : string;
  source_row : sheet_row
}.

#[export] Instance id_row_Keyed : Keyed id_row :=
  {| inst_id := id_row_inst_id; uoa_id := id_row_uoa_id |}.

(** [df.rename(columns={old: 'inst_id'})], guarded by [old in df.columns]. *)
Definition rename_to_inst_id (old label : string) : string :=
  if String.eqb label old then "inst_id" else label.

(** The table with its two new columns, row by row. *)
Fixpoint with_ids (inst : list Z) (uoa : list string) (rows : list sheet_row)
  : list id_row :=
  match inst, uoa, rows with
  | i :: inst', u :: uoa', r :: rows' =>
      {| id_row_inst_id := i; id_row_uoa_id := u; source_row := r |}
      :: with_ids inst' uoa' rows'
  | _, _, _ => []
  end.

Definition format_ids (df : sheet) : result (list id_row) :=
  let label := rename_to_inst_id "Institution UKPRN code" (institution_label df) in
  let label := rename_to_inst_id "Institution code (UKPRN)" label in
  if negb (String.eqb label "inst_id") then Raise KeyError else
  let rows := filter (fun r => cell_ne_str (institution_code r) " ") (body df) in
  inst <- mapM (fun r => astype_int (institution_code r)) rows ;;
  number <- mapM (fun r => astype_int (unit_of_assessment_number r)) rows ;;
  let letter :=
    map (fun r => astype_str (fillna_empty (multiple_submission_letter r))) rows in
  let uoa := map (fun nl => str_of_int (fst nl) ++ snd nl) (combine number letter) in
  Ok (with_ids inst uoa rows).

(** The institution code column has one of the labels [format_ids] knows. *)
Definition known_label (df : sheet) : Prop :=
  institution_label df = "Institution UKPRN code"
  \/ institution_label df = "Institution code (UKPRN)"
  \/ institution_label df = "inst_id".

(** What the specification says of one row of the result: the institution id
    is the integer value of the code, and [uoa_id] is the decimal text of the
    integer value of the unit of assessment number, followed by the
    submission letter if there is one. *)
Definition formatted (row : id_row) : Prop :=
  astype_int (institution_code (source_row row)) = Ok (inst_id row)
  /\ exists n : Z,
      astype_int (unit_of_assessment_number (source_row row)) = Ok n
      /\ uoa_id row
         = str_of_int n
           ++ match multiple_submission_letter (source_row row) with
              | Some letter => letter
              | None => ""
              end.

(* ================================================================= *)
(** ** [merge_ins_uoa] (lines 39-56) *)

Section MergeInsUoa.

Context {A B : Type} `{Keyed A} `{Keyed B}.

(** [all(df1[id1].isin(df2[id1]))] and [all(df1[id2].isin(df2[id2]))], with
    the default labels ['inst_id'] and ['uoa_id'] of every call. *)
Definition all_inst_id_isin (df1 : list A) (df2 : list B) : bool :=
  forallb (fun a => existsb (fun b => (inst_id a =? inst_id b)%Z) df2) df1.

Definition all_uoa_id_isin (df1 : list A) (df2 : list B) : bool :=
  forallb (fun a => existsb (fun b => String.eqb (uoa_id a) (uoa_id b)) df2) df1.

(** The key comparison of [on=[id1, id2]]. *)
Definition same_ins_uoa (a : A) (b : B) : bool :=
  (inst_id a =? inst_id b)%Z && String.eqb (uoa_id a) (uoa_id b).

Definition merge_ins_uoa (df1 : list A) (df2 : list B)
  : result (list (A * option B)) :=
  _ <- assert (all_inst_id_isin df1 df2) ;;
  _ <- assert (all_uoa_id_isin df1 df2) ;;
  Ok (merge_left same_ins_uoa df1 df2).

End MergeInsUoa.

(** A joined row keeps the identifiers of its left part, so that the result
    of one [merge_ins_uoa] is the left table of the next. *)
#[export] Instance joined_Keyed {A B : Type} `{Keyed A} : Keyed (A * option B) :=
  {| inst_id := fun r => inst_id (fst r); uoa_id := fun r => uoa_id (fst r) |}.

(* ================================================================= *)
(** ** [build_dataset]: grade point averages (lines 449-464) *)

Inductive band : Set := Four_star | Three_star | Two_star | One_star | Unclassified.
Inductive profile : Set := Outputs | Impact | Environment | Overall.

(** A row of [raw_dep], the department-level table: the cell under the label
    ['4*_Impact'] is [score Four_star Impact], and so on. *)
Record dept_row : Type := {
  dept_inst_id : Z;
  Institution_name : option string;
  dept_uoa_id : string;
  score : band -> profile -> cell;
  dept_columns : list (string * cell)
}.

#[export] Instance dept_row_Keyed : Keyed dept_row :=
  {| inst_id := dept_inst_id; uoa_id := dept_uoa_id |}.

Section GradePointAverage.

(** The value [pd.to_numeric] reads in a text that has the shape of a
    number. The conversion of the digits is left unspecified: the
    development holds for every such function. *)
Variable float_of_text : string -> float.

(** [pd.to_numeric(column, errors='coerce')] at one cell, for a column that
    comes out as float64 (any column with an empty cell, a fractional number
    or text that is no number; the products and sums of whole percentages
    are the same in integer arithmetic). Text that is no number is coerced
    to NaN. *)
Definition to_numeric (c : cell) : float :=
  match c with
  | NaN => nan
  | Int z => float_of_int z
  | Flt f => f
  | Str s => if numeric_text s then float_of_text s else nan
  end.

(** The grade point average of one profile of a department. *)
Definition GPA (p : profile) (r : dept_row) : float :=
  ((to_numeric (score r Four_star p) * 4
    + to_numeric (score r Three_star p) * 3
    + to_numeric (score r Two_star p) * 2
    + to_numeric (score r One_star p)) / 100)%float.

Definition ICS_GPA : dept_row -> float := GPA Impact.
Definition Environment_GPA : dept_row -> float := GPA Environment.
Definition Output_GPA : dept_row -> float := GPA Outputs.
Definition Overall_GPA : dept_row -> float := GPA Overall.

End GradePointAverage.

(** The formula of the specification, on four percentages. *)
Definition gpa_formula (pct_4star pct_3star pct_2star pct_1star : float) : float :=
  ((4 * pct_4star + 3 * pct_3star + 2 * pct_2star + 1 * pct_1star) / 100)%float.

(* ================================================================= *)
(** ** [build_dataset]: the final merge (lines 465-498) *)

(** A row of [df_clean]: the columns the merge reads, and the other answers. *)
Record respondent : Set := {
  Q1 : string;
  Q3 : option string;
  Q8_uoa : option Z;
  PIPD : option Z;
  answers : list (string * cell)
}.

(** [raw_dep] at the time of the merge: [uoa_id] has been replaced by the
    number in it, and the four averages have been added. *)
Record department : Type := {
  dept : dept_row;
  uoa_number : option Z;
  gpa : profile -> float
}.

(** A row of [classification.csv]. *)
Record classification_row : Set := {
  Q28 : option Z;
  classification_columns : list (string * cell)
}.

(** A row of [all_unis_manual.csv]. *)
Record manual_row : Set := {
  manual_Q3 : option string;
  manual_is_oxbridge : option Z;
  manual_is_redbrick : option Z;
  manual_columns : list (string * cell)
}.

(** A row of [df_merge] as it is written to [df_clean_merged.csv]: the
    respondent, the rows joined to it ([None] where all columns of the joined
    table are missing), and the two flag columns after lines 493-494, which
    supersede those of the joined lookup row. *)
Record merged_row : Type := {
  survey : respondent;
  joined_department : option department;
  joined_classification : option classification_row;
  joined_manual : option manual_row;
  is_oxbridge : option Z;
  is_redbrick : option Z
}.

Section FinalMerge.

Variable float_of_text : string -> float.

(** Lines 449-466 at one row of [raw_dep]. The number in [uoa_id] is taken
    as it is read: the identifiers are those [format_ids] makes, for which
    the column of these numbers is stored without change. *)
Definition add_gpa (r : dept_row) : department :=
  {| dept := r;
     uoa_number := extract_int (dept_uoa_id r);
     gpa := fun p => GPA float_of_text p r |}.

(** [left_on=['Q3', 'Q8_uoa'], right_on=['Institution name', 'uoa_id']] *)
Definition same_department (r : respondent) (d : department) : bool :=
  key_eqb String.eqb (Q3 r) (Institution_name (dept d))
  && key_eqb Z.eqb (Q8_uoa r) (uoa_number d).

(** [left_on='PIPD', right_on='Q28'] *)
Definition same_PIPD (r : respondent * option department)
    (c : classification_row) : bool :=
  key_eqb Z.eqb (PIPD (fst r)) (Q28 c).

(** [on='Q3'] *)
Definition same_Q3
    (r : respondent * option department * option classification_row)
    (m : manual_row) : bool :=
  key_eqb String.eqb (Q3 (fst (fst r))) (manual_Q3 m).

(** A column of the right table in a joined row: missing where nothing was
    joined. *)
Definition joined_column {R V : Type} (col : R -> option V) (j : option R)
  : option V :=
  match j with
  | Some r => col r
  | None => None
  end.

(** Lines 493-494 at one row, and the row as it is saved. *)
Definition force_flags
    (r : respondent * option department * option classification_row
         * option manual_row) : merged_row :=
  let '(s, d, c, m) := r in
  {| survey := s;
     joined_department := d;
     joined_classification := c;
     joined_manual := m;
     is_oxbridge :=
       np_where (String.eqb (Q1 s) "Other") (Some 0)
                (joined_column manual_is_oxbridge m);
     is_redbrick :=
       np_where (String.eqb (Q1 s) "Other") (Some 0)
                (joined_column manual_is_redbrick m) |}.

(** The three merges and the two flag assignments of [build_dataset]. *)
Definition build_dataset (df_clean : list respondent) (raw_dep : list dept_row)
    (classification : list classification_row) (df_manual : list manual_row)
  : list merged_row :=
  let raw_dep := map add_gpa raw_dep in
  let df_merge := merge_left same_department df_clean raw_dep in
  let df_merge := merge_left same_PIPD df_merge classification in
  let df_merge := merge_left same_Q3 df_merge df_manual in
  map force_flags df_merge.

End FinalMerge.

(** The key of a row of [raw_dep] in the merge with [df_clean], once its
    [uoa_id] has been reduced to the number in it. *)
Definition department_key (d : dept_row) : option string * option Z :=
  (Institution_name d, extract_int (dept_uoa_id d)).

(* ================================================================= *)
(** ** [build_dataset]: the department-level table (lines 439-447) *)

(** The integer a float is equal to, if any. *)
Definition float_as_integer (f : float) : option Z :=
  match Prim2SF f with
  | S754_zero _ => Some 0
  | S754_finite s m e =>
      let sign := if s then (-1) else 1 in
      if (0 <=? e)%Z then Some (sign * (Z.pos m * 2 ^ e))
      else if (Z.pos m mod 2 ^ (- e) =? 0)%Z
           then Some (sign * (Z.pos m / 2 ^ (- e)))
           else None
  | S754_infinity _ | S754_nan => None
  end.

(** Two cells that [drop_duplicates] takes for the same value: two missing
    values, two equal numbers, or the same text. *)
Definition cell_same (a b : cell) : bool :=
  match a, b with
  | NaN, NaN => true
  | NaN, Flt f | Flt f, NaN => PrimFloat.is_nan f
  | Int x, Int y => (x =? y)%Z
  | Flt f, Flt g => (f =? g)%float || (PrimFloat.is_nan f && PrimFloat.is_nan g)
  | Int x, Flt f | Flt f, Int x =>
      match float_as_integer f with
      | Some y => (x =? y)%Z
      | None => false
      end
  | Str s, Str t => String.eqb s t
  | _, _ => false
  end.

(** [df.drop_duplicates()]: a row is dropped when a row before it holds the
    same values; [seen] are the rows kept so far. *)
Fixpoint drop_duplicates_from {R : Type} (same : R -> R -> bool) (seen : list R)
    (df : list R) : list R :=
  match df with
  | [] => []
  | r :: df' =>
      if existsb (same r) seen
      then drop_duplicates_from same seen df'
      else r :: drop_duplicates_from same (r :: seen) df'
  end.

Definition drop_duplicates {R : Type} (same : R -> R -> bool) (df : list R) : list R :=
  drop_duplicates_from same [] df.

(** A row of [raw_results] after [format_ids] and the renaming of lines
    401-404: the columns line 440 selects, the profile, and the remaining
    columns by label. *)
Record results_row : Set := {
  results_inst_id : Z;
  results_Institution_name : cell;
  results_uoa_id : string;
  results_fte : cell;
  results_fte_pc : cell;
  results_Profile : cell;
  results_columns : list (string * cell)
}.

#[export] Instance results_row_Keyed : Keyed results_row :=
  {| inst_id := results_inst_id; uoa_id := results_uoa_id |}.

(** A row of [raw_results[['inst_id', 'Institution name', 'uoa_id', 'fte',
    'fte_pc']]]. *)
Record submission : Set := {
  submission_inst_id : Z;
  submission_Institution_name : cell;
  submission_uoa_id : string;
  fte : cell;
  fte_pc : cell
}.

#[export] Instance submission_Keyed : Keyed submission :=
  {| inst_id := submission_inst_id; uoa_id := submission_uoa_id |}.

Definition submission_columns (r : results_row) : submission :=
  {| submission_inst_id := results_inst_id r;
     submission_Institution_name := results_Institution_name r;
     submission_uoa_id := results_uoa_id r;
     fte := results_fte r;
     fte_pc := results_fte_pc r |}.

Definition submission_same (a b : submission) : bool :=
  (submission_inst_id a =? submission_inst_id b)%Z
  && cell_same (submission_Institution_name a) (submission_Institution_name b)
  && String.eqb (submission_uoa_id a) (submission_uoa_id b)
  && cell_same (fte a) (fte b)
  && cell_same (fte_pc a) (fte_pc b).

(** The four calls of [merge_ins_uoa], each on the result of the one before. *)
Definition merge_chain {A B C D E : Type}
    `{Keyed A} `{Keyed B} `{Keyed C} `{Keyed D} `{Keyed E}
    (left : list A) (wide_score_card : list B)
    (raw_env_doctoral : list C) (tot_inc : list D) (tot_inc_kind : list E)
  : result (list (A * option B * option C * option D * option E)) :=
  raw_dep <- merge_ins_uoa left wide_score_card ;;
  raw_dep <- merge_ins_uoa raw_dep raw_env_doctoral ;;
  raw_dep <- merge_ins_uoa raw_dep tot_inc ;;
  merge_ins_uoa raw_dep tot_inc_kind.

(** Lines 439-447 of [build_dataset]: the department-level table is the
    results table, reduced to five columns and to one row for every
    different row of these, joined one after the other to the wide score
    card, the doctoral degrees, the total income and the total income in
    kind. *)
Definition merge_department_tables {B C D E : Type}
    `{Keyed B} `{Keyed C} `{Keyed D} `{Keyed E}
    (raw_results : list results_row) (wide_score_card : list B)
    (raw_env_doctoral : list C) (tot_inc : list D) (tot_inc_kind : list E)
  : result (list (submission * option B * option C * option D * option E)) :=
  merge_chain
    (drop_duplicates submission_same (map submission_columns raw_results))
    wide_score_card raw_env_doctoral tot_inc tot_inc_kind.

(* ================================================================= *)
(** ** Sample tables *)

(** The row [format_ids] makes of a sheet row with institution code [i],
    unit of assessment [n] and submission letter [letter]. *)
Definition id_row_of (i n : Z) (letter : option string)
    (cols : list (string * cell)) : id_row :=
  {| id_row_inst_id := i;
     id_row_uoa_id := str_of_int n ++ astype_str (fillna_empty letter);
     source_row :=
       {| institution_code := Int i;
          unit_of_assessment_number := Int n;
          multiple_submission_letter := letter;
          other_columns := cols |} |}.

(** Institution 10007783 submitted to unit 12; the right table knows the
    institution under unit 13 only, and unit 12 under institution 10007784
    only. *)
Definition sample_submission : id_row :=
  id_row_of 10007783 12 None [("fte", Flt 31.5)].

Definition sample_other_units : list id_row :=
  [ id_row_of 10007783 13 None [("tot_income", Int 1200)];
    id_row_of 10007784 12 None [("tot_income", Int 800)] ].

(** Two rows of a right table with the same pair of identifiers. *)
Definition sample_repeated_income : list id_row :=
  [ id_row_of 10007783 12 None [("tot_income", Int 1200)];
    id_row_of 10007783 12 None [("tot_income", Int 1250)] ].

(** The rows of the results table for one department: one for every
    profile. *)
Definition sample_result (profile_name : cell) : results_row :=
  {| results_inst_id := 10007783;
     results_Institution_name := Str "University of Example";
     results_uoa_id := "12";
     results_fte := Flt 31.5;
     results_fte_pc := Int 100;
     results_Profile := profile_name;
     results_columns := [("4*", Flt 20)] |}.

Definition sample_results : list results_row :=
  [ sample_result (Str "Outputs"); sample_result (Str "Impact");
    sample_result (Str "Environment"); sample_result (Str "Overall") ].

(** A sheet with a row whose institution code is the blank placeholder. *)
Definition sample_sheet : sheet :=
  {| institution_label := "Institution UKPRN code";
     body :=
       [ {| institution_code := Int 10007783;
            unit_of_assessment_number := Int 12;
            multiple_submission_letter := None;
            other_columns := [("Profile", Str "Impact")] |};
         {| institution_code := Str " ";
            unit_of_assessment_number := NaN;
            multiple_submission_letter := None;
            other_columns := [("Profile", NaN)] |};
         {| institution_code := Str "10007784";
            unit_of_assessment_number := Flt 4;
            multiple_submission_letter := Some "B";
            other_columns := [("Profile", Str "Overall")] |} ] |}.

Definition sample_sheet_formatted : list id_row :=
  [ {| id_row_inst_id := 10007783;
       id_row_uoa_id := "12";
       source_row :=
         {| institution_code := Int 10007783;
            unit_of_assessment_number := Int 12;
            multiple_submission_letter := None;
            other_columns := [("Profile", Str "Impact")] |} |};
    {| id_row_inst_id := 10007784;
       id_row_uoa_id := "4B";
       source_row :=
         {| institution_code := Str "10007784";
            unit_of_assessment_number := Flt 4;
            multiple_submission_letter := Some "B";
            other_columns := [("Profile", Str "Overall")] |} |} ].

(** A department whose four profiles all have 20% at 4*, 50% at 3*, 20% at
    2*, 10% at 1* and nothing unclassified. *)
Definition sample_scores (b : band) (p : profile) : cell :=
  match b with
  | Four_star => Int 20
  | Three_star => Flt 50
  | Two_star => Int 20
  | One_star => Flt 10
  | Unclassified => Int 0
  end.

Definition sample_department (letter : option string) : dept_row :=
  {| dept_inst_id := 10007783;
     Institution_name := Some "University of Example";
     dept_uoa_id := str_of_int 12 ++ astype_str (fillna_empty letter);
     score := sample_scores;
     dept_columns := [("fte", Flt 31.5)] |}.

(** A conversion of digits that gives up on every text. *)
Definition no_number (s : string) : float := nan.

(** A respondent of the sample institution in unit 12, and the lookup tables
    of the final merge. *)
Definition sample_respondent : respondent :=
  {| Q1 := "Research and teaching";
     Q3 := Some "University of Example";
     Q8_uoa := Some 12;
     PIPD := Some 41;
     answers := [("Q10", Int 25)] |}.

(** A respondent who reported the institution "Other". *)
Definition sample_respondent_other : respondent :=
  {| Q1 := "Research and teaching";
     Q3 := Some "Other";
     Q8_uoa := Some 12;
     PIPD := Some 42;
     answers := [("Q10", Int 30)] |}.

Definition sample_classification : list classification_row :=
  [ {| Q28 := Some 41; classification_columns := [("class", Str "a")] |};
    {| Q28 := Some 42; classification_columns := [("class", Str "b")] |} ].

Definition sample_manual : list manual_row :=
  [ {| manual_Q3 := Some "University of Example";
       manual_is_oxbridge := Some 0;
       manual_is_redbrick := Some 1;
       manual_columns := [] |} ].

(* ================================================================= *)
(** ** [build_dataset]: consent and completeness filter (lines 60-67) *)

(** [cell == s] for a text constant [s]. *)
Definition cell_eq_str (c : cell) (s : string) : bool :=
  match c with
  | Str t => String.eqb t s
  | _ => false
  end.

(** A row of the survey export: the two consent questions, the weight
    question [Q10], and the remaining columns by label. *)
Record survey_row : Set := {
  consent_Q1 : cell;
  consent_Q2 : cell;
  weight_Q10 : cell;
  survey_columns : list (string * cell)
}.

(** The five counts written to the log at lines 61-67. *)
Record filter_log : Set := {
  people_to_begin_with : nat;
  did_not_agree : nat;
  rows_of_observations : nat;
  missing_Q10 : nat;
  people_left : nat
}.

Definition survey_filter (df : list survey_row) : filter_log * list survey_row :=
  let n_begin := List.length df in
  let n_no :=
    List.length
      (filter (fun r => cell_eq_str (consent_Q1 r) "No"
                        || cell_eq_str (consent_Q2 r) "No") df) in
  let df :=
    filter (fun r => cell_ne_str (consent_Q1 r) "No"
                     && cell_ne_str (consent_Q2 r) "No") df in
  let n_rows := List.length df in
  let n_missing :=
    List.length (filter (fun r => cell_eq_str (weight_Q10 r) "") df) in
  let df := filter (fun r => cell_ne_str (weight_Q10 r) "") df in
  ({| people_to_begin_with := n_begin;
      did_not_agree := n_no;
      rows_of_observations := n_rows;
      missing_Q10 := n_missing;
      people_left := List.length df |},
   df).

(* ================================================================= *)
(** ** [build_dataset]: subject-area code (lines 138-182) *)

(** [column == s] at one position of a text column: a missing value compares
    unequal. *)
Definition eq_str (c : option string) (s : string) : bool :=
  match c with
  | Some t => String.eqb t s
  | None => false
  end.

(** The 34 assignments [np.where(df_clean['Q8'] == name, k, ...)] to
    [Q8_uoa], in source order. *)
Definition Q8_names : list (string * Z) :=
  [
    ("Clinical Medicine", 1);
    ("Public Health, Health Services and Primary Care", 2);
    ("Allied Health Professions, Dentistry, Nursing and Pharmacy", 3);
    ("Psychology, Psychiatry and Neuroscience", 4);
    ("Biological Sciences", 5);
    ("Agriculture, Food and Veterinary Sciences", 6);
    ("Earth Systems and Environmental Sciences", 7);
    ("Chemistry", 8);
    ("Physics", 9);
    ("Mathematical Sciences", 10);
    ("Computer Science and Informatics", 11);
    ("Engineering", 12);
    ("Architecture, Built Environment and Planning", 13);
    ("Geography and Environmental Studies", 14);
    ("Archaeology", 15);
    ("Economics and Econometrics", 16);
    ("Business and Management Studies", 17);
    ("Law", 18);
    ("Politics and International Studies", 19);
    ("Social Work and Social Policy", 20);
    ("Sociology", 21);
    ("Anthropology and Development Studies", 22);
    ("Education", 23);
    ("Sport and Exercise Sciences, Leisure and Tourism", 24);
    ("Area Studies", 25);
    ("Modern Languages and Linguistics", 26);
    ("English Language and Literature", 27);
    ("History", 28);
    ("Classics", 29);
    ("Philosophy", 30);
    ("Theology and Religious Studies", 31);
    ("Art and Design: History, Practice and Theory", 32);
    ("Music, Drama, Dance, Performing Arts, Film and Screen Studies", 33);
    ("Communication, Cultural and Media Studies, Library and Information Management", 34) ].

(** A cell of the object column [Q8_uoa] before its conversion: the answer
    itself, a code, or nothing. *)
Inductive Q8_value : Set :=
| Q8_label (s : string)
| Q8_code (k : Z)
| Q8_missing.

(** Lines 138-173 at one row: the column starts as a copy of [Q8], is
    overwritten by the code of the answer, and emptied for 'Other'. *)
Definition Q8_uoa_object (Q8 : option string) : Q8_value :=
  let start :=
    match Q8 with
    | Some s => Q8_label s
    | None => Q8_missing
    end in
  let recoded :=
    fold_left
      (fun prev rule => np_where (eq_str Q8 (fst rule)) (Q8_code (snd rule)) prev)
      Q8_names start in
  np_where (eq_str Q8 "Other") Q8_missing recoded.

Definition is_Q8_code (v : Q8_value) : bool :=
  match v with
  | Q8_code _ => true
  | _ => false
  end.

Definition is_Q8_label (v : Q8_value) : bool :=
  match v with
  | Q8_label _ => true
  | _ => false
  end.

(** The code held by a cell, if any. *)
Definition code_of_Q8_value (v : Q8_value) : option Z :=
  match v with
  | Q8_code k => Some k
  | _ => None
  end.

(** The integer cast of one cell of that column: a code stays, nothing
    becomes [pd.NA], and an answer left as text goes through [int] and into
    an int64 array. *)
Definition cast_Q8_value (v : Q8_value) : result (option Z) :=
  match v with
  | Q8_code k => Ok (Some k)
  | Q8_missing => Ok None
  | Q8_label s => z <- int_of_str s ;; z <- to_int64 z ;; Ok (Some z)
  end.

(** [astype('Int64')] on the object column (line 174). Every cell is cast; a
    text that is no integer literal stops the cast with a [ValueError], an
    integer literal beyond 64 bits with an [OverflowError]. In a column of
    codes and text the cast values are then compared with the cells, and a
    text differs from the integer it was cast to: a [TypeError]. A column
    of text only is taken as a column of integer literals. *)
Definition astype_Int64_object (col : list Q8_value) : result (list (option Z)) :=
  casted <- mapM cast_Q8_value col ;;
  if existsb is_Q8_code col && existsb is_Q8_label col
  then Raise TypeError
  else Ok casted.

(** The five assignments [np.where(df_clean['Q8_a'] == text, k, ...)] of lines
    178-182, in source order. *)
Definition Q8_a_write_ins : list (string * Z) :=
  [ ("Demography", 21); ("Medical ethics", 30); ("Criminology", 21);
    ("Political economy", 16); ("Gerontology", 21) ].

(** Lines 178-182 at one row. *)
Definition write_in_code (Q8_a : option string) (code : option Z) : option Z :=
  fold_left
    (fun prev rule => np_where (eq_str Q8_a (fst rule)) (Some (snd rule)) prev)
    Q8_a_write_ins code.

(** The column [Q8_uoa], from the columns [Q8] and [Q8_a] given row by row.
    [np.where] at line 178 reads the [Int64] column as an array, and the
    column is a plain array from there on. *)
Definition Q8_uoa_column (rows : list (option string * option string))
  : result (list (option Z)) :=
  codes <- astype_Int64_object (map (fun row => Q8_uoa_object (fst row)) rows) ;;
  let codes := asarray_Int64 codes in
  Ok (map (fun rc => write_in_code (snd (fst rc)) (snd rc)) (combine rows codes)).

(** The answers to [Q8] that the recoding knows. *)
Definition recognised_Q8 (Q8 : option string) : bool :=
  match Q8 with
  | None => true
  | Some s => String.eqb s "Other" || existsb (String.eqb s) (map fst Q8_names)
  end.

(* ================================================================= *)
(** ** [build_dataset]: [Q7_uoa] (lines 116-129) and [Q15] (lines 348-351) *)

(** The number read for [Q7_uoa] at one row, from the 35 sub-columns
    [Q7_1 .. Q7_35]. *)
Definition Q7_uoa (cols : list (option string)) : option Z :=
  extract_int (multipart_collapse cols).

(** The column [Q7_uoa] as it is stored, from the sub-columns of every
    respondent. *)
Definition Q7_uoa_column (rows : list (list (option string)))
  : result (list (option Z)) :=
  to_numeric_Int64 (map Q7_uoa rows).


(* ================================================================= *)
(** ** [build_dataset]: the audit table (lines 467-488) *)

(** [Series.notnull()] at one position of a text or nullable-integer column. *)
Definition notnull {A : Type} (c : option A) : bool :=
  match c with
  | Some _ => true
  | None => false
  end.

Section AuditTable.

Variable float_of_text : string -> float.

(** [df_merge['ICS_GPA']] at one row of the first merge: NaN where no
    department was joined. *)
Definition merged_ICS_GPA (row : respondent * option department) : float :=
  match snd row with
  | Some d => gpa d Impact
  | None => nan
  end.

(** The table saved to [institutions_didnt_submit_to_uoa.csv]: the rows of
    the first merge without an impact average, filtered three more times. *)
Definition institutions_didnt_submit_to_uoa (df_clean : list respondent)
    (raw_dep : list dept_row) : list (respondent * option department) :=
  let df_merge :=
    merge_left same_department df_clean (map (add_gpa float_of_text) raw_dep) in
  let temp := filter (fun row => PrimFloat.is_nan (merged_ICS_GPA row)) df_merge in
  let temp := filter (fun row => notnull (Q3 (fst row))) temp in
  let temp := filter (fun row => negb (eq_str (Q3 (fst row)) "Other")) temp in
  let temp := filter (fun row => notnull (Q8_uoa (fst row))) temp in
  temp.

End AuditTable.

(* ================================================================= *)
(** ** [run_OLS] ([src/model_helpers.py]) *)

(** A table with labelled columns: its labels, and its rows as cells by
    label. The labels are distinct, as in the tables of the project (a
    repeated label would make [temp[var]] a table instead of a column); a row
    without a cell under a label holds nothing there. *)
Record frame : Set := {
  frame_columns : list string;
  frame_rows : list (list (string * cell))
}.

(** The cell of a row under a label. *)
Fixpoint cell_at (label : string) (row : list (string * cell)) : cell :=
  match row with
  | [] => NaN
  | (l, c) :: rest => if String.eqb l label then c else cell_at label rest
  end.

(** [Series.notnull()] at one cell: an empty cell and a float NaN are null. *)
Definition cell_notnull (c : cell) : bool :=
  match c with
  | NaN => false
  | Flt f => negb (PrimFloat.is_nan f)
  | Int _ | Str _ => true
  end.

(** [temp = temp[temp[var].notnull()]]; a label that is no column is a
    [KeyError]. *)
Definition keep_notnull (var : string) (temp : frame) : result frame :=
  if existsb (String.eqb var) (frame_columns temp)
  then Ok {| frame_columns := frame_columns temp;
             frame_rows :=
               filter (fun row => cell_notnull (cell_at var row)) (frame_rows temp) |}
  else Raise KeyError.

(** The loop [for var in indep_vars]. *)
Fixpoint keep_all_notnull (vars : list string) (temp : frame) : result frame :=
  match vars with
  | [] => Ok temp
  | var :: rest => temp <- keep_notnull var temp ;; keep_all_notnull rest temp
  end.

(** Lines 5-10: the sample [run_OLS] hands to the regression, [y] and [X]
    (before the constant is added), row by row. *)
Definition run_OLS_sample (df : frame) (dep_var : string) (indep_vars : list string)
  : result (list cell * list (list cell)) :=
  temp <- keep_all_notnull indep_vars df ;;
  temp <- keep_notnull dep_var temp ;;
  let y := map (cell_at dep_var) (frame_rows temp) in
  let X := map (fun row => map (fun var => cell_at var row) indep_vars)
               (frame_rows temp) in
  Ok (y, X).

Section RunOLS.

(** Lines 11-13: the constant, the fit and the printed summary. They belong
    to the statistics library, which is given [y] and [X] under their
    labels and may raise; the development holds for every such function. *)
Variable fit : string -> list string -> list cell -> list (list cell) -> result unit.

Definition run_OLS (df : frame) (dep_var : string) (indep_vars : list string)
  : result unit :=
  sample <- run_OLS_sample df dep_var indep_vars ;;
  fit dep_var indep_vars (fst sample) (snd sample).

End RunOLS.

(* ================================================================= *)
(** ** Predicates on text used in the statements *)

(** Every character of [s] satisfies [p]. *)
Fixpoint string_forall (p : ascii -> bool) (s : string) : bool :=
  match s with
  | EmptyString => true
  | String c s' => p c && string_forall p s'
  end.


Definition nonempty (s : string) : bool :=
  match s with
  | EmptyString => false
  | String _ _ => true
  end.

(** [':'.join(tokens)] *)
Definition join_colon (tokens : list string) : string := String.concat ":" tokens.

(** A row in which none of the variables [vars] is null. *)
Definition complete_case (vars : list string) (row : list (string * cell)) : bool :=
  forallb (fun var => cell_notnull (cell_at var row)) vars.

(** A table of three respondents, the second without an impact average and
    the third without a gender flag. *)
Definition sample_frame : frame :=
  {| frame_columns := ["Q10"; "ICS_GPA"; "Q5_binary"];
     frame_rows :=
       [ [("Q10", Int 25); ("ICS_GPA", Flt 3.25); ("Q5_binary", Flt 1)];
         [("Q10", Int 40); ("ICS_GPA", NaN); ("Q5_binary", Flt 0)];
         [("Q10", Int 10); ("ICS_GPA", Flt 2.5); ("Q5_binary", Flt nan)] ] |}.

(** A regression that refuses a sample of fewer rows than it has
    coefficients to estimate. *)
Definition sample_fit (dep_var : string) (indep_vars : list string)
    (y : list cell) (X : list (list cell)) : result unit :=
  if (List.length y <=? List.length indep_vars)%nat then Raise ValueError else Ok tt.

(** A respondent who skipped both consent questions and answered [Q10]. *)
Definition sample_survey_row : survey_row :=
  {| consent_Q1 := NaN;
     consent_Q2 := NaN;
     weight_Q10 := Str "25";
     survey_columns := [("Q4", Flt 2011)] |}.

(* ================================================================= *)
(** * Properties *)

(** ** The [result] monad and [mapM] *)

Lemma bind_Ok {A B : Type} (m : result A) (k : A -> result B) (b : B) :
  bind m k = Ok b -> exists a, m = Ok a /\ k a = Ok b.
Proof.
  destruct m as [a | e]; simpl; intro E.
  - exists a. split; [reflexivity | exact E].
  - discriminate E.
Qed.

Lemma mapM_Ok_Forall2 {A B : Type} (f : A -> result B) (l : list A) (l' : list B) :
  mapM f l = Ok l' -> Forall2 (fun a b => f a = Ok b) l l'.
Proof.
  revert l'. induction l as [| a l IH]; simpl; intros l' E.
  - injection E as <-. constructor.
  - apply bind_Ok in E. destruct E as (b & Eb & E).
    apply bind_Ok in E. destruct E as (bs & Ebs & E).
    injection E as <-. constructor; [exact Eb | apply IH; exact Ebs].
Qed.

Lemma mapM_all_Ok {A B : Type} (f : A -> result B) (g : A -> B) (l : list A) :
  (forall a, In a l -> f a = Ok (g a)) -> mapM f l = Ok (map g l).
Proof.
  induction l as [| a l IH]; simpl; intro Hf; [reflexivity |].
  rewrite (Hf a (or_introl eq_refl)). simpl.
  rewrite IH by (intros; apply Hf; right; assumption).
  reflexivity.
Qed.

Lemma mapM_Raise {A B : Type} (f : A -> result B) (l : list A) (e : exn) :
  mapM f l = Raise e -> exists a, In a l /\ f a = Raise e.
Proof.
  induction l as [| a l IH]; cbn [mapM]; [discriminate |].
  destruct (f a) as [b | e'] eqn:Ea; cbn [bind].
  - destruct (mapM f l) as [bs | e'']; cbn [bind]; [discriminate |].
    intro E. injection E as ->. destruct (IH eq_refl) as (x & Hx & Ex).
    exists x. split; [right; exact Hx | exact Ex].
  - intro E. injection E as ->. exists a. split; [left; reflexivity | exact Ea].
Qed.

Lemma mapM_Ok_iff {A B : Type} (f : A -> result B) (l : list A) :
  (exists l', mapM f l = Ok l') <-> forall a, In a l -> exists b, f a = Ok b.
Proof.
  split.
  - intros (l' & E) a Ha. apply mapM_Ok_Forall2 in E.
    induction E as [| x y l l' Hxy _ IH]; [destruct Ha |].
    destruct Ha as [<- | Ha]; [exists y; exact Hxy | apply IH; exact Ha].
  - intro H. destruct (mapM f l) as [l' | e] eqn:E; [exists l'; reflexivity |].
    apply mapM_Raise in E. destruct E as (a & Ha & Ea).
    destruct (H a Ha) as (b & Eb). rewrite Eb in Ea. discriminate Ea.
Qed.

Lemma Forall2_Forall_r {A B : Type} (R : A -> B -> Prop) (P : B -> Prop)
    (l : list A) (l' : list B) :
  Forall2 R l l' -> (forall a b, In a l -> R a b -> P b) -> Forall P l'.
Proof.
  induction 1 as [| a b l l' Hab _ IH]; intro H; constructor.
  - apply (H a b); [left; reflexivity | exact Hab].
  - apply IH. intros a' b' Ha'. apply H. right. exact Ha'.
Qed.

Lemma Forall2_impl_In {A B : Type} (R R' : A -> B -> Prop) (l : list A) (l' : list B) :
  Forall2 R l l' -> (forall a b, In a l -> R a b -> R' a b) -> Forall2 R' l l'.
Proof.
  induction 1 as [| a b l l' Hab _ IH]; intro H; constructor.
  - apply (H a b); [left; reflexivity | exact Hab].
  - apply IH. intros a' b' Ha'. apply H. right. exact Ha'.
Qed.

(** ** Text *)


Lemma string_forall_app (p : ascii -> bool) (a b : string) :
  string_forall p (a ++ b) = string_forall p a && string_forall p b.
Proof.
  induction a as [| c a IH]; [reflexivity |].
  cbn [append string_forall]. rewrite IH, andb_assoc. reflexivity.
Qed.

Lemma string_forall_lstrip (p q : ascii -> bool) (s : string) :
  string_forall p s = true -> string_forall p (lstrip_by q s) = true.
Proof.
  induction s as [| c s IH]; [reflexivity |].
  intro H. cbn [lstrip_by]. destruct (q c); [| exact H].
  cbn [string_forall] in H. apply andb_true_iff in H. apply IH, H.
Qed.


(** ** Career stage *)

Lemma Q4_stage_of_years (years : Z) :
  exists stage,
    Q4_stage (Some years) = Ok stage
    /\ (stage = "Early" <-> years <= 10)
    /\ (stage = "Middle" <-> 10 < years <= 25)
    /\ (stage = "Senior" <-> 25 < years).
Proof.
  unfold Q4_stage, le_Int64, gt_Int64, and_boolean, truth, np_where. simpl.
  destruct (Z.leb_spec years 10) as [H10 | H10];
    destruct (Z.ltb_spec 10 years) as [G10 | G10]; try lia;
    destruct (Z.leb_spec years 25) as [H25 | H25];
    destruct (Z.ltb_spec 25 years) as [G25 | G25]; try lia;
    simpl; eexists; (split; [reflexivity |]);
    repeat split; intros; try discriminate; try lia.
Qed.


Lemma Q4_stage_row (q : option Z) :
  (q = None /\ Q4_stage (Q4_years q) = Raise TypeError)
  \/ (exists y s, q = Some y /\ Q4_stage (Q4_years q) = Ok s).
Proof.
  destruct q as [y |]; [right | left; split; reflexivity].
  destruct (Q4_stage_of_years (wrap64 (2021 - y))) as (s & E & _).
  exists y, s. split; [reflexivity | exact E].
Qed.






(** ** Panel and domain of a subject area *)

Lemma float_zero_ne_one : 0%float <> 1%float.
Proof.
  intro E. apply (f_equal Prim2SF) in E. vm_compute in E. discriminate E.
Qed.

(** The codes from 1 to 34, one by one. *)
Lemma code_cases (n : Z) :
  1 <= n <= 34 -> In n (map Z.of_nat (seq 1 34)).
Proof.
  intro H. apply in_map_iff. exists (Z.to_nat n). split; [lia |].
  apply in_seq. lia.
Qed.

(** C5. For every subject-area code [n] from 1 to 34, a row whose [Q8_uoa]
    is [n] gets a panel letter among A, B, C, D, a domain label among STEM
    and SHAPE, and a binary flag that is 1 or 0 and is 1 exactly when the
    label is STEM. Panels B, C and D lie within one domain each (B in STEM,
    C and D in SHAPE). Code 1 is panel A and STEM, code 34 is panel D and
    SHAPE, and code 4 is panel A and SHAPE. *)
Theorem C5_panel_and_domain_lookups (n : Z) :
  1 <= n <= 34 ->
  let panel := Q8_panel (Some n) in
  let label := Q8_stemshape (Some n) in
  let flag := Q8_stemshape_binary (Some n) in
  (panel = "A" \/ panel = "B" \/ panel = "C" \/ panel = "D")
  /\ (label = "STEM" \/ label = "SHAPE")
  /\ (flag = 1%float \/ flag = 0%float)
  /\ (flag = 1%float <-> label = "STEM")
  /\ (panel = "B" -> label = "STEM")
  /\ (panel = "C" \/ panel = "D" -> label = "SHAPE")
  /\ (Q8_panel (Some 1) = "A" /\ Q8_stemshape (Some 1) = "STEM"
      /\ Q8_stemshape_binary (Some 1) = 1%float)
  /\ (Q8_panel (Some 34) = "D" /\ Q8_stemshape (Some 34) = "SHAPE"
      /\ Q8_stemshape_binary (Some 34) = 0%float)
  /\ (Q8_panel (Some 4) = "A" /\ Q8_stemshape (Some 4) = "SHAPE"
      /\ Q8_stemshape_binary (Some 4) = 0%float).
Proof.
  intro H. apply code_cases in H. cbv zeta.
  repeat match goal with
         | |- _ /\ _ => split
         end;
    try (vm_compute; reflexivity);
    cbn [map seq Z.of_nat Pos.of_succ_nat Pos.succ In] in H;
    repeat (destruct H as [<- | H]; [vm_compute | ]);
    try contradiction;
    try (split; intro E);
    try (intros [E | E]);
    try (intro E);
    try discriminate E;
    try (exfalso; apply float_zero_ne_one; (exact E || (symmetry; exact E)));
    auto 6.
Qed.

(** Code 17 (Business and Management Studies): panel C, SHAPE, flag 0. *)
Lemma C5_panel_and_domain_lookups_witness :
  Q8_panel (Some 17) = "C" /\ Q8_stemshape (Some 17) = "SHAPE"
  /\ (Q8_stemshape_binary (Some 17) = 1%float <-> Q8_stemshape (Some 17) = "STEM").
Proof.
  assert (R : 1 <= 17 <= 34) by lia.
  pose proof (C5_panel_and_domain_lookups 17 R) as (_ & _ & _ & Hiff & _ & HC & _).
  cbv zeta in *.
  split; [reflexivity |]. split; [apply HC; left; reflexivity | exact Hiff].
Defined.

(** ** The multi-part question collapser *)

Lemma sub_colon_plus_from_shape (prev : bool) (s : string) :
  has_colon_run (sub_colon_plus_from prev s) = false
  /\ (prev = true -> starts_with_colon (sub_colon_plus_from prev s) = false).
Proof.
  revert prev. induction s as [| c s IH]; intro prev; [split; reflexivity |].
  cbn [sub_colon_plus_from].
  destruct (is_colon c) eqn:Hc.
  - destruct prev.
    + apply IH.
    + destruct (IH true) as (Hrun & Hstart). split; [| discriminate].
      specialize (Hstart eq_refl). cbn [has_colon_run].
      destruct (sub_colon_plus_from true s) as [| b t] eqn:E; [reflexivity |].
      cbn [starts_with_colon] in Hstart. rewrite Hstart, Hrun, Hc. reflexivity.
  - destruct (IH false) as (Hrun & _). split.
    + cbn [has_colon_run].
      destruct (sub_colon_plus_from false s) as [| b t] eqn:E; [reflexivity |].
      rewrite Hc, Hrun. reflexivity.
    + intros _. cbn [starts_with_colon]. exact Hc.
Qed.

Lemma has_colon_run_cons (a b : ascii) (t : string) :
  has_colon_run (String a (String b t))
  = (is_colon a && is_colon b) || has_colon_run (String b t).
Proof. reflexivity. Qed.

Lemma has_colon_run_tail (c : ascii) (s : string) :
  has_colon_run (String c s) = false -> has_colon_run s = false.
Proof.
  cbn [has_colon_run]. destruct s as [| b t]; [reflexivity |].
  intro H. apply orb_false_iff in H. apply H.
Qed.

Lemma lstrip_colons_shape (s : string) :
  has_colon_run s = false ->
  has_colon_run (lstrip_by is_colon s) = false
  /\ starts_with_colon (lstrip_by is_colon s) = false.
Proof.
  induction s as [| c s IH]; intro H; [split; reflexivity |].
  cbn [lstrip_by]. destruct (is_colon c) eqn:Hc.
  - apply IH. exact (has_colon_run_tail c s H).
  - split; [exact H | exact Hc].
Qed.

Lemma rstrip_head (p : ascii -> bool) (s : string) (b : ascii) (t : string) :
  rstrip_by p s = String b t -> exists t', s = String b t'.
Proof.
  destruct s as [| c s]; cbn [rstrip_by]; [discriminate |].
  destruct (rstrip_by p s); [destruct (p c) |];
    intro E; try discriminate E; injection E as -> _; eexists; reflexivity.
Qed.

Lemma rstrip_colons_shape (s : string) :
  has_colon_run s = false ->
  has_colon_run (rstrip_by is_colon s) = false
  /\ ends_with_colon (rstrip_by is_colon s) = false
  /\ starts_with_colon (rstrip_by is_colon s) = starts_with_colon s
     && negb (match rstrip_by is_colon s with EmptyString => true | _ => false end).
Proof.
  induction s as [| c s IH]; intro H; [repeat split; reflexivity |].
  specialize (IH (has_colon_run_tail c s H)). destruct IH as (Hrun & Hend & _).
  cbn [rstrip_by].
  destruct (rstrip_by is_colon s) as [| b t] eqn:E.
  - destruct (is_colon c) eqn:Hc; cbn; rewrite ?Hc; repeat split; reflexivity.
  - destruct (rstrip_head _ _ _ _ E) as (t' & ->).
    repeat split.
    + rewrite has_colon_run_cons in H |- *. apply orb_false_iff in H.
      destruct H as (H1 & _). rewrite H1, Hrun. reflexivity.
    + cbn [ends_with_colon]. exact Hend.
    + cbn [starts_with_colon]. rewrite andb_true_r. reflexivity.
Qed.

Lemma sub_colon_dotstar_single_line (s : string) :
  has_newline s = false ->
  sub_colon_dotstar_from true s = EmptyString
  /\ sub_colon_dotstar_from false s = before_first_colon s.
Proof.
  induction s as [| c s IH]; cbn [has_newline]; intro H; [split; reflexivity |].
  apply orb_false_iff in H. destruct H as (Hc & Hs).
  destruct (IH Hs) as (IHt & IHf).
  cbn [sub_colon_dotstar_from before_first_colon]. rewrite Hc.
  split; [exact IHt |].
  destruct (is_colon c); [exact IHt | rewrite IHf; reflexivity].
Qed.

Lemma append_nil_r (s : string) : s ++ "" = s.
Proof. induction s as [| c s IH]; [reflexivity | cbn [append]; rewrite IH; reflexivity]. Qed.

Lemma append_assoc (a b c : string) : a ++ (b ++ c) = (a ++ b) ++ c.
Proof. induction a as [| x a IH]; [reflexivity | cbn [append]; rewrite IH; reflexivity]. Qed.

Lemma fold_left_gathered (cols : list (option string)) (init : string) :
  fold_left (fun acc c => acc ++ clean_subcolumn c ++ ":") cols init
  = init ++ gathered cols.
Proof.
  revert init. induction cols as [| c cols IH]; intro init; cbn [fold_left gathered].
  - symmetry. apply append_nil_r.
  - rewrite IH, <- !append_assoc. reflexivity.
Qed.

Lemma gathered_app (before after : list (option string)) :
  gathered (before ++ after) = gathered before ++ gathered after.
Proof.
  induction before as [| c before IH]; [reflexivity |].
  cbn [app gathered]. rewrite IH, <- !append_assoc. reflexivity.
Qed.

Lemma ends_with_colon_app (a b : string) :
  b <> "" -> ends_with_colon (a ++ b) = ends_with_colon b.
Proof.
  intro Hb. induction a as [| x a IH]; [reflexivity |].
  cbn [append]. rewrite <- IH.
  destruct (a ++ b) as [| y t] eqn:E; [| reflexivity].
  destruct a; [cbn in E; contradiction | discriminate E].
Qed.

Lemma gathered_ends_with_colon (c : option string) (cols : list (option string)) :
  ends_with_colon (gathered (c :: cols)) = true.
Proof.
  revert c. induction cols as [| c' cols IH]; intro c; cbn [gathered].
  - rewrite append_nil_r. rewrite ends_with_colon_app by discriminate. reflexivity.
  - rewrite ends_with_colon_app; [apply (IH c') |].
    cbn [gathered]. destruct (clean_subcolumn c'); discriminate.
Qed.

(** After text that ends with a colon, the scan for runs of colons goes on
    as after a colon. *)
Lemma sub_colon_plus_from_app (prev : bool) (a b : string) :
  ends_with_colon a = true ->
  sub_colon_plus_from prev (a ++ b)
  = sub_colon_plus_from prev a ++ sub_colon_plus_from true b.
Proof.
  revert prev. induction a as [| x a IH]; intros prev Ha; [discriminate Ha |].
  destruct a as [| y a].
  - cbn [ends_with_colon] in Ha. cbn [append sub_colon_plus_from]. rewrite Ha.
    destruct prev; reflexivity.
  - assert (Ha' : ends_with_colon (String y a) = true) by exact Ha.
    change (String x (String y a) ++ b) with (String x (String y a ++ b)).
    cbn [sub_colon_plus_from] in *.
    destruct (is_colon x); [destruct prev |];
      rewrite (IH _ Ha'); reflexivity.
Qed.

Lemma lstrip_colons_after_colon (s : string) :
  lstrip_by is_colon (sub_colon_plus_from true s)
  = lstrip_by is_colon (sub_colon_plus_from false s).
Proof.
  destruct s as [| c s]; [reflexivity |]. cbn [sub_colon_plus_from].
  destruct (is_colon c) eqn:Hc; [| reflexivity].
  cbn [lstrip_by]. rewrite Hc. reflexivity.
Qed.

(** A sub-column that is empty after cleaning leaves no trace. *)
Lemma empty_subcolumn_dropped (before after : list (option string))
    (c : option string) :
  clean_subcolumn c = "" ->
  multipart_collapse (before ++ c :: after) = multipart_collapse (before ++ after).
Proof.
  intro Hc. unfold multipart_collapse.
  rewrite !fold_left_gathered, !gathered_app. cbn [append gathered].
  rewrite Hc. cbn [append].
  destruct before as [| c0 before].
  - cbn [gathered append]. unfold strip_colons, strip_by, sub_colon_plus.
    cbn [sub_colon_plus_from is_colon Ascii.eqb Bool.eqb andb].
    cbn [lstrip_by is_colon Ascii.eqb Bool.eqb andb].
    rewrite lstrip_colons_after_colon. reflexivity.
  - unfold sub_colon_plus.
    rewrite !sub_colon_plus_from_app by apply gathered_ends_with_colon.
    reflexivity.
Qed.

(** ** The ranked/Likert collapser *)

Lemma bfill_first_skips_missing (k : nat) (cols : list (option string)) :
  bfill_first (repeat None k ++ cols) = bfill_first cols.
Proof. induction k as [| k IH]; [reflexivity | exact IH]. Qed.

(** C9. A row whose first four pagination sub-columns are missing and whose
    fifth is "(3) extremely possible" collapses to the integer 3, whatever
    the sixth and seventh hold. In general the collapsed value is decided by
    the first sub-column that is not missing, in which the three anchor
    labels are replaced by 3, -3 and 0 before the conversion to a nullable
    integer; a row with nothing but missing sub-columns stays missing. *)
Theorem C9_likert_collapse :
  (forall c6 c7 : option string,
      Q12_item [None; None; None; None; Some "(3) extremely possible"; c6; c7]
      = Ok (Some 3))
  /\ (forall (k : nat) (rest : list (option string)),
         Q12_item (repeat None k ++ Some "(3) extremely possible" :: rest)
         = Ok (Some 3)
         /\ Q12_item (repeat None k ++ Some "(-3) not at all possible" :: rest)
            = Ok (Some (-3))
         /\ Q12_item (repeat None k ++ Some "(0) neither" :: rest)
            = Ok (Some 0))
  /\ (forall (cols : list (option string)) (hi lo mid : string),
         likert_collapse hi lo mid cols
         = astype_Int64
             (option_map
                (fun s => str_replace mid "0" (str_replace lo "-3" (str_replace hi "3" s)))
                (bfill_first cols)))
  /\ (forall k : nat, Q12_item (repeat None k) = Ok None).
Proof.
  split; [intros; reflexivity |].
  split; [| split].
  - intros k rest. unfold Q12_item, likert_collapse.
    rewrite !bfill_first_skips_missing. repeat split; reflexivity.
  - intros cols hi lo mid. unfold likert_collapse, series_str_replace.
    destruct (bfill_first cols); reflexivity.
  - intro k. unfold Q12_item, likert_collapse.
    rewrite <- (app_nil_r (repeat None k)), bfill_first_skips_missing.
    reflexivity.
Qed.

(** ** [format_ids] *)

Lemma string_of_uint_head (d : Decimal.uint) :
  d <> Decimal.Nil ->
  exists c t, NilEmpty.string_of_uint d = String c t /\ is_space c = false.
Proof.
  destruct d; intro H; try contradiction; cbn [NilEmpty.string_of_uint];
    eexists; eexists; (split; [reflexivity | reflexivity]).
Qed.

Lemma str_of_int_head (z : Z) :
  exists c t, str_of_int z = String c t /\ is_space c = false.
Proof.
  unfold str_of_int. destruct z as [| p | p]; cbn [Z.to_int].
  - exists "0"%char, "". split; reflexivity.
  - unfold NilZero.string_of_int, NilZero.string_of_uint.
    pose proof (DecimalPos.Unsigned.to_uint_nonnil p) as Hn.
    destruct (Pos.to_uint p) eqn:E; try contradiction;
      apply string_of_uint_head; discriminate.
  - unfold NilZero.string_of_int. eexists; eexists. split; reflexivity.
Qed.

Lemma with_ids_formatted (rows : list sheet_row) (inst number : list Z) :
  Forall2 (fun r i => astype_int (institution_code r) = Ok i) rows inst ->
  Forall2 (fun r n => astype_int (unit_of_assessment_number r) = Ok n) rows number ->
  let letter :=
    map (fun r => astype_str (fillna_empty (multiple_submission_letter r))) rows in
  let uoa := map (fun nl => str_of_int (fst nl) ++ snd nl) (combine number letter) in
  map source_row (with_ids inst uoa rows) = rows
  /\ Forall formatted (with_ids inst uoa rows).
Proof.
  intro Hi. revert number. induction Hi as [| r i rows inst Hri _ IH];
    intros number Hn; inversion Hn as [| r' n rows' number' Hrn Hn']; subst;
    cbn zeta; [split; [reflexivity | constructor] |].
  destruct (IH number' Hn') as (Hsrc & Hall).
  cbn [map combine with_ids fst snd]. split.
  - f_equal. exact Hsrc.
  - constructor; [| exact Hall].
    split; [exact Hri |]. exists n. split; [exact Hrn |].
    cbn [uoa_id id_row_Keyed id_row_uoa_id source_row].
    destruct (multiple_submission_letter r); reflexivity.
Qed.

Lemma int_of_str_exn (s : string) (e : exn) : int_of_str s = Raise e -> e = ValueError.
Proof.
  unfold int_of_str.
  destruct (match strip_by is_int_space s with
            | String "-" d => option_map Z.opp (int_digits d 0 false)
            | String "+" d => int_digits d 0 false
            | _ => int_digits (strip_by is_int_space s) 0 false
            end); [discriminate |].
  intro E. injection E as <-. reflexivity.
Qed.



Lemma keep_nonblank (r : sheet_row) :
  cell_ne_str (institution_code r) " " = true <-> institution_code r <> Str " ".
Proof.
  destruct (institution_code r) as [| z | f | s];
    cbn [cell_ne_str]; try (split; [discriminate | reflexivity]).
  rewrite negb_true_iff, String.eqb_neq. split; intros H E; apply H; congruence.
Qed.

Lemma format_ids_cases (df : sheet) :
  (~ known_label df /\ format_ids df = Raise KeyError)
  \/ (known_label df
      /\ format_ids df
         = (let rows :=
              filter (fun r => cell_ne_str (institution_code r) " ") (body df) in
            inst <- mapM (fun r => astype_int (institution_code r)) rows ;;
            number <- mapM (fun r => astype_int (unit_of_assessment_number r)) rows ;;
            let letter :=
              map (fun r => astype_str (fillna_empty (multiple_submission_letter r)))
                  rows in
            let uoa :=
              map (fun nl => str_of_int (fst nl) ++ snd nl) (combine number letter) in
            Ok (with_ids inst uoa rows))).
Proof.
  assert (Hlabel :
            negb (String.eqb
                    (rename_to_inst_id "Institution code (UKPRN)"
                       (rename_to_inst_id "Institution UKPRN code" (institution_label df)))
                    "inst_id") = false <-> known_label df).
  { unfold known_label, rename_to_inst_id. rewrite negb_false_iff.
    destruct (String.eqb_spec (institution_label df) "Institution UKPRN code") as [E1 | N1].
    - split; [intros _; left; exact E1 | reflexivity].
    - destruct (String.eqb_spec (institution_label df) "Institution code (UKPRN)")
        as [E2 | N2].
      + split; [intros _; right; left; exact E2 | reflexivity].
      + rewrite String.eqb_eq. split; [intro E; right; right; exact E |].
        intros [E | [E | E]]; [contradiction | contradiction | exact E]. }
  unfold format_ids.
  destruct (negb _) eqn:El.
  - left. split; [| reflexivity]. intro K. apply Hlabel in K. discriminate K.
  - right. split; [apply Hlabel; reflexivity | reflexivity].
Qed.

(** [format_ids] returns a table exactly when the label is known and the two
    casts succeed on every row that is kept. *)
Lemma format_ids_Ok_iff (df : sheet) :
  (exists out, format_ids df = Ok out)
  <-> known_label df
      /\ forall r, In r (body df) ->
           institution_code r <> Str " " ->
           (exists i, astype_int (institution_code r) = Ok i)
           /\ (exists n, astype_int (unit_of_assessment_number r) = Ok n).
Proof.
  destruct (format_ids_cases df) as [(Hn & E) | (Hk & E)]; rewrite E; cbv zeta.
  - split; [intros (out & Eo); discriminate Eo | tauto].
  - set (keep := fun r => cell_ne_str (institution_code r) " ").
    split.
    + intros (out & Eo). split; [exact Hk |]. intros r Hr Hnb.
      assert (Hin : In r (filter keep (body df)))
        by (apply filter_In; split; [exact Hr | apply keep_nonblank; exact Hnb]).
      destruct (mapM (fun r => astype_int (institution_code r)) _)
        as [inst | e1] eqn:Ei; cbn [bind] in Eo; [| discriminate Eo].
      destruct (mapM (fun r => astype_int (unit_of_assessment_number r)) _)
        as [number | e2] eqn:En; cbn [bind] in Eo; [| discriminate Eo].
      split.
      * apply (proj1 (mapM_Ok_iff _ _) (ex_intro _ inst Ei) r Hin).
      * apply (proj1 (mapM_Ok_iff _ _) (ex_intro _ number En) r Hin).
    + intros (_ & Hrows).
      assert (Hi : exists inst, mapM (fun r => astype_int (institution_code r))
                                  (filter keep (body df)) = Ok inst).
      { apply mapM_Ok_iff. intros r Hr. apply filter_In in Hr.
        destruct Hr as (Hr & Hk'). apply keep_nonblank in Hk'. apply (Hrows r Hr Hk'). }
      assert (Hu : exists number,
                 mapM (fun r => astype_int (unit_of_assessment_number r))
                   (filter keep (body df)) = Ok number).
      { apply mapM_Ok_iff. intros r Hr. apply filter_In in Hr.
        destruct Hr as (Hr & Hk'). apply keep_nonblank in Hk'. apply (Hrows r Hr Hk'). }
      destruct Hi as (inst & ->), Hu as (number & ->). cbn [bind].
      eexists. reflexivity.
Qed.

(** C7. [format_ids] accepts a table exactly when its institution code column
    has one of the three known labels and, in every row whose institution
    code is not the blank placeholder [' '], the institution code and the
    unit of assessment number have an integer value: the rows with the
    placeholder are not looked at, whatever their cells hold, while the
    placeholder itself has no integer value; so these rows are removed
    before the coercion, and the outcome is that of the table without
    them. The rows of the result are the other rows of the input, in
    order. In every row of the result the institution id is the integer
    value of the code, and [uoa_id] is the decimal text of the integer
    value of the unit of assessment number followed by the submission
    letter (nothing when the letter is missing); it begins with a
    character that is no whitespace, so it is neither empty nor blank. *)
Theorem C7_format_ids (df : sheet) :
  ((exists out, format_ids df = Ok out)
   <-> known_label df
       /\ forall r, In r (body df) ->
            institution_code r <> Str " " ->
            (exists i, astype_int (institution_code r) = Ok i)
            /\ (exists n, astype_int (unit_of_assessment_number r) = Ok n))
  /\ astype_int (Str " ") = Raise ValueError
  /\ format_ids df
     = format_ids
         {| institution_label := institution_label df;
            body := filter (fun r => cell_ne_str (institution_code r) " ") (body df) |}
  /\ forall out,
       format_ids df = Ok out ->
       map source_row out
       = filter (fun r => cell_ne_str (institution_code r) " ") (body df)
       /\ Forall
            (fun row =>
               formatted row
               /\ uoa_id row <> ""
               /\ strip (uoa_id row) <> ""
               /\ exists c t, uoa_id row = String c t /\ is_space c = false)
            out.
Proof.
  split; [apply format_ids_Ok_iff |]. split; [reflexivity |].
  assert (Hidem : forall l : list sheet_row,
             filter (fun r => cell_ne_str (institution_code r) " ")
               (filter (fun r => cell_ne_str (institution_code r) " ") l)
             = filter (fun r => cell_ne_str (institution_code r) " ") l).
  { intro l. induction l as [| r l IH]; [reflexivity |].
    cbn [filter]. destruct (cell_ne_str (institution_code r) " ") eqn:Hr;
      [cbn [filter]; rewrite Hr, IH; reflexivity | exact IH]. }
  split.
  { unfold format_ids. cbn [institution_label body]. rewrite Hidem. reflexivity. }
  intros out E.
  unfold format_ids in E.
  destruct (negb _); [discriminate E |].
  apply bind_Ok in E. destruct E as (inst & Einst & E).
  apply bind_Ok in E. destruct E as (number & Enumber & E).
  injection E as <-.
  apply mapM_Ok_Forall2 in Einst. apply mapM_Ok_Forall2 in Enumber.
  destruct (with_ids_formatted _ _ _ Einst Enumber) as (Hsrc & Hall).
  split; [exact Hsrc |].
  cbv zeta in Hall. revert Hall. apply Forall_impl.
  intros row Hrow. split; [exact Hrow |].
  destruct Hrow as (_ & n & _ & Hu).
  destruct (str_of_int_head n) as (c & t & Hn & Hc).
  rewrite Hn in Hu. cbn [append] in Hu.
  assert (Hstrip : strip (uoa_id row) <> "").
  { rewrite Hu. unfold strip, strip_by. cbn [lstrip_by]. rewrite Hc.
    cbn [rstrip_by]. destruct (rstrip_by is_space _); [rewrite Hc |]; discriminate. }
  split; [rewrite Hu; discriminate |]. split; [exact Hstrip |].
  eexists; eexists. split; [exact Hu | exact Hc].
Qed.

(** A sheet with a row whose institution code is the placeholder and whose
    unit of assessment number is empty: it is accepted. *)
Lemma C7_format_ids_witness :
  exists out, format_ids sample_sheet = Ok out.
Proof.
  apply (proj2 (proj1 (C7_format_ids sample_sheet))).
  split; [left; reflexivity |].
  intros r [<- | [<- | [<- | []]]] H;
    first [ exfalso; apply H; reflexivity
          | split; eexists; vm_compute; reflexivity ].
Defined.

(** ** Left joins *)

Section MergeLeft.

Context {L R : Type} (same_key : L -> R -> bool).

Lemma in_merge_left (left : list L) (right : list R) (l : L) (o : option R) :
  In (l, o) (merge_left same_key left right)
  <-> In l left
      /\ match o with
         | Some r => In r right /\ same_key l r = true
         | None => forall r, In r right -> same_key l r = false
         end.
Proof.
  unfold merge_left. rewrite in_flat_map. split.
  - intros (x & Hx & Hin).
    destruct (filter (same_key x) right) as [| m ms] eqn:E.
    + destruct Hin as [Heq | []]. injection Heq as <- <-.
      split; [exact Hx |]. intros r Hr.
      destruct (same_key x r) eqn:Hk; [| reflexivity].
      assert (Hf : In r (filter (same_key x) right))
        by (apply filter_In; split; assumption).
      rewrite E in Hf. destruct Hf.
    + apply in_map_iff in Hin. destruct Hin as (r & Heq & Hr).
      injection Heq as <- <-. split; [exact Hx |].
      rewrite <- E in Hr. apply filter_In in Hr. exact Hr.
  - intros (Hl & Ho). exists l. split; [exact Hl |].
    destruct o as [r |].
    + assert (Hf : In r (filter (same_key l) right))
        by (apply filter_In; exact Ho).
      destruct (filter (same_key l) right) as [| m ms]; [destruct Hf |].
      apply in_map_iff. exists r. split; [reflexivity | exact Hf].
    + destruct (filter (same_key l) right) as [| m ms] eqn:E;
        [left; reflexivity |].
      assert (Hm : In m (filter (same_key l) right))
        by (rewrite E; left; reflexivity).
      apply filter_In in Hm. destruct Hm as (Hm & Hk).
      rewrite (Ho m Hm) in Hk. discriminate Hk.
Qed.

Lemma merge_left_length_ge (left : list L) (right : list R) :
  (List.length left <= List.length (merge_left same_key left right))%nat.
Proof.
  unfold merge_left. induction left as [| l left IH]; [apply le_n |].
  cbn [flat_map]. rewrite length_app.
  destruct (filter (same_key l) right) as [| m ms];
    rewrite ?length_map; cbn [List.length]; lia.
Qed.

Lemma merge_left_at_most_one (left : list L) (right : list R) :
  (forall l, In l left ->
             (List.length (filter (same_key l) right) <= 1)%nat) ->
  map fst (merge_left same_key left right) = left.
Proof.
  unfold merge_left. induction left as [| l left IH]; intro H; [reflexivity |].
  cbn [flat_map]. rewrite map_app, IH
    by (intros; apply H; right; assumption).
  specialize (H l (or_introl eq_refl)).
  destruct (filter (same_key l) right) as [| m [| m' ms]];
    cbn [List.length] in H; [reflexivity | reflexivity | lia].
Qed.

(** Rows of [right] that match one key are few when keys do not repeat. *)
Lemma filter_unique_key {K : Type} (key : R -> K) (p : R -> bool) (k0 : K)
    (right : list R) :
  (forall r, p r = true -> key r = k0) ->
  NoDup (map key right) ->
  (List.length (filter p right) <= 1)%nat.
Proof.
  intros Hp Hnd. induction right as [| r right IH]; [cbn; lia |].
  cbn [map] in Hnd. inversion Hnd as [| k ks Hnotin Hnd']; subst.
  cbn [filter]. destruct (p r) eqn:Hr; [| apply IH; exact Hnd'].
  assert (Hnone : filter p right = []).
  { destruct (filter p right) as [| m ms] eqn:E; [reflexivity |].
    assert (Hm : In m (filter p right)) by (rewrite E; left; reflexivity).
    apply filter_In in Hm. destruct Hm as (Hm & Hpm).
    exfalso. apply Hnotin. rewrite (Hp r Hr), <- (Hp m Hpm).
    apply in_map. exact Hm. }
  rewrite Hnone. cbn. lia.
Qed.

End MergeLeft.

(** ** [merge_ins_uoa] *)

Lemma forallb_false_iff {X : Type} (p : X -> bool) (l : list X) :
  forallb p l = false <-> exists x, In x l /\ p x = false.
Proof.
  induction l as [| x l IH]; cbn [forallb].
  - split; [discriminate | intros (x & [] & _)].
  - rewrite andb_false_iff, IH. split.
    + intros [Hx | (y & Hy & Hpy)];
        [exists x; split; [left; reflexivity | exact Hx]
        | exists y; split; [right; exact Hy | exact Hpy]].
    + intros (y & [<- | Hy] & Hpy); [left; exact Hpy |].
      right. exists y. split; assumption.
Qed.

Section MergeInsUoaProperties.

Context {A B : Type} `{KA : Keyed A} `{KB : Keyed B}.

Lemma inst_id_isin_iff (a : A) (df2 : list B) :
  existsb (fun b => (inst_id a =? inst_id b)%Z) df2 = true
  <-> In (inst_id a) (map inst_id df2).
Proof.
  rewrite existsb_exists, in_map_iff. split.
  - intros (b & Hb & E). apply Z.eqb_eq in E. exists b. split; [symmetry |]; assumption.
  - intros (b & E & Hb). exists b. split; [exact Hb |]. apply Z.eqb_eq. symmetry; exact E.
Qed.

Lemma uoa_id_isin_iff (a : A) (df2 : list B) :
  existsb (fun b => String.eqb (uoa_id a) (uoa_id b)) df2 = true
  <-> In (uoa_id a) (map uoa_id df2).
Proof.
  rewrite existsb_exists, in_map_iff. split.
  - intros (b & Hb & E). apply String.eqb_eq in E. exists b. split; [symmetry |]; assumption.
  - intros (b & E & Hb). exists b. split; [exact Hb |]. apply String.eqb_eq. symmetry; exact E.
Qed.

Lemma same_ins_uoa_iff (a : A) (b : B) :
  same_ins_uoa a b = true <-> (inst_id b, uoa_id b) = (inst_id a, uoa_id a).
Proof.
  unfold same_ins_uoa. rewrite andb_true_iff, Z.eqb_eq, String.eqb_eq. split.
  - intros (-> & ->). reflexivity.
  - intro E. injection E as -> ->. split; reflexivity.
Qed.

Lemma merge_ins_uoa_cases (df1 : list A) (df2 : list B) :
  (all_inst_id_isin df1 df2 && all_uoa_id_isin df1 df2 = true
   /\ merge_ins_uoa df1 df2 = Ok (merge_left same_ins_uoa df1 df2))
  \/ (all_inst_id_isin df1 df2 && all_uoa_id_isin df1 df2 = false
      /\ merge_ins_uoa df1 df2 = Raise AssertionError).
Proof.
  unfold merge_ins_uoa.
  destruct (all_inst_id_isin df1 df2); [| right; split; reflexivity].
  destruct (all_uoa_id_isin df1 df2); [left | right]; split; reflexivity.
Qed.

(** C2, as the code has it. [merge_ins_uoa] fails with an assertion violation
    exactly when some [inst_id] of the left table occurs nowhere in the
    [inst_id] column of the right table, or some [uoa_id] of the left
    table occurs nowhere in the [uoa_id] column of the right table: the
    two columns are checked one by one. In every other case it returns
    the left join, in which a left row is joined to nothing (all right
    columns missing) exactly when its pair of identifiers is the pair of
    no right row. *)
Theorem C2_merge_ins_uoa_assertions (df1 : list A) (df2 : list B) :
  (merge_ins_uoa df1 df2 = Raise AssertionError
   <-> exists a, In a df1
                 /\ (~ In (inst_id a) (map inst_id df2)
                     \/ ~ In (uoa_id a) (map uoa_id df2)))
  /\ (merge_ins_uoa df1 df2 <> Raise AssertionError ->
      exists out,
        merge_ins_uoa df1 df2 = Ok out
        /\ forall a, In a df1 ->
             (In (a, None) out
              <-> forall b, In b df2 ->
                    (inst_id b, uoa_id b) <> (inst_id a, uoa_id a))).
Proof.
  assert (Hfail : all_inst_id_isin df1 df2 && all_uoa_id_isin df1 df2 = false
                  <-> exists a, In a df1
                                /\ (~ In (inst_id a) (map inst_id df2)
                                    \/ ~ In (uoa_id a) (map uoa_id df2))).
  { rewrite andb_false_iff. unfold all_inst_id_isin, all_uoa_id_isin.
    rewrite !forallb_false_iff. split.
    - intros [(a & Ha & E) | (a & Ha & E)]; exists a; (split; [exact Ha |]);
        [left; rewrite <- inst_id_isin_iff | right; rewrite <- uoa_id_isin_iff];
        rewrite E; discriminate.
    - intros (a & Ha & [N | N]); [left | right]; exists a; (split; [exact Ha |]).
      + destruct (existsb _ df2) eqn:E; [| reflexivity].
        exfalso. apply N. apply inst_id_isin_iff. exact E.
      + destruct (existsb _ df2) eqn:E; [| reflexivity].
        exfalso. apply N. apply uoa_id_isin_iff. exact E. }
  destruct (merge_ins_uoa_cases df1 df2) as [(Hpass & E) | (Hstop & E)];
    rewrite E; split.
  - rewrite <- Hfail, Hpass. split; discriminate.
  - intros _. eexists. split; [reflexivity |]. intros a Ha.
    rewrite in_merge_left. split.
    + intros (_ & Hnone) b Hb Hsame.
      apply same_ins_uoa_iff in Hsame. rewrite (Hnone b Hb) in Hsame.
      discriminate Hsame.
    + intro Hnone. split; [exact Ha |]. intros b Hb.
      destruct (same_ins_uoa a b) eqn:Hk; [| reflexivity].
      exfalso. apply (Hnone b Hb). apply same_ins_uoa_iff. exact Hk.
  - rewrite <- Hfail. split; [intros _; exact Hstop | reflexivity].
  - intro N. exfalso. apply N. reflexivity.
Qed.

(** C3, as the code has it. When the two assertions pass, the table
    [merge_ins_uoa] returns has at least as many rows as the left table: the
    left parts of its rows are the rows of the left table, none left out. It
    has exactly as many rows as the left table, the same rows in the same
    order, when no pair of identifiers occurs in two rows of the right
    table. *)
Theorem C3_merge_ins_uoa_row_count (df1 : list A) (df2 : list B)
    (out : list (A * option B)) :
  merge_ins_uoa df1 df2 = Ok out ->
  (List.length df1 <= List.length out)%nat
  /\ (forall a, In a df1 <-> exists o, In (a, o) out)
  /\ (NoDup (map (fun b => (inst_id b, uoa_id b)) df2) ->
      map fst out = df1 /\ List.length out = List.length df1).
Proof.
  intro E.
  destruct (merge_ins_uoa_cases df1 df2) as [(_ & E') | (_ & E')];
    rewrite E' in E; [injection E as <- | discriminate E].
  split; [apply merge_left_length_ge |]. split.
  - intro a. split.
    + intro Ha.
      destruct (filter (same_ins_uoa a) df2) as [| b bs] eqn:Hf.
      * exists None. apply in_merge_left. split; [exact Ha |].
        intros r Hr. destruct (same_ins_uoa a r) eqn:Hk; [| reflexivity].
        assert (Hin : In r (filter (same_ins_uoa a) df2))
          by (apply filter_In; split; assumption).
        rewrite Hf in Hin. destruct Hin.
      * exists (Some b). apply in_merge_left. split; [exact Ha |].
        apply filter_In. rewrite Hf. left. reflexivity.
    + intros (o & Ho). apply in_merge_left in Ho. apply Ho.
  - intro Hnd.
    assert (Hfst : map fst (merge_left same_ins_uoa df1 df2) = df1).
    { apply merge_left_at_most_one. intros a _.
      apply (filter_unique_key (fun b => (inst_id b, uoa_id b))
               (same_ins_uoa a) (inst_id a, uoa_id a)); [| exact Hnd].
      intros b Hb. apply same_ins_uoa_iff. exact Hb. }
    split; [exact Hfst |].
    rewrite <- Hfst at 2. rewrite length_map. reflexivity.
Qed.

End MergeInsUoaProperties.

(** C2 as stated fails: the pair (10007783, "12") of the left row is the pair
    of no right row, yet both assertions pass, since 10007783 and "12" each
    occur in their column, and the row is joined to nothing. *)
Lemma C2_counterexample :
  (forall b, In b sample_other_units ->
             (inst_id b, uoa_id b) <> (inst_id sample_submission, uoa_id sample_submission))
  /\ merge_ins_uoa [sample_submission] sample_other_units
     = Ok [(sample_submission, None)].
Proof.
  split; [| reflexivity].
  intros b [<- | [<- | []]]; vm_compute; discriminate.
Qed.

(** The sample tables, on which no assertion fails. *)
Lemma C2_merge_ins_uoa_assertions_witness :
  exists out,
    merge_ins_uoa [sample_submission] sample_other_units = Ok out
    /\ forall a, In a [sample_submission] ->
         (In (a, None) out
          <-> forall b, In b sample_other_units ->
                (inst_id b, uoa_id b) <> (inst_id a, uoa_id a)).
Proof.
  apply (proj2 (C2_merge_ins_uoa_assertions [sample_submission] sample_other_units)).
  discriminate.
Defined.

(** C3 as stated fails: both assertions pass and the result has two rows for
    the one row of the left table. *)
Lemma C3_counterexample :
  exists out,
    merge_ins_uoa [sample_submission] sample_repeated_income = Ok out
    /\ List.length out = 2%nat
    /\ List.length [sample_submission] = 1%nat.
Proof. eexists. split; [reflexivity | split; reflexivity]. Qed.

(** A right table without repeated pairs. *)
Lemma C3_merge_ins_uoa_row_count_witness :
  map fst [(sample_submission, @None id_row)] = [sample_submission].
Proof.
  refine (proj1 (proj2 (proj2 (C3_merge_ins_uoa_row_count
            [sample_submission] sample_other_units
            [(sample_submission, None)] eq_refl)) _)).
  repeat constructor; cbn; intuition discriminate.
Defined.

(** ** Grade point averages *)

#[local] Set Warnings "-inexact-float".

Lemma float_mul_comm (x y : float) : (x * y = y * x)%float.
Proof.
  apply Prim2SF_inj. rewrite !mul_spec. unfold SF64mul, SFmul.
  destruct (Prim2SF x) as [sx | sx | | sx mx ex],
           (Prim2SF y) as [sy | sy | | sy my ey];
    try reflexivity; try (rewrite xorb_comm; reflexivity).
  rewrite xorb_comm, Pos.mul_comm, Z.add_comm. reflexivity.
Qed.

Lemma digits2_pos_shift52 (m : positive) :
  Z.pos (digits2_pos (Pos.iter xO m 52)) = Z.pos (digits2_pos m) + 52.
Proof.
  cbn [Pos.iter digits2_pos]. rewrite !Pos2Z.inj_succ. lia.
Qed.

Lemma iter_shr_1_shift52 (m : positive) :
  iter_pos shr_1 52
    {| shr_m := Z.pos (Pos.iter xO m 52); shr_r := false; shr_s := false |}
  = {| shr_m := Z.pos m; shr_r := false; shr_s := false |}.
Proof. reflexivity. Qed.

(** The product of 1 = 2^52 * 2^-52 with a finite number has the mantissa of
    that number shifted by 52 bits, which rounding shifts back exactly. *)
Lemma SFmul_one_l (x : spec_float) :
  valid_binary x = true ->
  SFmul prec emax (S754_finite false 4503599627370496 (-52)) x = x.
Proof.
  destruct x as [s | s | | s m e]; try reflexivity.
  unfold SpecFloat.valid_binary, bounded, canonical_mantissa.
  intro H. apply andb_true_iff in H. destruct H as (Hc & Hb).
  apply Z.eqb_eq in Hc.
  unfold SFmul. cbn [xorb].
  change (Z.pos (4503599627370496 * m)) with (Z.pos (Pos.iter xO m 52)).
  unfold binary_round_aux, shr_fexp.
  unfold Zdigits2 at 1. rewrite digits2_pos_shift52.
  replace (Z.pos (digits2_pos m) + 52 + (-52 + e))
    with (Z.pos (digits2_pos m) + e) by lia.
  rewrite Hc.
  replace (e - (-52 + e)) with 52 by lia.
  cbn [shr shr_record_of_loc]. rewrite iter_shr_1_shift52.
  cbn [shr_m loc_of_shr_record round_nearest_even Zdigits2 shr_r shr_s].
  replace (-52 + e + 52) with e by lia.
  rewrite Hc, Z.sub_diag. cbn [shr shr_m].
  rewrite Hb. reflexivity.
Qed.

Lemma float_mul_one_l (x : float) : (1 * x = x)%float.
Proof.
  apply Prim2SF_inj. rewrite mul_spec.
  change (Prim2SF 1) with (S754_finite false 4503599627370496 (-52)).
  apply SFmul_one_l. apply Prim2SF_valid.
Qed.

Lemma float_mul_nan_l (x : float) : (nan * x = nan)%float.
Proof.
  apply Prim2SF_inj. rewrite mul_spec.
  change (Prim2SF nan) with S754_nan. reflexivity.
Qed.

Lemma float_add_nan_l (x : float) : (nan + x = nan)%float.
Proof.
  apply Prim2SF_inj. rewrite add_spec.
  change (Prim2SF nan) with S754_nan. reflexivity.
Qed.

Lemma float_add_nan_r (x : float) : (x + nan = nan)%float.
Proof.
  apply Prim2SF_inj. rewrite add_spec.
  change (Prim2SF nan) with S754_nan.
  destruct (Prim2SF x); reflexivity.
Qed.

Lemma float_div_nan_l (x : float) : (nan / x = nan)%float.
Proof.
  apply Prim2SF_inj. rewrite div_spec.
  change (Prim2SF nan) with S754_nan. reflexivity.
Qed.

Lemma drop_digits_no_digit (s : string) :
  string_forall (fun c => negb (is_digit c)) s = true -> drop_digits s = s.
Proof.
  destruct s as [| c s]; [reflexivity |].
  cbn [string_forall drop_digits]. rewrite andb_true_iff, negb_true_iff.
  intros (-> & _). reflexivity.
Qed.

Lemma starts_with_digit_no_digit (s : string) :
  string_forall (fun c => negb (is_digit c)) s = true -> starts_with_digit s = false.
Proof.
  destruct s as [| c s]; [reflexivity |].
  cbn [string_forall starts_with_digit]. rewrite andb_true_iff, negb_true_iff.
  intros (-> & _). reflexivity.
Qed.

Lemma string_forall_tail (p : ascii -> bool) (c : ascii) (s : string) :
  string_forall p (String c s) = true -> string_forall p s = true.
Proof. cbn [string_forall]. rewrite andb_true_iff. intros (_ & H). exact H. Qed.

Lemma string_forall_drop_sign (p : ascii -> bool) (s : string) :
  string_forall p s = true -> string_forall p (drop_sign s) = true.
Proof.
  destruct s as [| c s]; [reflexivity |]. intro H. cbn [drop_sign].
  destruct (_ || _); [exact (string_forall_tail p c s H) | exact H].
Qed.

Lemma string_forall_c_string (p : ascii -> bool) (s : string) :
  string_forall p s = true -> string_forall p (c_string s) = true.
Proof.
  induction s as [| c s IH]; [reflexivity |].
  cbn [string_forall c_string]. rewrite andb_true_iff. intros (Hc & Hs).
  destruct (code c =? 0)%nat; [reflexivity |].
  cbn [string_forall]. rewrite Hc, (IH Hs). reflexivity.
Qed.

(** Without a digit there is no decimal number. *)
Lemma numeral_shape_no_digit (s : string) :
  string_forall (fun c => negb (is_digit c)) s = true -> numeral_shape s = false.
Proof.
  intro H. unfold numeral_shape. cbv zeta.
  assert (H1 : string_forall (fun c => negb (is_digit c))
                 (drop_sign (lstrip_by is_c_space s)) = true)
    by (apply string_forall_drop_sign, string_forall_lstrip; exact H).
  rewrite (starts_with_digit_no_digit _ H1), (drop_digits_no_digit _ H1).
  destruct (drop_sign (lstrip_by is_c_space s)) as [| c t]; [reflexivity |].
  pose proof (string_forall_tail _ _ _ H1) as Ht.
  rewrite (starts_with_digit_no_digit _ Ht), andb_false_r. reflexivity.
Qed.

(** C6, with the example recomputed. For every row of the department-level
    table and every profile, the grade point average is [(4*pct_4star +
    3*pct_3star + 2*pct_2star + 1*pct_1star) / 100] in binary64 arithmetic,
    on the four score cells of the profile after numeric coercion. It is NaN
    (null) as soon as one of the four cells coerces to NaN, and so as soon
    as one of them is empty or holds text that is no number; text without
    a digit is no number unless it is a name of an infinity. Percentages
    20, 50, 20 and 10 give 280 / 100, the binary64 value 2.8. *)
Theorem C6_grade_point_average (float_of_text : string -> float)
    (r : dept_row) (p : profile) :
  let pct := fun b => to_numeric float_of_text (score r b p) in
  GPA float_of_text p r
  = gpa_formula (pct Four_star) (pct Three_star) (pct Two_star) (pct One_star)
  /\ (forall b, b <> Unclassified -> pct b = nan -> GPA float_of_text p r = nan)
  /\ (forall b, b <> Unclassified ->
        score r b p = NaN
        \/ (exists s, score r b p = Str s /\ numeric_text s = false) ->
        GPA float_of_text p r = nan)
  /\ (forall s, string_forall (fun c => negb (is_digit c)) s = true ->
                numeric_text s = is_infinity_name (c_string s))
  /\ (numeric_text "" = false /\ numeric_text "n/a" = false
      /\ numeric_text "-" = false /\ numeric_text "20 %" = false
      /\ numeric_text "20.5" = true /\ numeric_text " 1e2 " = true)
  /\ (pct Four_star = 20%float -> pct Three_star = 50%float ->
      pct Two_star = 20%float -> pct One_star = 10%float ->
      GPA float_of_text p r = 2.8%float)
  /\ gpa_formula 20 50 20 10 = 2.8%float.
Proof.
  cbv zeta.
  assert (Hnan : forall b, b <> Unclassified ->
                           to_numeric float_of_text (score r b p) = nan ->
                           GPA float_of_text p r = nan).
  { intros b Hb E. unfold GPA. destruct b; try contradiction; rewrite E;
      rewrite ?float_mul_nan_l, ?float_add_nan_l, ?float_add_nan_r,
        ?float_add_nan_l;
      apply float_div_nan_l. }
  split; [| split; [exact Hnan | split; [| split; [| split; [| split]]]]].
  - unfold GPA, gpa_formula.
    rewrite (float_mul_comm 4), (float_mul_comm 3), (float_mul_comm 2),
      float_mul_one_l.
    reflexivity.
  - intros b Hb [E | (s & E & Hs)]; apply (Hnan b Hb); rewrite E;
      cbn [to_numeric]; [reflexivity | rewrite Hs; reflexivity].
  - intros s H. unfold numeric_text.
    rewrite numeral_shape_no_digit by (apply string_forall_c_string; exact H).
    reflexivity.
  - repeat split.
  - unfold GPA. intros -> -> -> ->. vm_compute. reflexivity.
  - vm_compute. reflexivity.
Qed.

(** The sample department, whose cells hold 20, 50, 20, 10 and 0. *)
Lemma C6_grade_point_average_witness :
  ICS_GPA no_number (sample_department None) = 2.8%float.
Proof.
  exact (proj1 (proj2 (proj2 (proj2 (proj2 (proj2
           (C6_grade_point_average no_number (sample_department None) Impact))))))
           eq_refl eq_refl eq_refl eq_refl).
Defined.

(** C6 as stated fails in its example: with 20, 50, 20 and 10 percent the
    weighted sum is 280 and the average 2.8, not 2.9. *)
Lemma C6_counterexample :
  ICS_GPA no_number (sample_department None) <> 2.9%float
  /\ gpa_formula 20 50 20 10 <> 2.9%float.
Proof.
  split; intro E; apply (f_equal Prim2SF) in E; vm_compute in E; discriminate E.
Qed.

(** ** The final merge *)

Lemma key_eqb_string (a b : option string) :
  key_eqb String.eqb a b = true <-> b = a.
Proof.
  destruct a as [x |], b as [y |]; cbn [key_eqb];
    try rewrite String.eqb_eq; split; intro E;
    try discriminate E; try reflexivity;
    [rewrite E; reflexivity | injection E as ->; reflexivity].
Qed.

Lemma key_eqb_Z (a b : option Z) :
  key_eqb Z.eqb a b = true <-> b = a.
Proof.
  destruct a as [x |], b as [y |]; cbn [key_eqb];
    try rewrite Z.eqb_eq; split; intro E;
    try discriminate E; try reflexivity;
    [rewrite E; reflexivity | injection E as ->; reflexivity].
Qed.

Lemma merge_left_keeps {L R : Type} (same_key : L -> R -> bool)
    (left : list L) (right : list R) (l : L) :
  In l left -> exists o, In (l, o) (merge_left same_key left right).
Proof.
  intro Hl. destruct (filter (same_key l) right) as [| r rs] eqn:Hf.
  - exists None. apply in_merge_left. split; [exact Hl |].
    intros r Hr. destruct (same_key l r) eqn:Hk; [| reflexivity].
    assert (Hin : In r (filter (same_key l) right))
      by (apply filter_In; split; assumption).
    rewrite Hf in Hin. destruct Hin.
  - exists (Some r). apply in_merge_left. split; [exact Hl |].
    apply filter_In. rewrite Hf. left. reflexivity.
Qed.

Lemma joined_nothing_iff {L R : Type} (same_key : L -> R -> bool)
    (left : list L) (right : list R) (l : L) (o : option R) :
  In (l, o) (merge_left same_key left right) ->
  (o = None <-> forall r, In r right -> same_key l r = false).
Proof.
  intro H. apply in_merge_left in H. destruct H as (_ & H).
  destruct o as [r |]; split; intro N; try reflexivity; try exact H.
  - discriminate N.
  - destruct H as (Hr & Hk). rewrite (N r Hr) in Hk. discriminate Hk.
Qed.

Lemma filter_map_length {X Y : Type} (f : X -> Y) (p : Y -> bool) (l : list X) :
  List.length (filter p (map f l)) = List.length (filter (fun x => p (f x)) l).
Proof.
  induction l as [| x l IH]; [reflexivity |].
  cbn [map filter]. destruct (p (f x)); cbn [List.length]; rewrite IH; reflexivity.
Qed.

Lemma merge_left_app {L R : Type} (same_key : L -> R -> bool)
    (a b : list L) (right : list R) :
  merge_left same_key (a ++ b) right
  = (merge_left same_key a right ++ merge_left same_key b right)%list.
Proof. unfold merge_left. apply flat_map_app. Qed.

(** A left join of rows that all match the same rows of the right table. *)
Lemma merge_left_length_uniform {L R : Type} (same_key : L -> R -> bool)
    (matches : R -> bool) (left : list L) (right : list R) :
  (forall l, In l left -> forall x, same_key l x = matches x) ->
  List.length (merge_left same_key left right)
  = (List.length left * times_joined matches right)%nat.
Proof.
  unfold merge_left, times_joined.
  induction left as [| l left IH]; intro H; [reflexivity |].
  cbn [flat_map List.length]. rewrite length_app.
  rewrite IH by (intros l' Hl'; apply H; right; exact Hl').
  rewrite (filter_ext (same_key l) matches (H l (or_introl eq_refl))).
  destruct (filter matches right) as [| m ms];
    rewrite ?length_map; cbn [List.length]; lia.
Qed.

Section FinalMergeProperties.

Variable float_of_text : string -> float.

Lemma same_department_iff (r : respondent) (d : dept_row) :
  same_department r (add_gpa float_of_text d) = true
  <-> department_key d = (Q3 r, Q8_uoa r).
Proof.
  unfold same_department, department_key. cbn [add_gpa dept uoa_number].
  rewrite andb_true_iff, key_eqb_string, key_eqb_Z. split.
  - intros (-> & ->). reflexivity.
  - intro E. injection E as -> ->. split; reflexivity.
Qed.

Lemma survey_force_flags r : survey (force_flags r) = fst (fst (fst r)).
Proof. destruct r as (((s, d), c), m). reflexivity. Qed.

(** C1, as the code has it. The merged table holds every row of the
    recoded survey table at least once, and no row that is not one of them:
    the three left joins drop nothing. In a row of the merged table the
    columns of a joined table are missing exactly when the respondent's key
    (institution name and subject-area code, [PIPD], institution name) is
    the key of no row of that table. When no key occurs twice in the
    department-level table (after its [uoa_id] has been reduced to the
    number in it), in the classification table and in the institution
    lookup, the merged table has exactly one row per respondent, in the
    order of the survey table. In general the rows of the merged table are
    those of the first respondent, followed by those of the second, and so
    on; a respondent has one row for every combination of a row of the
    department-level table, a row of the classification table and a row of
    the institution lookup with the respondent's key, a table without such
    a row counting once; and every row of the department-level table with
    the respondent's key is joined to the respondent in one of them. *)
Theorem C1_merged_rows (df_clean : list respondent) (raw_dep : list dept_row)
    (classification : list classification_row) (df_manual : list manual_row) :
  let out := build_dataset float_of_text df_clean raw_dep classification df_manual in
  (List.length df_clean <= List.length out)%nat
  /\ (forall r, In r df_clean <-> exists m, In m out /\ survey m = r)
  /\ (forall m, In m out ->
        (joined_department m = None
         <-> forall d, In d raw_dep ->
               department_key d <> (Q3 (survey m), Q8_uoa (survey m)))
        /\ (joined_classification m = None
            <-> forall c, In c classification -> Q28 c <> PIPD (survey m))
        /\ (joined_manual m = None
            <-> forall u, In u df_manual -> manual_Q3 u <> Q3 (survey m)))
  /\ (NoDup (map department_key raw_dep) ->
      NoDup (map Q28 classification) ->
      NoDup (map manual_Q3 df_manual) ->
      map survey out = df_clean)
  /\ (forall before after : list respondent,
         build_dataset float_of_text (before ++ after) raw_dep classification df_manual
         = (build_dataset float_of_text before raw_dep classification df_manual
            ++ build_dataset float_of_text after raw_dep classification df_manual)%list)
  /\ (forall r : respondent,
         List.length
           (build_dataset float_of_text [r] raw_dep classification df_manual)
         = (times_joined (fun d => same_department r (add_gpa float_of_text d)) raw_dep
            * times_joined (fun c => key_eqb Z.eqb (PIPD r) (Q28 c)) classification
            * times_joined (fun u => key_eqb String.eqb (Q3 r) (manual_Q3 u)) df_manual)%nat)
  /\ (forall (r : respondent) (d : dept_row),
         same_department r (add_gpa float_of_text d) = true
         <-> department_key d = (Q3 r, Q8_uoa r))
  /\ (forall (r : respondent) (d : dept_row),
         In r df_clean -> In d raw_dep ->
         department_key d = (Q3 r, Q8_uoa r) ->
         exists m, In m out /\ survey m = r
                   /\ joined_department m = Some (add_gpa float_of_text d)).
Proof.
  cbv zeta.
  assert (Happ : forall before after : list respondent,
             build_dataset float_of_text (before ++ after) raw_dep classification
               df_manual
             = (build_dataset float_of_text before raw_dep classification df_manual
                ++ build_dataset float_of_text after raw_dep classification
                     df_manual)%list).
  { intros before after. unfold build_dataset.
    rewrite !merge_left_app, map_app. reflexivity. }
  assert (Hcount : forall r : respondent,
             List.length
               (build_dataset float_of_text [r] raw_dep classification df_manual)
             = (times_joined (fun d => same_department r (add_gpa float_of_text d))
                  raw_dep
                * times_joined (fun c => key_eqb Z.eqb (PIPD r) (Q28 c)) classification
                * times_joined (fun u => key_eqb String.eqb (Q3 r) (manual_Q3 u))
                    df_manual)%nat).
  { intro r. unfold build_dataset. rewrite length_map.
    set (N1 := merge_left same_department [r] (map (add_gpa float_of_text) raw_dep)).
    set (N2 := merge_left same_PIPD N1 classification).
    assert (H1 : forall l, In l N1 -> fst l = r).
    { intros (x, o) Hl. apply in_merge_left in Hl. destruct Hl as ([<- | []] & _).
      reflexivity. }
    assert (H2 : forall l, In l N2 -> fst (fst l) = r).
    { intros (x, o) Hl. apply in_merge_left in Hl. destruct Hl as (Hx & _).
      exact (H1 x Hx). }
    assert (L3 : List.length (merge_left same_Q3 N2 df_manual)
                 = (List.length N2
                    * times_joined (fun u => key_eqb String.eqb (Q3 r) (manual_Q3 u))
                        df_manual)%nat).
    { apply merge_left_length_uniform.
      intros l Hl x. unfold same_Q3. rewrite (H2 l Hl). reflexivity. }
    assert (L2 : List.length N2
                 = (List.length N1
                    * times_joined (fun c => key_eqb Z.eqb (PIPD r) (Q28 c))
                        classification)%nat).
    { apply merge_left_length_uniform.
      intros l Hl x. unfold same_PIPD. rewrite (H1 l Hl). reflexivity. }
    assert (L1 : List.length N1
                 = (1 * times_joined (fun d => same_department r d)
                          (map (add_gpa float_of_text) raw_dep))%nat).
    { apply (merge_left_length_uniform same_department
               (fun d => same_department r d) [r]).
      intros l [<- | []] x. reflexivity. }
    rewrite L3, L2, L1. unfold times_joined.
    rewrite (filter_map_length (add_gpa float_of_text)
               (fun d => same_department r d)).
    lia. }
  unfold build_dataset.
  set (deps := map (add_gpa float_of_text) raw_dep).
  set (M1 := merge_left same_department df_clean deps).
  set (M2 := merge_left same_PIPD M1 classification).
  set (M3 := merge_left same_Q3 M2 df_manual).
  split; [| split; [| split; [| split; [| split; [exact Happ
                                                 | split; [exact Hcount | split]]]]]].
  - rewrite length_map.
    pose proof (merge_left_length_ge same_department df_clean deps).
    pose proof (merge_left_length_ge same_PIPD M1 classification).
    pose proof (merge_left_length_ge same_Q3 M2 df_manual).
    fold M1 in H. fold M2 in H0. fold M3 in H1. lia.
  - intro r. split.
    + intro Hr.
      destruct (merge_left_keeps same_department _ deps r Hr) as (d & Hd).
      destruct (merge_left_keeps same_PIPD _ classification _ Hd) as (c & Hc).
      destruct (merge_left_keeps same_Q3 _ df_manual _ Hc) as (u & Hu).
      exists (force_flags (r, d, c, u)). split; [| reflexivity].
      apply in_map. exact Hu.
    + intros (m & Hm & <-). apply in_map_iff in Hm.
      destruct Hm as ((((s, d), c), u) & <- & Hu).
      apply in_merge_left in Hu. destruct Hu as (Hc & _).
      apply in_merge_left in Hc. destruct Hc as (Hd & _).
      apply in_merge_left in Hd. destruct Hd as (Hs & _). exact Hs.
  - intros m Hm. apply in_map_iff in Hm.
    destruct Hm as ((((s, d), c), u) & <- & Hu).
    pose proof (joined_nothing_iff _ _ _ _ _ Hu) as Nu.
    apply in_merge_left in Hu. destruct Hu as (Hc & _).
    pose proof (joined_nothing_iff _ _ _ _ _ Hc) as Nc.
    apply in_merge_left in Hc. destruct Hc as (Hd & _).
    pose proof (joined_nothing_iff _ _ _ _ _ Hd) as Nd.
    cbn [force_flags survey joined_department joined_classification joined_manual].
    split; [| split].
    + rewrite Nd. subst deps. split.
      * intros N x Hx E. apply same_department_iff in E.
        rewrite (N _ (in_map _ _ _ Hx)) in E. discriminate E.
      * intros N x Hx. apply in_map_iff in Hx. destruct Hx as (x' & <- & Hx').
        destruct (same_department s (add_gpa float_of_text x')) eqn:E;
          [| reflexivity].
        exfalso. apply (N x' Hx'). apply same_department_iff. exact E.
    + rewrite Nc. unfold same_PIPD. cbn [fst]. split.
      * intros N x Hx E. specialize (N x Hx).
        apply (proj2 (key_eqb_Z _ _)) in E. rewrite E in N. discriminate N.
      * intros N x Hx. destruct (key_eqb Z.eqb (PIPD s) (Q28 x)) eqn:E;
          [| reflexivity].
        exfalso. apply (N x Hx). apply key_eqb_Z. exact E.
    + rewrite Nu. unfold same_Q3. cbn [fst]. split.
      * intros N x Hx E. specialize (N x Hx).
        apply (proj2 (key_eqb_string _ _)) in E. rewrite E in N. discriminate N.
      * intros N x Hx. destruct (key_eqb String.eqb (Q3 s) (manual_Q3 x)) eqn:E;
          [| reflexivity].
        exfalso. apply (N x Hx). apply key_eqb_string. exact E.
  - intros Hd Hc Hu.
    assert (E3 : map fst M3 = M2).
    { apply merge_left_at_most_one. intros l _.
      apply (filter_unique_key manual_Q3 (same_Q3 l) (Q3 (fst (fst l))));
        [| exact Hu].
      intros x Hx. apply key_eqb_string. exact Hx. }
    assert (E2 : map fst M2 = M1).
    { apply merge_left_at_most_one. intros l _.
      apply (filter_unique_key Q28 (same_PIPD l) (PIPD (fst l))); [| exact Hc].
      intros x Hx. apply key_eqb_Z. exact Hx. }
    assert (E1 : map fst M1 = df_clean).
    { apply merge_left_at_most_one. intros l _.
      apply (filter_unique_key
               (fun d => (Institution_name (dept d), uoa_number d))
               (same_department l) (Q3 l, Q8_uoa l)).
      - intros x Hx. unfold same_department in Hx.
        apply andb_true_iff in Hx. destruct Hx as (H1 & H2).
        apply key_eqb_string in H1. apply key_eqb_Z in H2.
        rewrite H1, H2. reflexivity.
      - subst deps. rewrite map_map. exact Hd. }
    rewrite <- E1, <- E2, <- E3, !map_map.
    apply map_ext. intro a. apply survey_force_flags.
  - intros r d. apply same_department_iff.
  - intros r d Hr Hd Hkey.
    assert (H1 : In (r, Some (add_gpa float_of_text d)) M1).
    { apply in_merge_left. split; [exact Hr |]. split.
      - subst deps. apply in_map. exact Hd.
      - apply same_department_iff. exact Hkey. }
    destruct (merge_left_keeps same_PIPD _ classification _ H1) as (c & Hc).
    destruct (merge_left_keeps same_Q3 _ df_manual _ Hc) as (u & Hu).
    exists (force_flags (r, Some (add_gpa float_of_text d), c, u)).
    split; [apply in_map; exact Hu | split; reflexivity].
Qed.

(** What lines 493-494 do: the two flags are 0 where [Q1] is "Other", and
    elsewhere what the institution lookup holds for the respondent's
    institution, missing when the lookup has no row for it. *)
Lemma flags_follow_Q1 (df_clean : list respondent) (raw_dep : list dept_row)
    (classification : list classification_row) (df_manual : list manual_row)
    (m : merged_row) :
  In m (build_dataset float_of_text df_clean raw_dep classification df_manual) ->
  is_oxbridge m
  = (if String.eqb (Q1 (survey m)) "Other" then Some 0
     else joined_column manual_is_oxbridge (joined_manual m))
  /\ is_redbrick m
     = (if String.eqb (Q1 (survey m)) "Other" then Some 0
        else joined_column manual_is_redbrick (joined_manual m)).
Proof.
  unfold build_dataset. intro H. apply in_map_iff in H.
  destruct H as ((((s, d), c), u) & <- & _). split; reflexivity.
Qed.

End FinalMergeProperties.

(** C1 as stated fails: an institution with two submissions to unit 12,
    "12A" and "12B", has two rows in the department-level table, both with
    the number 12 once [uoa_id] is reduced to its number; its respondent
    appears twice in the merged table. *)
Lemma C1_counterexample :
  map survey
    (build_dataset no_number [sample_respondent]
       [sample_department (Some "A"); sample_department (Some "B")]
       sample_classification sample_manual)
  = [sample_respondent; sample_respondent].
Proof. vm_compute. reflexivity. Qed.

(** Tables without repeated keys. *)
Lemma C1_merged_rows_witness :
  map survey
    (build_dataset no_number [sample_respondent; sample_respondent_other]
       [sample_department None] sample_classification sample_manual)
  = [sample_respondent; sample_respondent_other].
Proof.
  refine (proj1 (proj2 (proj2 (proj2
            (C1_merged_rows no_number [sample_respondent; sample_respondent_other]
               [sample_department None] sample_classification sample_manual))))
            _ _ _);
    repeat constructor; cbn; intuition discriminate.
Defined.

(** C4 on the code: a respondent who reported the institution "Other", and
    whose [Q1] is not "Other", keeps the flags of the lookup, which are
    missing since the lookup has no row for "Other"; they are not 0. *)
Lemma C4_other_institution_flags_missing :
  exists m,
    build_dataset no_number [sample_respondent_other]
      [sample_department None] sample_classification sample_manual = [m]
    /\ Q3 (survey m) = Some "Other"
    /\ is_oxbridge m = None
    /\ is_redbrick m = None.
Proof. eexists. split; [reflexivity | repeat split]. Qed.

(* ================================================================= *)
(** * Further properties of the pipeline *)

(** ** Decimal text *)


Lemma digit_run_not_digit (s : string) (acc : Z) :
  starts_with_digit s = false -> digit_run s acc = acc.
Proof. destruct s as [| c s]; [reflexivity |]. cbn. intros ->. reflexivity. Qed.

Lemma digit_run_uint_acc (d : Decimal.uint) (rest : string) (acc : positive) :
  digit_run (NilEmpty.string_of_uint d ++ rest) (Z.pos acc)
  = digit_run rest (Z.pos (Pos.of_uint_acc d acc)).
Proof.
  revert acc. induction d as [| d IH | d IH | d IH | d IH | d IH | d IH | d IH | d IH | d IH | d IH];
    intro acc; [reflexivity | ..];
    cbn [NilEmpty.string_of_uint append digit_run Pos.of_uint_acc];
    match goal with
    | |- context [is_digit ?c] => change (is_digit c) with true; cbv iota
    end;
    rewrite <- IH; f_equal;
    match goal with
    | |- context [digit_val ?c] =>
        let v := eval vm_compute in (digit_val c) in change (digit_val c) with v
    end;
    lia.
Qed.

Lemma digit_run_uint (d : Decimal.uint) (rest : string) :
  digit_run (NilEmpty.string_of_uint d ++ rest) 0
  = digit_run rest (Z.of_N (Pos.of_uint d)).
Proof.
  induction d as [| d IH | d IH | d IH | d IH | d IH | d IH | d IH | d IH | d IH | d IH];
    [reflexivity | exact IH | ..];
    cbn [NilEmpty.string_of_uint append digit_run Pos.of_uint];
    match goal with
    | |- context [is_digit ?c] => change (is_digit c) with true; cbv iota
    end;
    cbn [Z.of_N]; rewrite <- digit_run_uint_acc; reflexivity.
Qed.

Lemma string_of_uint_starts_with_digit (d : Decimal.uint) (rest : string) :
  d <> Decimal.Nil ->
  starts_with_digit (NilEmpty.string_of_uint d ++ rest) = true.
Proof. destruct d; intro H; try contradiction; reflexivity. Qed.

Lemma string_of_uint_pos (p : positive) :
  NilZero.string_of_uint (Pos.to_uint p) = NilEmpty.string_of_uint (Pos.to_uint p).
Proof.
  unfold NilZero.string_of_uint.
  pose proof (DecimalPos.Unsigned.to_uint_nonnil p) as Hn.
  destruct (Pos.to_uint p); [contradiction | reflexivity ..].
Qed.

(** The number in front of a text that starts with the decimal text of [n]
    and goes on with something that is no digit. *)
Lemma extract_int_str_of_int (n : Z) (rest : string) :
  starts_with_digit rest = false ->
  extract_int (str_of_int n ++ rest) = Some n.
Proof.
  intro Hrest. unfold str_of_int.
  destruct n as [| p | p]; cbn [Z.to_int]; unfold NilZero.string_of_int.
  - cbn. rewrite digit_run_not_digit by exact Hrest. reflexivity.
  - rewrite string_of_uint_pos.
    pose proof (DecimalPos.Unsigned.to_uint_nonnil p) as Hn.
    pose proof (string_of_uint_starts_with_digit (Pos.to_uint p) rest Hn) as Hd.
    destruct (NilEmpty.string_of_uint (Pos.to_uint p) ++ rest) as [| c t] eqn:Es;
      [discriminate Hd |].
    cbn [starts_with_digit] in Hd. cbn [extract_int]. rewrite Hd.
    rewrite <- Es, digit_run_uint, DecimalPos.Unsigned.of_to.
    rewrite digit_run_not_digit by exact Hrest. reflexivity.
  - rewrite string_of_uint_pos.
    pose proof (DecimalPos.Unsigned.to_uint_nonnil p) as Hn.
    cbn [append extract_int]. change (is_digit "-") with false. cbv iota.
    rewrite Ascii.eqb_refl, string_of_uint_starts_with_digit by exact Hn.
    cbn [andb]. rewrite digit_run_uint, DecimalPos.Unsigned.of_to.
    rewrite digit_run_not_digit by exact Hrest. reflexivity.
Qed.




Lemma lstrip_by_head (p : ascii -> bool) (c : ascii) (s : string) :
  p c = false -> lstrip_by p (String c s) = String c s.
Proof. intro H. cbn [lstrip_by]. rewrite H. reflexivity. Qed.



Lemma digit_or_minus_not_space (c : ascii) :
  is_digit c || Ascii.eqb c "-" = true -> negb (is_space c) = true.
Proof.
  destruct c as [b0 b1 b2 b3 b4 b5 b6 b7].
  destruct b0, b1, b2, b3, b4, b5, b6, b7; vm_compute; intro H;
    try reflexivity; discriminate H.
Qed.





(** ** The collapsed text as a join *)

Lemma sub_colon_dotstar_no_colon (skip : bool) (s : string) :
  string_forall (fun c => negb (is_colon c)) (sub_colon_dotstar_from skip s) = true.
Proof.
  revert skip. induction s as [| c s IH]; intro skip; [reflexivity |].
  cbn [sub_colon_dotstar_from].
  destruct (is_newline c) eqn:Hn.
  - cbn [string_forall]. rewrite IH, andb_true_r.
    destruct c as [b0 b1 b2 b3 b4 b5 b6 b7].
    destruct b0, b1, b2, b3, b4, b5, b6, b7; try discriminate Hn; reflexivity.
  - destruct skip; [apply IH |].
    destruct (is_colon c) eqn:Hc; [apply IH |].
    cbn [string_forall]. rewrite Hc, IH. reflexivity.
Qed.

Lemma clean_subcolumn_no_colon (c : option string) :
  string_forall (fun x => negb (is_colon x)) (clean_subcolumn c) = true.
Proof. apply sub_colon_dotstar_no_colon. Qed.

(** The selected options: the sub-columns that are not empty once cleaned. *)
Lemma collapse_drops_empty (pre cols : list (option string)) :
  multipart_collapse (pre ++ cols)
  = multipart_collapse
      (pre ++ filter (fun c => nonempty (clean_subcolumn c)) cols).
Proof.
  revert pre. induction cols as [| c cols IH]; intro pre; [reflexivity |].
  cbn [filter]. destruct (clean_subcolumn c) as [| x t] eqn:E; cbn [nonempty].
  - rewrite empty_subcolumn_dropped by exact E. apply IH.
  - pose proof (IH (pre ++ [c])%list) as IH'.
    rewrite <- !app_assoc in IH'. exact IH'.
Qed.

Lemma sub_colon_plus_token (t rest : string) (prev : bool) :
  nonempty t = true ->
  string_forall (fun c => negb (is_colon c)) t = true ->
  sub_colon_plus_from prev (t ++ String ":" rest)
  = t ++ String ":" (sub_colon_plus_from true rest).
Proof.
  revert prev. induction t as [| x t IH]; intros prev Hne Hnc; [discriminate Hne |].
  cbn [string_forall] in Hnc. apply andb_true_iff in Hnc. destruct Hnc as (Hx & Ht).
  apply negb_true_iff in Hx.
  cbn [append sub_colon_plus_from]. rewrite Hx. f_equal.
  destruct t as [| y t]; [reflexivity |].
  apply IH; [reflexivity | exact Ht].
Qed.

Lemma gathered_tokens (cols : list (option string)) (prev : bool) :
  forallb (fun c => nonempty (clean_subcolumn c)) cols = true ->
  sub_colon_plus_from prev (gathered cols) = gathered cols.
Proof.
  revert prev. induction cols as [| c cols IH]; intros prev H; [reflexivity |].
  cbn [forallb] in H. apply andb_true_iff in H. destruct H as (Hc & Hcols).
  cbn [gathered]. rewrite <- append_assoc. cbn [append].
  rewrite sub_colon_plus_token by (exact Hc || apply clean_subcolumn_no_colon).
  rewrite (IH true Hcols). reflexivity.
Qed.

Lemma rstrip_by_app (p : ascii -> bool) (a b : string) :
  nonempty (rstrip_by p b) = true ->
  rstrip_by p (a ++ b) = a ++ rstrip_by p b.
Proof.
  intro H. induction a as [| x a IH]; [reflexivity |].
  cbn [append rstrip_by]. rewrite IH.
  destruct (a ++ rstrip_by p b) as [| y t] eqn:E; [| reflexivity].
  destruct a; cbn [append] in E; [rewrite E in H; discriminate H | discriminate E].
Qed.

Lemma rstrip_colons_token (t : string) :
  string_forall (fun c => negb (is_colon c)) t = true ->
  rstrip_by is_colon (t ++ ":") = t.
Proof.
  induction t as [| x t IH]; [reflexivity |].
  cbn [string_forall]. rewrite andb_true_iff, negb_true_iff. intros (Hx & Ht).
  cbn [append rstrip_by]. rewrite (IH Ht).
  destruct t; [rewrite Hx |]; reflexivity.
Qed.

Lemma rstrip_gathered (cols : list (option string)) :
  forallb (fun c => nonempty (clean_subcolumn c)) cols = true ->
  rstrip_by is_colon (gathered cols) = join_colon (map clean_subcolumn cols).
Proof.
  induction cols as [| c cols IH]; intro H; [reflexivity |].
  cbn [forallb] in H. apply andb_true_iff in H. destruct H as (Hc & Hcols).
  specialize (IH Hcols).
  destruct cols as [| c' cols].
  - cbn [gathered map join_colon String.concat]. rewrite append_nil_r.
    apply rstrip_colons_token, clean_subcolumn_no_colon.
  - assert (Hne : nonempty (rstrip_by is_colon (gathered (c' :: cols))) = true).
    { rewrite IH. cbn [forallb] in Hcols. apply andb_true_iff in Hcols.
      destruct Hcols as (Hc' & _). unfold join_colon. cbn [map String.concat].
      destruct (clean_subcolumn c'); [discriminate Hc' |].
      destruct (map clean_subcolumn cols); reflexivity. }
    change (gathered (c :: c' :: cols))
      with ((clean_subcolumn c ++ ":") ++ gathered (c' :: cols)).
    rewrite (rstrip_by_app _ _ _ Hne), IH.
    unfold join_colon. cbn [map String.concat].
    rewrite <- append_assoc. reflexivity.
Qed.

Lemma collapse_tokens (cols : list (option string)) :
  forallb (fun c => nonempty (clean_subcolumn c)) cols = true ->
  multipart_collapse cols = join_colon (map clean_subcolumn cols).
Proof.
  intro H. unfold multipart_collapse. rewrite fold_left_gathered. cbn [append].
  unfold sub_colon_plus. rewrite gathered_tokens by exact H.
  unfold strip_colons, strip_by.
  assert (E : lstrip_by is_colon (gathered cols) = gathered cols).
  { destruct cols as [| c cols]; [reflexivity |].
    cbn [forallb] in H. apply andb_true_iff in H. destruct H as (Hc & _).
    cbn [gathered]. pose proof (clean_subcolumn_no_colon c) as Hn.
    destruct (clean_subcolumn c) as [| x t]; [discriminate Hc |].
    cbn [string_forall] in Hn. apply andb_true_iff in Hn. destruct Hn as (Hx & _).
    apply negb_true_iff in Hx. cbn [append]. apply lstrip_by_head. exact Hx. }
  rewrite E. apply rstrip_gathered. exact H.
Qed.

Lemma forallb_filter_self {X : Type} (p : X -> bool) (l : list X) :
  forallb p (filter p l) = true.
Proof.
  induction l as [| x l IH]; [reflexivity |].
  cbn [filter]. destruct (p x) eqn:E; [cbn [forallb]; rewrite E, IH; reflexivity | exact IH].
Qed.

Lemma map_filter_commute {X Y : Type} (f : X -> Y) (p : Y -> bool) (l : list X) :
  map f (filter (fun x => p (f x)) l) = filter p (map f l).
Proof.
  induction l as [| x l IH]; [reflexivity |].
  cbn [filter map]. destruct (p (f x)); cbn [map]; rewrite IH; reflexivity.
Qed.

Lemma collapse_is_join (cols : list (option string)) :
  multipart_collapse cols
  = join_colon (filter nonempty (map clean_subcolumn cols)).
Proof.
  pose proof (collapse_drops_empty [] cols) as E. cbn [app] in E. rewrite E.
  rewrite collapse_tokens by apply forallb_filter_self.
  rewrite (map_filter_commute clean_subcolumn nonempty). reflexivity.
Qed.

(** The regular expression [:.*] works line by line. *)
Lemma is_newline_eq (c : ascii) : is_newline c = true -> c = "010"%char.
Proof.
  destruct c as [b0 b1 b2 b3 b4 b5 b6 b7].
  destruct b0, b1, b2, b3, b4, b5, b6, b7; intro H; try discriminate H; reflexivity.
Qed.

Lemma lines_nonempty (s : string) : lines s <> [].
Proof.
  induction s as [| c s IH]; cbn [lines]; [discriminate |].
  destruct (is_newline c); [discriminate |].
  destruct (lines s); discriminate.
Qed.

Lemma join_lines_cons (c : ascii) (l : string) (ls : list string) :
  join_lines (String c l :: ls) = String c (join_lines (l :: ls)).
Proof. unfold join_lines. destruct ls; reflexivity. Qed.

Lemma join_lines_empty_cons (l : string) (ls : list string) :
  join_lines ("" :: l :: ls) = String "010" (join_lines (l :: ls)).
Proof. reflexivity. Qed.

Lemma sub_colon_dotstar_lines (s : string) :
  sub_colon_dotstar_from false s = join_lines (map before_first_colon (lines s))
  /\ sub_colon_dotstar_from true s
     = join_lines ("" :: map before_first_colon (tl (lines s))).
Proof.
  induction s as [| c s (IHf & IHt)]; [split; reflexivity |].
  cbn [sub_colon_dotstar_from lines].
  pose proof (lines_nonempty s) as Hne.
  destruct (is_newline c) eqn:Hn.
  - apply is_newline_eq in Hn. subst c. cbn [map tl].
    destruct (lines s) as [| l ls]; [contradiction |].
    cbn [map] in IHf |- *.
    change (before_first_colon "") with "".
    rewrite join_lines_empty_cons, <- IHf.
    split; reflexivity.
  - destruct (lines s) as [| l ls]; [contradiction |].
    cbn [map tl] in *. split; [| exact IHt].
    cbn [before_first_colon].
    destruct (is_colon c); [exact IHt |].
    rewrite join_lines_cons, <- IHf. reflexivity.
Qed.

(** C8, as the code has it. The sub-column values "Option A: foo", "", the
    missing-value sentinel (a missing cell, or the text "nan") and "Option
    D: bar" collapse to "Option A:Option D". A sub-column is converted to
    text, emptied when it is the sentinel, stripped of surrounding
    whitespace, and cut line by line: on every line, what follows the
    first colon of the line is discarded, so that for a text of one line
    what remains is what precedes its first colon. The collapsed text is
    the join with colons, in sub-column order, of the sub-columns that are
    not empty after that; so it has no run of colons and no colon at
    either end. *)
Theorem C8_multipart_collapse :
  multipart_collapse
    [Some "Option A: foo"; Some ""; None; Some "Option D: bar"]
  = "Option A:Option D"
  /\ multipart_collapse
       [Some "Option A: foo"; Some ""; Some "nan"; Some "Option D: bar"]
     = "Option A:Option D"
  /\ (forall c : option string,
         clean_subcolumn c
         = join_lines
             (map before_first_colon
                (lines (strip (replace_value "nan" "" (astype_str c))))))
  /\ (forall s : string,
         has_newline (strip (replace_value "nan" "" s)) = false ->
         clean_subcolumn (Some s)
         = before_first_colon (strip (replace_value "nan" "" s)))
  /\ clean_subcolumn None = ""
  /\ clean_subcolumn (Some "nan") = ""
  /\ (forall cols : list (option string),
         multipart_collapse cols
         = join_colon (filter nonempty (map clean_subcolumn cols)))
  /\ (forall cols : list (option string),
         has_colon_run (multipart_collapse cols) = false
         /\ starts_with_colon (multipart_collapse cols) = false
         /\ ends_with_colon (multipart_collapse cols) = false).
Proof.
  split; [reflexivity |]. split; [reflexivity |].
  split; [| split; [| split; [reflexivity | split; [reflexivity | split]]]].
  - intro c. unfold clean_subcolumn, sub_colon_dotstar.
    apply sub_colon_dotstar_lines.
  - intros s H. unfold clean_subcolumn, sub_colon_dotstar. cbn [astype_str].
    apply sub_colon_dotstar_single_line. exact H.
  - apply collapse_is_join.
  - intro cols. unfold multipart_collapse, strip_colons, strip_by.
    set (joined := fold_left _ cols "").
    destruct (sub_colon_plus_from_shape false joined) as (Hrun & _).
    fold (sub_colon_plus joined) in Hrun.
    destruct (lstrip_colons_shape _ Hrun) as (Hrun' & Hstart).
    destruct (rstrip_colons_shape _ Hrun') as (Hrun'' & Hend & Hstart').
    split; [exact Hrun'' |]. split; [| exact Hend].
    rewrite Hstart', Hstart. reflexivity.
Qed.

(** A one-line sub-column with a label suffix. *)
Lemma C8_multipart_collapse_witness :
  clean_subcolumn (Some "  Option D: bar ") = "Option D".
Proof.
  rewrite (proj1 (proj2 (proj2 (proj2 C8_multipart_collapse)))
             "  Option D: bar " eq_refl).
  reflexivity.
Defined.

(** C8 as stated fails: of a sub-column of two lines, what follows the first
    colon is discarded on the first line only, and the second line reaches
    the collapsed text. *)
Lemma C8_counterexample :
  clean_subcolumn (Some ("Option A: foo" ++ String "010" "with a note"))
  = "Option A" ++ String "010" "with a note"
  /\ before_first_colon
       (strip (replace_value "nan" ""
                 ("Option A: foo" ++ String "010" "with a note")))
     = "Option A"
  /\ multipart_collapse
       [Some ("Option A: foo" ++ String "010" "with a note"); Some "Option D: bar"]
     = ("Option A" ++ String "010" "with a note") ++ ":Option D".
Proof. repeat split. Qed.

(** X1. Whatever the sub-columns hold, the collapsed text is the join with
    [':'] of the sub-columns that are not empty once cleaned, in sub-column
    order; no cleaned sub-column holds a colon, so the options can be read
    back by splitting at the colons. *)
Theorem X1_multipart_collapse_is_join (cols : list (option string)) :
  multipart_collapse cols
  = join_colon (filter nonempty (map clean_subcolumn cols))
  /\ Forall (fun t => string_forall (fun c => negb (is_colon c)) t = true)
            (map clean_subcolumn cols).
Proof.
  split; [apply collapse_is_join |].
  apply Forall_forall. intros t Ht. apply in_map_iff in Ht.
  destruct Ht as (c & <- & _). apply clean_subcolumn_no_colon.
Qed.

Lemma join_colon_cons (t : string) (ts : list string) :
  exists rest, join_colon (t :: ts) = t ++ rest /\ starts_with_digit rest = false.
Proof.
  unfold join_colon. destruct ts as [| t' ts]; cbn [String.concat].
  - exists "". split; [symmetry; apply append_nil_r | reflexivity].
  - eexists. split; reflexivity.
Qed.

Lemma round_binary64_small (z : Z) : Z.abs z <= 2 ^ 53 -> round_binary64 z = z.
Proof.
  intro H. unfold round_binary64. cbv zeta.
  destruct (Z.ltb_spec (Z.abs z) (2 ^ 53)) as [L | G]; [reflexivity |].
  assert (E : z = 2 ^ 53 \/ z = - 2 ^ 53) by lia.
  destruct E as [-> | ->]; vm_compute; reflexivity.
Qed.

(** The rounding agrees with the conversion to binary64 of the library of
    floating-point numbers, here on integers of 54, 55, 63 and 97 bits. *)
Lemma round_binary64_examples :
  Forall (fun z => trunc_float (float_of_int z) = Some (round_binary64 z))
    [ 9007199254740993; 9007199254740995; -9007199254740993;
      18014398509481987; 9223372036854775807; 4611686018427387905;
      123456789012345678901234567890 ].
Proof. repeat constructor. Qed.

Lemma in_int64_small (z : Z) : Z.abs z <= 2 ^ 53 -> in_int64 z = true.
Proof.
  intro H. unfold in_int64, int64_min, int64_max.
  apply andb_true_iff. split; apply Z.leb_le; lia.
Qed.

(** A column of numbers of at most 53 bits is stored as it is, whether as
    int64 or as float64. *)
Lemma to_numeric_Int64_small (col : list (option Z)) :
  (forall z, In (Some z) col -> Z.abs z <= 2 ^ 53) ->
  to_numeric_Int64 col = Ok col.
Proof.
  intro H. unfold to_numeric_Int64. cbv zeta.
  assert (Hround : map (option_map round_binary64) col = col).
  { induction col as [| c col IH]; [reflexivity |].
    cbn [map]. rewrite IH by (intros z Hz; apply H; right; exact Hz).
    destruct c as [z |]; [| reflexivity].
    cbn [option_map]. rewrite round_binary64_small; [reflexivity |].
    apply H. left. reflexivity. }
  rewrite Hround.
  match goal with
  | |- (if forallb ?p (if ?b then col else col) then _ else _) = _ =>
      replace (if b then col else col) with col by (destruct b; reflexivity);
      assert (Hall : forallb p col = true)
  end.
  { apply forallb_forall. intros [z |] Hz; [| reflexivity].
    apply in_int64_small, H, Hz. }
  rewrite Hall. reflexivity.
Qed.

(** X2. [Q7_uoa] is the number of the first selected option: when the first
    sub-column that is not empty once cleaned is the decimal text of [n],
    the number read at that row is [n], whatever the sub-columns after it
    hold. When no number read in the column exceeds 2^53 in magnitude (the
    units of assessment are numbered 1 to 34), the column is stored without
    change, whether or not some respondent selected nothing. *)
Theorem X2_Q7_uoa_first_option (rows : list (list (option string))) :
  (forall cols z, In cols rows -> Q7_uoa cols = Some z -> Z.abs z <= 2 ^ 53) ->
  Q7_uoa_column rows = Ok (map Q7_uoa rows)
  /\ forall cols n others,
       filter nonempty (map clean_subcolumn cols) = str_of_int n :: others ->
       Q7_uoa cols = Some n.
Proof.
  intro H. split.
  - apply to_numeric_Int64_small. intros z Hz. apply in_map_iff in Hz.
    destruct Hz as (cols & E & Hin). exact (H cols z Hin E).
  - intros cols n others E. unfold Q7_uoa. rewrite collapse_is_join, E.
    destruct (join_colon_cons (str_of_int n) others) as (rest & -> & Hrest).
    apply extract_int_str_of_int. exact Hrest.
Qed.

Lemma X2_Q7_uoa_first_option_witness :
  Q7_uoa_column
    [ [None; Some "12: Engineering"; Some ""; Some " 3: Allied Health "];
      [None; None; None; None] ]
  = Ok [Some 12; None].
Proof.
  refine (proj1 (X2_Q7_uoa_first_option
                   [ [None; Some "12: Engineering"; Some ""; Some " 3: Allied Health "];
                     [None; None; None; None] ] _)).
  intros cols z [<- | [<- | []]] E; vm_compute in E; [| discriminate E].
  injection E as <-. vm_compute. discriminate.
Defined.

Lemma extract_int_none_iff (s : string) :
  extract_int s = None <-> string_forall (fun c => negb (is_digit c)) s = true.
Proof.
  induction s as [| c s IH]; [split; reflexivity |].
  cbn [extract_int string_forall].
  destruct (is_digit c) eqn:Hc; cbn [negb andb]; [split; discriminate |].
  destruct (Ascii.eqb c "-" && starts_with_digit s) eqn:Hm.
  - split; [discriminate |]. intro H. exfalso.
    apply andb_true_iff in Hm. destruct Hm as (_ & Hd).
    destruct s as [| d s]; [discriminate Hd |].
    cbn [starts_with_digit] in Hd. cbn [string_forall] in H.
    rewrite Hd in H. discriminate H.
  - exact IH.
Qed.

Lemma string_forall_join (p : ascii -> bool) (ts : list string) :
  p ":"%char = true ->
  string_forall p (join_colon ts) = forallb (string_forall p) ts.
Proof.
  intro Hp. unfold join_colon.
  induction ts as [| t ts IH]; [reflexivity |].
  cbn [forallb]. rewrite <- IH.
  destruct ts as [| t' ts]; cbn [String.concat].
  - rewrite andb_true_r. reflexivity.
  - rewrite string_forall_app. cbn [append string_forall]. rewrite Hp. reflexivity.
Qed.

Lemma forallb_filter_nonempty (p : ascii -> bool) (ts : list string) :
  forallb (string_forall p) (filter nonempty ts) = forallb (string_forall p) ts.
Proof.
  induction ts as [| t ts IH]; [reflexivity |].
  cbn [filter forallb]. destruct t as [| x t]; cbn [nonempty];
    [exact IH | cbn [forallb]; rewrite IH; reflexivity].
Qed.

(** X3. [Q7_uoa] is missing exactly when no sub-column holds a decimal digit
    once cleaned (before its first colon, on each line). *)
Theorem X3_Q7_uoa_missing_iff (cols : list (option string)) :
  Q7_uoa cols = None
  <-> forall c, In c cols ->
        string_forall (fun x => negb (is_digit x)) (clean_subcolumn c) = true.
Proof.
  unfold Q7_uoa. rewrite extract_int_none_iff, collapse_is_join.
  rewrite string_forall_join by reflexivity.
  rewrite forallb_filter_nonempty, forallb_forall. split.
  - intros H c Hc. apply H. apply in_map. exact Hc.
  - intros H t Ht. apply in_map_iff in Ht. destruct Ht as (c & <- & Hc).
    apply H. exact Hc.
Qed.

Lemma format_ids_formatted (df : sheet) (out : list id_row) :
  format_ids df = Ok out -> Forall formatted out.
Proof.
  unfold format_ids. destruct (negb _); [discriminate |]. intro E.
  apply bind_Ok in E. destruct E as (inst & Einst & E).
  apply bind_Ok in E. destruct E as (number & Enumber & E).
  injection E as <-.
  apply mapM_Ok_Forall2 in Einst. apply mapM_Ok_Forall2 in Enumber.
  exact (proj2 (with_ids_formatted _ _ _ Einst Enumber)).
Qed.

(** X4. The number that line 465-466 of [build_dataset] reads back from a
    [uoa_id] made by [format_ids] is the unit of assessment number of the
    row, provided the submission letter does not begin with a digit. *)
Theorem X4_uoa_number_read_back (df : sheet) (out : list id_row) (row : id_row) :
  format_ids df = Ok out ->
  In row out ->
  starts_with_digit
    (astype_str (fillna_empty (multiple_submission_letter (source_row row))))
  = false ->
  exists n,
    astype_int (unit_of_assessment_number (source_row row)) = Ok n
    /\ extract_int (uoa_id row) = Some n.
Proof.
  intros E Hrow Hletter. apply format_ids_formatted in E.
  rewrite Forall_forall in E. destruct (E row Hrow) as (_ & n & Hn & Hu).
  exists n. split; [exact Hn |]. rewrite Hu.
  apply extract_int_str_of_int.
  destruct (multiple_submission_letter (source_row row)); exact Hletter.
Qed.

Lemma X4_uoa_number_read_back_witness :
  exists n,
    astype_int (Flt 4) = Ok n /\ extract_int "4B" = Some n.
Proof.
  refine (X4_uoa_number_read_back sample_sheet sample_sheet_formatted
            (nth 1 sample_sheet_formatted (id_row_of 0 0 None [])) eq_refl _ eq_refl).
  right. left. reflexivity.
Defined.

Lemma to_int64_Ok (z n : Z) : to_int64 z = Ok n -> n = z /\ in_int64 z = true.
Proof.
  unfold to_int64. destruct (in_int64 z); [| discriminate].
  intro E. injection E as <-. split; reflexivity.
Qed.

Lemma astype_int_in_int64 (c : cell) (n : Z) : astype_int c = Ok n -> in_int64 n = true.
Proof.
  destruct c as [| z | f | s]; cbn [astype_int].
  - discriminate.
  - intro E. apply to_int64_Ok in E. destruct E as (-> & H). exact H.
  - destruct (trunc_float f) as [z |].
    + intro E. apply to_int64_Ok in E. destruct E as (-> & H). exact H.
    + destruct (PrimFloat.is_nan f); discriminate.
  - destruct (int_of_str s) as [z | e]; cbn [bind]; [| discriminate].
    intro E. apply to_int64_Ok in E. destruct E as (-> & H). exact H.
Qed.

(** A column of 64-bit numbers without a missing value is stored as it is. *)
Lemma to_numeric_Int64_complete (col : list (option Z)) :
  (forall c, In c col -> exists z, c = Some z /\ in_int64 z = true) ->
  to_numeric_Int64 col = Ok col.
Proof.
  intro H. unfold to_numeric_Int64. cbv zeta.
  assert (Hint : existsb (fun c : option Z => match c with
                                              | Some z => (z <? int64_min)%Z
                                              | None => true
                                              end) col = false).
  { destruct (existsb _ col) eqn:E; [| reflexivity].
    apply existsb_exists in E. destruct E as (c & Hc & Ec).
    destruct (H c Hc) as (z & -> & Hz). unfold in_int64 in Hz.
    apply andb_true_iff in Hz. destruct Hz as (Hlo & _).
    apply Z.leb_le in Hlo. apply Z.ltb_lt in Ec. lia. }
  rewrite Hint.
  assert (Hall : forallb (fun c : option Z => match c with
                                              | Some z => in_int64 z
                                              | None => true
                                              end) col = true).
  { apply forallb_forall. intros c Hc. destruct (H c Hc) as (z & -> & Hz). exact Hz. }
  rewrite Hall. reflexivity.
Qed.

(** X20. For the identifiers [format_ids] makes, lines 465-466 store the unit
    numbers exactly: when no submission letter begins with a digit, the
    number read in every [uoa_id] is the unit of assessment number of its
    row and fits in 64 bits, and no row is without a number; so the column
    stays an integer column and no number in it is rounded. *)
Theorem X20_uoa_numbers_stored_exactly (df : sheet) (out : list id_row) :
  format_ids df = Ok out ->
  (forall row, In row out ->
     starts_with_digit
       (astype_str (fillna_empty (multiple_submission_letter (source_row row))))
     = false) ->
  to_numeric_Int64 (map (fun row => extract_int (uoa_id row)) out)
  = Ok (map (fun row => extract_int (uoa_id row)) out)
  /\ Forall
       (fun row =>
          exists n,
            astype_int (unit_of_assessment_number (source_row row)) = Ok n
            /\ extract_int (uoa_id row) = Some n
            /\ in_int64 n = true)
       out.
Proof.
  intros E Hletter. apply format_ids_formatted in E. rewrite Forall_forall in E.
  assert (Hrow : forall row, In row out ->
             exists n,
               astype_int (unit_of_assessment_number (source_row row)) = Ok n
               /\ extract_int (uoa_id row) = Some n
               /\ in_int64 n = true).
  { intros row Hrow. destruct (E row Hrow) as (_ & n & Hn & Hu).
    exists n. split; [exact Hn |]. split; [| exact (astype_int_in_int64 _ _ Hn)].
    rewrite Hu. apply extract_int_str_of_int.
    specialize (Hletter row Hrow).
    destruct (multiple_submission_letter (source_row row)); exact Hletter. }
  split; [| apply Forall_forall; exact Hrow].
  apply to_numeric_Int64_complete. intros c Hc. apply in_map_iff in Hc.
  destruct Hc as (row & <- & Hin). destruct (Hrow row Hin) as (n & _ & En & Hn).
  exists n. split; [exact En | exact Hn].
Qed.

Lemma X20_uoa_numbers_stored_exactly_witness :
  to_numeric_Int64 (map (fun row => extract_int (uoa_id row)) sample_sheet_formatted)
  = Ok [Some 12; Some 4].
Proof.
  refine (proj1 (X20_uoa_numbers_stored_exactly sample_sheet sample_sheet_formatted
                   eq_refl _)).
  intros row [<- | [<- | []]]; reflexivity.
Defined.




(** ** Errors of [format_ids] *)



(** ** More on [merge_ins_uoa] *)

Section MergeInsUoaMore.

Context {A B : Type} `{KA : Keyed A} `{KB : Keyed B}.

(** X7. On an empty left table [merge_ins_uoa] returns the empty table,
    whatever the right table; on an empty right table and a left table with
    a row it fails; and it never fails otherwise than by an assertion. *)
Theorem X7_merge_ins_uoa_empty_tables :
  (forall df2 : list B, merge_ins_uoa ([] : list A) df2 = Ok [])
  /\ (forall (a : A) (df1 : list A),
         merge_ins_uoa (a :: df1) ([] : list B) = Raise AssertionError)
  /\ (forall (df1 : list A) (df2 : list B) (e : exn),
         merge_ins_uoa df1 df2 = Raise e -> e = AssertionError).
Proof.
  split; [reflexivity |]. split; [reflexivity |].
  intros df1 df2 e E.
  destruct (merge_ins_uoa_cases df1 df2) as [(_ & E') | (_ & E')];
    rewrite E' in E; [discriminate E | injection E as <-; reflexivity].
Qed.

(** X8. In the table [merge_ins_uoa] returns, a left row is joined to a right
    row exactly when both have the same pair of identifiers: no row is
    joined to the row of another department, and no right row of the same
    department is left out. *)
Theorem X8_merge_ins_uoa_joins_same_pair (df1 : list A) (df2 : list B)
    (out : list (A * option B)) :
  merge_ins_uoa df1 df2 = Ok out ->
  forall (a : A) (b : B),
    In (a, Some b) out
    <-> In a df1 /\ In b df2 /\ (inst_id b, uoa_id b) = (inst_id a, uoa_id a).
Proof.
  intros E a b.
  destruct (merge_ins_uoa_cases df1 df2) as [(_ & E') | (_ & E')];
    rewrite E' in E; [injection E as <- | discriminate E].
  rewrite in_merge_left, same_ins_uoa_iff. tauto.
Qed.

End MergeInsUoaMore.

Lemma X8_merge_ins_uoa_joins_same_pair_witness :
  In (sample_submission,
      Some (id_row_of 10007783 12 None [("tot_income", Int 1250)]))
     [ (sample_submission,
        Some (id_row_of 10007783 12 None [("tot_income", Int 1200)]));
       (sample_submission,
        Some (id_row_of 10007783 12 None [("tot_income", Int 1250)])) ]
  <-> In sample_submission [sample_submission]
      /\ In (id_row_of 10007783 12 None [("tot_income", Int 1250)])
           sample_repeated_income
      /\ (inst_id (id_row_of 10007783 12 None [("tot_income", Int 1250)]),
          uoa_id (id_row_of 10007783 12 None [("tot_income", Int 1250)]))
         = (inst_id sample_submission, uoa_id sample_submission).
Proof.
  exact (X8_merge_ins_uoa_joins_same_pair [sample_submission] sample_repeated_income
           _ eq_refl sample_submission
           (id_row_of 10007783 12 None [("tot_income", Int 1250)])).
Defined.

(** ** The chain of merges of the department-level table *)

Lemma forallb_same_members {X Y : Type} (p : X -> bool) (g : Y -> X)
    (l : list X) (l' : list Y) :
  (forall x, In x l <-> exists y, In y l' /\ g y = x) ->
  forallb (fun y => p (g y)) l' = forallb p l.
Proof.
  intro H. apply eq_true_iff_eq. rewrite !forallb_forall. split.
  - intros Hl' x Hx. apply H in Hx. destruct Hx as (y & Hy & <-). apply Hl'. exact Hy.
  - intros Hl y Hy. apply Hl. apply H. exists y. split; [exact Hy | reflexivity].
Qed.

Section JoinedKeys.

Context {A B C : Type} `{KA : Keyed A} `{KC : Keyed C}.

Lemma merge_left_members (same_key : A -> B -> bool) (df1 : list A) (df2 : list B) :
  forall a, In a df1
            <-> exists r, In r (merge_left same_key df1 df2) /\ fst r = a.
Proof.
  intro a. split.
  - intro Ha. destruct (merge_left_keeps same_key df1 df2 a Ha) as (o & Ho).
    exists (a, o). split; [exact Ho | reflexivity].
  - intros ((a', o) & Hr & <-). apply in_merge_left in Hr. apply Hr.
Qed.

(** The assertions of a later merge see the identifiers of the first table. *)
Lemma isin_after_merge (same_key : A -> B -> bool) (df1 : list A) (df2 : list B)
    (df3 : list C) :
  all_inst_id_isin (merge_left same_key df1 df2) df3 = all_inst_id_isin df1 df3
  /\ all_uoa_id_isin (merge_left same_key df1 df2) df3 = all_uoa_id_isin df1 df3.
Proof.
  unfold all_inst_id_isin, all_uoa_id_isin. split.
  - apply (forallb_same_members
             (fun a => existsb (fun b => (inst_id a =? inst_id b)%Z) df3) fst).
    apply merge_left_members.
  - apply (forallb_same_members
             (fun a => existsb (fun b => String.eqb (uoa_id a) (uoa_id b)) df3) fst).
    apply merge_left_members.
Qed.

End JoinedKeys.

Section DepartmentTables.

Context {A B C D E : Type}
        `{KA : Keyed A} `{KB : Keyed B} `{KC : Keyed C} `{KD : Keyed D} `{KE : Keyed E}.

Lemma merge_ins_uoa_Ok_iff {X Y : Type} `{KX : Keyed X} `{KY : Keyed Y}
    (df1 : list X) (df2 : list Y) :
  merge_ins_uoa df1 df2
  = if all_inst_id_isin df1 df2 && all_uoa_id_isin df1 df2
    then Ok (merge_left same_ins_uoa df1 df2)
    else Raise AssertionError.
Proof.
  unfold merge_ins_uoa.
  destruct (all_inst_id_isin df1 df2); [| reflexivity].
  destruct (all_uoa_id_isin df1 df2); reflexivity.
Qed.

Lemma pair_keys_unique {X Y : Type} `{KX : Keyed X} `{KY : Keyed Y}
    (df1 : list X) (df2 : list Y) :
  NoDup (map (fun b => (inst_id b, uoa_id b)) df2) ->
  map fst (merge_left same_ins_uoa df1 df2) = df1.
Proof.
  intro Hnd. apply merge_left_at_most_one. intros a _.
  apply (filter_unique_key (fun b => (inst_id b, uoa_id b))
           (same_ins_uoa a) (inst_id a, uoa_id a)); [| exact Hnd].
  intros b Hb. apply same_ins_uoa_iff. exact Hb.
Qed.

(** The chain of four merges succeeds exactly when the identifiers of its
    left table occur in each of the four other tables, fails by an assertion
    only, and keeps the rows of its left table. *)
Lemma merge_chain_cases (left : list A) (wide_score_card : list B)
    (raw_env_doctoral : list C) (tot_inc : list D) (tot_inc_kind : list E) :
  let run :=
    merge_chain left wide_score_card raw_env_doctoral tot_inc tot_inc_kind in
  ((exists raw_dep, run = Ok raw_dep)
   <-> all_inst_id_isin left wide_score_card
       && all_uoa_id_isin left wide_score_card
       && (all_inst_id_isin left raw_env_doctoral
           && all_uoa_id_isin left raw_env_doctoral)
       && (all_inst_id_isin left tot_inc
           && all_uoa_id_isin left tot_inc)
       && (all_inst_id_isin left tot_inc_kind
           && all_uoa_id_isin left tot_inc_kind) = true)
  /\ (forall e, run = Raise e -> e = AssertionError)
  /\ (forall raw_dep,
         run = Ok raw_dep ->
         (List.length left <= List.length raw_dep)%nat
         /\ (NoDup (map (fun r => (inst_id r, uoa_id r)) wide_score_card) ->
             NoDup (map (fun r => (inst_id r, uoa_id r)) raw_env_doctoral) ->
             NoDup (map (fun r => (inst_id r, uoa_id r)) tot_inc) ->
             NoDup (map (fun r => (inst_id r, uoa_id r)) tot_inc_kind) ->
             map (fun r => fst (fst (fst (fst r)))) raw_dep = left)).
Proof.
  cbv zeta. unfold merge_chain.
  pose (M1 := merge_left same_ins_uoa left wide_score_card).
  pose (M2 := merge_left same_ins_uoa M1 raw_env_doctoral).
  pose (M3 := merge_left same_ins_uoa M2 tot_inc).
  assert (J2 : all_inst_id_isin M1 raw_env_doctoral
               = all_inst_id_isin left raw_env_doctoral
               /\ all_uoa_id_isin M1 raw_env_doctoral
                  = all_uoa_id_isin left raw_env_doctoral)
    by apply isin_after_merge.
  assert (J3 : all_inst_id_isin M2 tot_inc = all_inst_id_isin left tot_inc
               /\ all_uoa_id_isin M2 tot_inc = all_uoa_id_isin left tot_inc).
  { destruct (isin_after_merge same_ins_uoa M1 raw_env_doctoral tot_inc) as (a & b).
    destruct (isin_after_merge same_ins_uoa left wide_score_card tot_inc)
      as (c & d).
    split; [exact (eq_trans a c) | exact (eq_trans b d)]. }
  assert (J4 : all_inst_id_isin M3 tot_inc_kind
               = all_inst_id_isin left tot_inc_kind
               /\ all_uoa_id_isin M3 tot_inc_kind
                  = all_uoa_id_isin left tot_inc_kind).
  { destruct (isin_after_merge same_ins_uoa M2 tot_inc tot_inc_kind) as (a & b).
    destruct (isin_after_merge same_ins_uoa M1 raw_env_doctoral tot_inc_kind)
      as (c & d).
    destruct (isin_after_merge same_ins_uoa left wide_score_card tot_inc_kind)
      as (f & g).
    split; [exact (eq_trans a (eq_trans c f)) | exact (eq_trans b (eq_trans d g))]. }
  destruct J2 as (I2 & U2), J3 as (I3' & U3'), J4 as (I4'' & U4'').
  rewrite (merge_ins_uoa_Ok_iff left wide_score_card). fold M1.
  destruct (all_inst_id_isin left wide_score_card
            && all_uoa_id_isin left wide_score_card) eqn:E1; cbn [bind andb];
    [| split; [split; [intros (r & Er); discriminate Er | discriminate] |];
       split; [intros e Ee; injection Ee as <-; reflexivity | discriminate]].
  rewrite (merge_ins_uoa_Ok_iff M1 raw_env_doctoral), I2, U2. fold M2.
  destruct (all_inst_id_isin left raw_env_doctoral
            && all_uoa_id_isin left raw_env_doctoral) eqn:E2; cbn [bind andb];
    [| split; [split; [intros (r & Er); discriminate Er | discriminate] |];
       split; [intros e Ee; injection Ee as <-; reflexivity | discriminate]].
  rewrite (merge_ins_uoa_Ok_iff M2 tot_inc), I3', U3'. fold M3.
  destruct (all_inst_id_isin left tot_inc
            && all_uoa_id_isin left tot_inc) eqn:E3; cbn [bind andb];
    [| split; [split; [intros (r & Er); discriminate Er | discriminate] |];
       split; [intros e Ee; injection Ee as <-; reflexivity | discriminate]].
  rewrite (merge_ins_uoa_Ok_iff M3 tot_inc_kind), I4'', U4''.
  destruct (all_inst_id_isin left tot_inc_kind
            && all_uoa_id_isin left tot_inc_kind) eqn:E4; cbn [bind andb];
    [| split; [split; [intros (r & Er); discriminate Er | discriminate] |];
       split; [intros e Ee; injection Ee as <-; reflexivity | discriminate]].
  split; [split; [reflexivity | intros _; eexists; reflexivity] |].
  split; [discriminate |].
  intros raw_dep Er. injection Er as <-. split.
  - pose proof (merge_left_length_ge same_ins_uoa left wide_score_card) as L1.
    pose proof (merge_left_length_ge same_ins_uoa M1 raw_env_doctoral) as L2.
    pose proof (merge_left_length_ge same_ins_uoa M2 tot_inc) as L3.
    pose proof (merge_left_length_ge same_ins_uoa M3 tot_inc_kind) as L4.
    fold M1 in L1. fold M2 in L2. fold M3 in L3. lia.
  - intros N1 N2 N3 N4.
    pose proof (pair_keys_unique left wide_score_card N1) as P1.
    pose proof (pair_keys_unique M1 raw_env_doctoral N2) as P2.
    pose proof (pair_keys_unique M2 tot_inc N3) as P3.
    pose proof (pair_keys_unique M3 tot_inc_kind N4) as P4.
    change (map fst M1 = left) in P1.
    change (map fst M2 = M1) in P2.
    change (map fst M3 = M2) in P3.
    transitivity
      (map fst (map fst (map fst (map fst (merge_left same_ins_uoa M3 tot_inc_kind)))));
      [rewrite !map_map; reflexivity |].
    rewrite P4, P3, P2. exact P1.
Qed.

End DepartmentTables.

(** *** [drop_duplicates] *)

Lemma float_eqb_or_nan (f : float) :
  (f =? f)%float || (PrimFloat.is_nan f && PrimFloat.is_nan f) = true.
Proof. unfold PrimFloat.is_nan. destruct (f =? f)%float; reflexivity. Qed.

Lemma cell_same_refl (c : cell) : cell_same c c = true.
Proof.
  destruct c as [| z | f | s]; cbn [cell_same].
  - reflexivity.
  - apply Z.eqb_refl.
  - apply float_eqb_or_nan.
  - apply String.eqb_refl.
Qed.

Lemma submission_same_refl (a : submission) : submission_same a a = true.
Proof.
  unfold submission_same.
  rewrite Z.eqb_refl, String.eqb_refl, !cell_same_refl. reflexivity.
Qed.

Lemma submission_same_ids (a b : submission) :
  submission_same a b = true -> inst_id a = inst_id b /\ uoa_id a = uoa_id b.
Proof.
  unfold submission_same. rewrite !andb_true_iff.
  intros ((((Hi & _) & Hu) & _) & _).
  apply Z.eqb_eq in Hi. apply String.eqb_eq in Hu. split; assumption.
Qed.

Section DropDuplicates.

Context {R : Type} (same : R -> R -> bool).

Lemma drop_duplicates_from_incl (seen df : list R) (r : R) :
  In r (drop_duplicates_from same seen df) -> In r df.
Proof.
  revert seen. induction df as [| x df IH]; intros seen H; [destruct H |].
  cbn [drop_duplicates_from] in H. destruct (existsb (same x) seen).
  - right. exact (IH _ H).
  - destruct H as [<- | H]; [left; reflexivity | right; exact (IH _ H)].
Qed.

Lemma drop_duplicates_from_covers (seen df : list R) (r : R) :
  (forall x, same x x = true) ->
  In r df ->
  exists k, In k (seen ++ drop_duplicates_from same seen df) /\ same r k = true.
Proof.
  intro Hrefl. revert seen. induction df as [| x df IH]; intros seen H; [destruct H |].
  cbn [drop_duplicates_from]. destruct (existsb (same x) seen) eqn:Ex.
  - destruct H as [<- | H]; [| exact (IH seen H)].
    apply existsb_exists in Ex. destruct Ex as (k & Hk & Ek).
    exists k. split; [apply in_or_app; left; exact Hk | exact Ek].
  - destruct H as [<- | H].
    + exists x. split; [apply in_or_app; right; left; reflexivity | apply Hrefl].
    + destruct (IH (x :: seen) H) as (k & Hk & Ek). exists k. split; [| exact Ek].
      apply in_app_or in Hk. apply in_or_app.
      destruct Hk as [[<- | Hk] | Hk];
        [right; left; reflexivity | left; exact Hk | right; right; exact Hk].
Qed.

Lemma drop_duplicates_from_differ (seen df : list R) :
  Forall (fun r => forall k, In k seen -> same r k = false)
    (drop_duplicates_from same seen df)
  /\ ForallOrdPairs (fun k r => same r k = false) (drop_duplicates_from same seen df).
Proof.
  revert seen. induction df as [| x df IH]; intro seen; [split; constructor |].
  cbn [drop_duplicates_from]. destruct (existsb (same x) seen) eqn:Ex; [apply IH |].
  destruct (IH (x :: seen)) as (Hseen & Hpairs). split.
  - constructor.
    + intros k Hk. destruct (same x k) eqn:E; [| reflexivity].
      assert (Ht : existsb (same x) seen = true)
        by (apply existsb_exists; exists k; split; assumption).
      rewrite Ex in Ht. discriminate Ht.
    + revert Hseen. apply Forall_impl. intros r Hr k Hk. apply Hr. right. exact Hk.
  - constructor; [| exact Hpairs].
    revert Hseen. apply Forall_impl. intros r Hr. apply Hr. left. reflexivity.
Qed.

End DropDuplicates.

Lemma forallb_same_values {X Y : Type} (p : X -> bool) (q : Y -> bool)
    (l : list X) (l' : list Y) :
  (forall x, In x l -> exists y, In y l' /\ q y = p x) ->
  (forall y, In y l' -> exists x, In x l /\ p x = q y) ->
  forallb p l = forallb q l'.
Proof.
  intros H H'. apply eq_true_iff_eq. rewrite !forallb_forall. split.
  - intros Hl y Hy. destruct (H' y Hy) as (x & Hx & E). rewrite <- E. apply Hl, Hx.
  - intros Hl x Hx. destruct (H x Hx) as (y & Hy & E). rewrite <- E. apply Hl, Hy.
Qed.

Section DepartmentLevelTable.

Context {B C D E : Type}
        `{KB : Keyed B} `{KC : Keyed C} `{KD : Keyed D} `{KE : Keyed E}.

(** The assertions see the same identifiers before and after line 440. *)
Lemma isin_after_drop_duplicates {Y : Type} `{KY : Keyed Y}
    (raw_results : list results_row) (df2 : list Y) :
  all_inst_id_isin
    (drop_duplicates submission_same (map submission_columns raw_results)) df2
  = all_inst_id_isin raw_results df2
  /\ all_uoa_id_isin
       (drop_duplicates submission_same (map submission_columns raw_results)) df2
     = all_uoa_id_isin raw_results df2.
Proof.
  assert (H1 : forall a,
             In a (drop_duplicates submission_same (map submission_columns raw_results)) ->
             exists r, In r raw_results /\ inst_id r = inst_id a /\ uoa_id r = uoa_id a).
  { intros a Ha. apply drop_duplicates_from_incl in Ha. apply in_map_iff in Ha.
    destruct Ha as (r & <- & Hr). exists r. repeat split. exact Hr. }
  assert (H2 : forall r, In r raw_results ->
             exists a,
               In a (drop_duplicates submission_same (map submission_columns raw_results))
               /\ inst_id a = inst_id r /\ uoa_id a = uoa_id r).
  { intros r Hr.
    destruct (drop_duplicates_from_covers submission_same []
                (map submission_columns raw_results) (submission_columns r)
                submission_same_refl (in_map _ _ _ Hr)) as (k & Hk & Ek).
    exists k. split; [exact Hk |].
    apply submission_same_ids in Ek. destruct Ek as (Ei & Eu).
    split; [symmetry; exact Ei | symmetry; exact Eu]. }
  unfold all_inst_id_isin, all_uoa_id_isin. split; apply forallb_same_values.
  - intros a Ha. destruct (H1 a Ha) as (r & Hr & Ei & _). exists r.
    split; [exact Hr | rewrite Ei; reflexivity].
  - intros r Hr. destruct (H2 r Hr) as (a & Ha & Ei & _). exists a.
    split; [exact Ha | rewrite Ei; reflexivity].
  - intros a Ha. destruct (H1 a Ha) as (r & Hr & _ & Eu). exists r.
    split; [exact Hr | rewrite Eu; reflexivity].
  - intros r Hr. destruct (H2 r Hr) as (a & Ha & _ & Eu). exists a.
    split; [exact Ha | rewrite Eu; reflexivity].
Qed.

(** X9. The department-level table is built from the five selected columns
    of the results table, with one row for every different row of these:
    every row of the results table has a row there with the same values,
    and no two rows there hold the same values, so the four profile rows of
    a department make one row. The chain of four merges succeeds exactly
    when every [inst_id] and every [uoa_id] of the results table occurs in
    the corresponding column of each of the four other tables: what the
    later assertions test is decided by the results table alone. Every
    failure is an assertion violation. When it succeeds and no pair of
    identifiers occurs twice in any of the four tables, the
    department-level table has exactly these rows, in the order of their
    first occurrence. *)
Theorem X9_department_tables_chain (raw_results : list results_row)
    (wide_score_card : list B) (raw_env_doctoral : list C) (tot_inc : list D)
    (tot_inc_kind : list E) :
  let left := drop_duplicates submission_same (map submission_columns raw_results) in
  let run :=
    merge_department_tables raw_results wide_score_card raw_env_doctoral
      tot_inc tot_inc_kind in
  (forall r, In r raw_results ->
             exists a, In a left /\ submission_same (submission_columns r) a = true)
  /\ (forall a, In a left -> In a (map submission_columns raw_results))
  /\ ForallOrdPairs (fun a b => submission_same b a = false) left
  /\ ((exists raw_dep, run = Ok raw_dep)
      <-> all_inst_id_isin raw_results wide_score_card
          && all_uoa_id_isin raw_results wide_score_card
          && (all_inst_id_isin raw_results raw_env_doctoral
              && all_uoa_id_isin raw_results raw_env_doctoral)
          && (all_inst_id_isin raw_results tot_inc
              && all_uoa_id_isin raw_results tot_inc)
          && (all_inst_id_isin raw_results tot_inc_kind
              && all_uoa_id_isin raw_results tot_inc_kind) = true)
  /\ (forall e, run = Raise e -> e = AssertionError)
  /\ (forall raw_dep,
         run = Ok raw_dep ->
         (List.length left <= List.length raw_dep)%nat
         /\ (NoDup (map (fun r => (inst_id r, uoa_id r)) wide_score_card) ->
             NoDup (map (fun r => (inst_id r, uoa_id r)) raw_env_doctoral) ->
             NoDup (map (fun r => (inst_id r, uoa_id r)) tot_inc) ->
             NoDup (map (fun r => (inst_id r, uoa_id r)) tot_inc_kind) ->
             map (fun r => fst (fst (fst (fst r)))) raw_dep = left)).
Proof.
  cbv zeta. unfold merge_department_tables.
  set (left := drop_duplicates submission_same (map submission_columns raw_results)).
  split; [| split; [| split]].
  - intros r Hr.
    destruct (drop_duplicates_from_covers submission_same []
                (map submission_columns raw_results) (submission_columns r)
                submission_same_refl (in_map _ _ _ Hr)) as (k & Hk & Ek).
    exists k. split; [exact Hk | exact Ek].
  - intros a Ha. exact (drop_duplicates_from_incl _ _ _ _ Ha).
  - exact (proj2 (drop_duplicates_from_differ submission_same []
                    (map submission_columns raw_results))).
  - pose proof (merge_chain_cases left wide_score_card raw_env_doctoral tot_inc
                  tot_inc_kind) as (Hok & Hexn & Hrows).
    cbv zeta in Hok, Hexn, Hrows.
    destruct (isin_after_drop_duplicates raw_results wide_score_card) as (I1 & U1).
    destruct (isin_after_drop_duplicates raw_results raw_env_doctoral) as (I2 & U2).
    destruct (isin_after_drop_duplicates raw_results tot_inc) as (I3 & U3).
    destruct (isin_after_drop_duplicates raw_results tot_inc_kind) as (I4 & U4).
    fold left in I1, U1, I2, U2, I3, U3, I4, U4.
    rewrite I1, U1, I2, U2, I3, U3, I4, U4 in Hok.
    split; [exact Hok |]. split; [exact Hexn | exact Hrows].
Qed.

End DepartmentLevelTable.

(** The four profile rows of one department, and tables that know it. *)
Lemma X9_department_tables_chain_witness :
  exists raw_dep,
    merge_department_tables sample_results [sample_submission]
      [sample_submission] [sample_submission] [sample_submission] = Ok raw_dep
    /\ map (fun r => fst (fst (fst (fst r)))) raw_dep
       = [submission_columns (sample_result (Str "Outputs"))].
Proof.
  pose proof (X9_department_tables_chain sample_results [sample_submission]
                [sample_submission] [sample_submission] [sample_submission])
    as (_ & _ & _ & Hok & _ & Hrows).
  cbv zeta in Hok, Hrows.
  destruct (proj2 Hok) as (raw_dep & E); [vm_compute; reflexivity |].
  exists raw_dep. split; [exact E |].
  apply (Hrows raw_dep E); repeat constructor; intros [].
Defined.

(** ** A missing PhD year *)

Lemma Q4_stage_missing : Q4_stage (Q4_years None) = Raise TypeError.
Proof. reflexivity. Qed.

(** X10. The career-stage columns are computed for the whole survey or not at
    all: the three [np.where] calls fail, with a [TypeError], exactly when
    the PhD year of some respondent is missing, and otherwise give one
    stage per respondent. *)
Theorem X10_missing_year_stops_stage (Q4 : list (option Z)) :
  (Q4_stage_column Q4 = Raise TypeError <-> In None Q4)
  /\ (forall e, Q4_stage_column Q4 = Raise e -> e = TypeError)
  /\ (~ In None Q4 ->
      exists stages, Q4_stage_column Q4 = Ok stages
                     /\ List.length stages = List.length Q4).
Proof.
  pose proof Q4_stage_row as Hrow.
  unfold Q4_stage_column.
  induction Q4 as [| q Q4 (IH1 & IH2 & IH3)].
  - split; [split; [discriminate | intros []] |].
    split; [discriminate |]. intros _. exists []. split; reflexivity.
  - cbn [mapM].
    destruct (Hrow q) as [(-> & Eq) | (y & s & -> & Eq)]; rewrite Eq; cbn [bind].
    + split; [split; [intros _; left; reflexivity | reflexivity] |].
      split; [intros e E; injection E as <-; reflexivity |].
      intro N. exfalso. apply N. left. reflexivity.
    + destruct (mapM (fun y0 => Q4_stage (Q4_years y0)) Q4) as [stages | e] eqn:Em;
        cbn [bind].
      * split; [split; [discriminate |] |].
        -- intros [D | Hin]; [discriminate D |]. apply IH1 in Hin. discriminate Hin.
        -- split; [discriminate |]. intros N. exists (s :: stages).
           split; [reflexivity |]. cbn [List.length]. f_equal.
           destruct IH3 as (stages' & Es & L);
             [intro Hin; apply N; right; exact Hin |].
           injection Es as <-. exact L.
      * pose proof (IH2 e eq_refl) as ->.
        split; [split; [intros _; right; apply IH1; reflexivity | reflexivity] |].
        split; [intros e E; injection E as <-; reflexivity |].
        intro N. exfalso. apply N. right. apply IH1. reflexivity.
Qed.

Lemma X10_missing_year_stops_stage_witness :
  exists stages, Q4_stage_column [Some 2015; Some 1990] = Ok stages
                 /\ List.length stages = 2%nat.
Proof.
  apply (proj2 (proj2 (X10_missing_year_stops_stage [Some 2015; Some 1990]))).
  intros [D | [D | []]]; discriminate D.
Defined.

(** ** The consent and completeness filter *)

Lemma filter_split_length {X : Type} (p q : X -> bool) (l : list X) :
  (forall x, q x = negb (p x)) ->
  List.length l = (List.length (filter q l) + List.length (filter p l))%nat.
Proof.
  intro H. induction l as [| x l IH]; [reflexivity |].
  cbn [filter List.length]. rewrite (H x).
  destruct (p x); cbn [negb List.length]; lia.
Qed.

Lemma cell_eq_ne_str (c : cell) (s : string) :
  cell_eq_str c s = negb (cell_ne_str c s).
Proof.
  destruct c; cbn [cell_eq_str cell_ne_str]; try reflexivity.
  rewrite negb_involutive. reflexivity.
Qed.

Lemma cell_ne_str_iff (c : cell) (s : string) :
  cell_ne_str c s = true <-> c <> Str s.
Proof.
  destruct c as [| z | f | t]; cbn [cell_ne_str];
    try (split; [discriminate | reflexivity]).
  rewrite negb_true_iff, String.eqb_neq. split; intros H E; apply H; congruence.
Qed.

(** X11. The counts written to the log add up: the number of people to begin
    with is the number who did not agree plus the number of rows kept, and
    that is the number of rows without [Q10] plus the number of people
    left. The people left are the rows, in order, in which neither consent
    answer is the text 'No' and [Q10] is not the empty text; a row whose
    consent answer is missing is kept. *)
Theorem X11_survey_filter_counts (df : list survey_row) :
  let log := fst (survey_filter df) in
  let kept := snd (survey_filter df) in
  people_to_begin_with log = (did_not_agree log + rows_of_observations log)%nat
  /\ rows_of_observations log = (missing_Q10 log + people_left log)%nat
  /\ people_to_begin_with log = List.length df
  /\ people_left log = List.length kept
  /\ kept
     = filter (fun r => cell_ne_str (consent_Q1 r) "No"
                        && cell_ne_str (consent_Q2 r) "No"
                        && cell_ne_str (weight_Q10 r) "") df
  /\ (forall r, In r kept
                <-> In r df /\ consent_Q1 r <> Str "No"
                    /\ consent_Q2 r <> Str "No" /\ weight_Q10 r <> Str "")
  /\ (forall r, In r df -> consent_Q1 r = NaN -> consent_Q2 r = NaN ->
                weight_Q10 r <> Str "" -> In r kept).
Proof.
  cbv zeta. unfold survey_filter. cbn [fst snd people_to_begin_with did_not_agree
    rows_of_observations missing_Q10 people_left].
  set (agreed := fun r => cell_ne_str (consent_Q1 r) "No"
                          && cell_ne_str (consent_Q2 r) "No").
  set (answered := fun r => cell_ne_str (weight_Q10 r) "").
  assert (Hkept : filter answered (filter agreed df)
                  = filter (fun r => agreed r && answered r) df).
  { induction df as [| r df IH]; [reflexivity |].
    cbn [filter]. destruct (agreed r); cbn [filter andb];
      [destruct (answered r); rewrite IH; reflexivity | exact IH]. }
  assert (Hin : forall r, In r (filter answered (filter agreed df))
                          <-> In r df /\ consent_Q1 r <> Str "No"
                              /\ consent_Q2 r <> Str "No" /\ weight_Q10 r <> Str "").
  { intro r. rewrite !filter_In. unfold agreed, answered.
    rewrite andb_true_iff, !cell_ne_str_iff. tauto. }
  split; [| split; [| split; [| split; [| split; [| split]]]]].
  - apply filter_split_length. intro r. unfold agreed.
    rewrite !cell_eq_ne_str, negb_andb. reflexivity.
  - apply filter_split_length. intro r. apply cell_eq_ne_str.
  - reflexivity.
  - reflexivity.
  - exact Hkept.
  - exact Hin.
  - intros r Hr E1 E2 H10. apply Hin. rewrite E1, E2.
    repeat split; try discriminate; assumption.
Qed.

Lemma X11_survey_filter_counts_witness :
  In sample_survey_row (snd (survey_filter [sample_survey_row])).
Proof.
  apply (proj2 (proj2 (proj2 (proj2 (proj2 (proj2
           (X11_survey_filter_counts [sample_survey_row])))))) sample_survey_row).
  - left. reflexivity.
  - reflexivity.
  - reflexivity.
  - discriminate.
Defined.

(** ** The subject-area code *)

(** A chain of [np.where] assignments ends with the value of a rule whose
    condition holds, or with the initial value when none holds. *)
Lemma where_chain {R V : Type} (cond : R -> bool) (val : R -> V)
    (rules : list R) (init : V) :
  (fold_left (fun prev rule => np_where (cond rule) (val rule) prev) rules init = init
   /\ forall rule, In rule rules -> cond rule = false)
  \/ exists rule, In rule rules /\ cond rule = true
                  /\ fold_left (fun prev rule => np_where (cond rule) (val rule) prev)
                       rules init = val rule.
Proof.
  revert init. induction rules as [| r rules IH]; intro init.
  - left. split; [reflexivity | intros rule []].
  - cbn [fold_left]. destruct (cond r) eqn:Er; cbn [np_where].
    + destruct (IH (val r)) as [(E & Hnone) | (rule & Hin & Hc & E)].
      * right. exists r. split; [left; reflexivity |]. split; [exact Er | exact E].
      * right. exists rule. split; [right; exact Hin |]. split; [exact Hc | exact E].
    + destruct (IH init) as [(E & Hnone) | (rule & Hin & Hc & E)].
      * left. split; [exact E |]. intros rule [<- | Hin]; [exact Er | apply Hnone; exact Hin].
      * right. exists rule. split; [right; exact Hin |]. split; [exact Hc | exact E].
Qed.

Lemma Q8_names_codes : map snd Q8_names = map Z.of_nat (seq 1 34).
Proof. reflexivity. Qed.

Lemma Q8_names_distinct : NoDup (map fst Q8_names).
Proof.
  assert (H : forall (l : list string),
             (fix distinct (l : list string) : bool :=
                match l with
                | [] => true
                | x :: l' => negb (existsb (String.eqb x) l') && distinct l'
                end) l = true -> NoDup l).
  { induction l as [| x l IH]; intro E; constructor;
      apply andb_true_iff in E; destruct E as (Hx & Hl); [| apply IH; exact Hl].
    intro Hin. apply negb_true_iff in Hx.
    assert (Hex : existsb (String.eqb x) l = true)
      by (apply existsb_exists; exists x; split; [exact Hin | apply String.eqb_refl]).
    rewrite Hex in Hx. discriminate Hx. }
  apply H. vm_compute. reflexivity.
Qed.

Lemma Q8_names_in_range (name : string) (k : Z) :
  In (name, k) Q8_names -> 1 <= k <= 34.
Proof.
  intro H. assert (Hk : In k (map snd Q8_names)) by (apply (in_map snd _ _ H)).
  rewrite Q8_names_codes in Hk. apply in_map_iff in Hk.
  destruct Hk as (n & <- & Hn). apply in_seq in Hn. lia.
Qed.

Lemma NoDup_map_fst_unique {X Y : Type} (l : list (X * Y)) (x : X) (y y' : Y) :
  NoDup (map fst l) -> In (x, y) l -> In (x, y') l -> y = y'.
Proof.
  induction l as [| (a, b) l IH]; intros Hnd H1 H2; [destruct H1 |].
  cbn [map fst] in Hnd. inversion Hnd as [| ? ? Hnotin Hnd']; subst.
  destruct H1 as [E1 | H1], H2 as [E2 | H2].
  - congruence.
  - injection E1 as -> ->. exfalso. apply Hnotin. apply (in_map fst _ _ H2).
  - injection E2 as -> ->. exfalso. apply Hnotin. apply (in_map fst _ _ H1).
  - apply IH; assumption.
Qed.

(** The object column before its conversion, case by case. *)
Lemma Q8_uoa_object_cases (Q8 : option string) :
  (Q8 = None /\ Q8_uoa_object Q8 = Q8_missing)
  \/ (Q8 = Some "Other" /\ Q8_uoa_object Q8 = Q8_missing)
  \/ (exists name k, Q8 = Some name /\ In (name, k) Q8_names
                     /\ Q8_uoa_object Q8 = Q8_code k)
  \/ (exists s, Q8 = Some s /\ s <> "Other" /\ ~ In s (map fst Q8_names)
                /\ Q8_uoa_object Q8 = Q8_label s).
Proof.
  unfold Q8_uoa_object.
  destruct Q8 as [s |]; [| left; split; reflexivity].
  right.
  destruct (where_chain (fun rule => eq_str (Some s) (fst rule))
              (fun rule => Q8_code (snd rule)) Q8_names (Q8_label s))
    as [(E & Hnone) | ((name, k) & Hin & Hc & E)]; rewrite E.
  - destruct (String.eqb_spec s "Other") as [-> | Hs].
    + left. split; reflexivity.
    + right. right. exists s. split; [reflexivity |]. split; [exact Hs |].
      split.
      * intro Hin. apply in_map_iff in Hin. destruct Hin as ((name, k) & En & Hin).
        cbn [fst] in En. subst name. specialize (Hnone _ Hin).
        cbn [eq_str fst] in Hnone. rewrite String.eqb_refl in Hnone. discriminate Hnone.
      * cbn [eq_str]. apply String.eqb_neq in Hs. rewrite Hs. reflexivity.
  - cbn [eq_str fst] in Hc. apply String.eqb_eq in Hc. subst name.
    right. left. exists s, k. split; [reflexivity |]. split; [exact Hin |].
    cbn [snd eq_str].
    destruct (String.eqb_spec s "Other") as [-> | Hs]; [| reflexivity].
    exfalso. revert Hin. clear. intro Hin.
    assert (H : existsb (String.eqb "Other") (map fst Q8_names) = false)
      by (vm_compute; reflexivity).
    assert (H' : existsb (String.eqb "Other") (map fst Q8_names) = true).
    { apply existsb_exists. exists "Other". split; [| reflexivity].
      apply (in_map fst _ _ Hin). }
    rewrite H in H'. discriminate H'.
Qed.

(** The object column of a recognised answer holds a code or nothing; an
    answer that is not recognised is left as its text. *)
Lemma recognised_Q8_object (Q8 : option string) :
  recognised_Q8 Q8 = true -> is_Q8_label (Q8_uoa_object Q8) = false.
Proof.
  intro H.
  destruct (Q8_uoa_object_cases Q8)
    as [(_ & E) | [(_ & E) | [(n & k & _ & _ & E) | (s & D & Hs & Hnot & _)]]];
    try (rewrite E; reflexivity).
  subst Q8. cbn [recognised_Q8] in H. apply orb_true_iff in H.
  destruct H as [H | H].
  - apply String.eqb_eq in H. contradiction.
  - apply existsb_exists in H. destruct H as (x & Hx & Ex).
    apply String.eqb_eq in Ex. subst x. contradiction.
Qed.

Lemma unrecognised_Q8_object (s : string) :
  recognised_Q8 (Some s) = false -> Q8_uoa_object (Some s) = Q8_label s.
Proof.
  intro H. cbn [recognised_Q8] in H. apply orb_false_iff in H.
  destruct H as (Ho & Hn).
  destruct (Q8_uoa_object_cases (Some s))
    as [(D & _) | [(D & _) | [(n & k & D & Hin & _) | (s' & D & _ & _ & E)]]].
  - discriminate D.
  - injection D as ->. discriminate Ho.
  - injection D as <-. exfalso.
    assert (H : existsb (String.eqb s) (map fst Q8_names) = true).
    { apply existsb_exists. exists s. split; [| apply String.eqb_refl].
      apply (in_map fst _ _ Hin). }
    rewrite H in Hn. discriminate Hn.
  - injection D as <-. exact E.
Qed.

Lemma Q8_code_object (Q8 : option string) (k : Z) :
  Q8_uoa_object Q8 = Q8_code k ->
  exists name, Q8 = Some name /\ In (name, k) Q8_names.
Proof.
  intro E.
  destruct (Q8_uoa_object_cases Q8)
    as [(_ & E') | [(_ & E') | [(n & k' & D & Hin & E') | (s & _ & _ & _ & E')]]];
    rewrite E' in E; try discriminate E.
  injection E as ->. exists n. split; [exact D | exact Hin].
Qed.

Lemma mapM_map_Forall2 {A B C : Type} (f : B -> result C) (g : A -> B)
    (l : list A) (l' : list C) :
  mapM f (map g l) = Ok l' -> Forall2 (fun a c => f (g a) = Ok c) l l'.
Proof.
  revert l'. induction l as [| a l IH]; cbn [map mapM]; intros l' E.
  - injection E as <-. constructor.
  - apply bind_Ok in E. destruct E as (b & Eb & E).
    apply bind_Ok in E. destruct E as (bs & Ebs & E).
    injection E as <-. constructor; [exact Eb | apply IH; exact Ebs].
Qed.

Lemma Forall2_map_combine {A B C : Type} (R : A -> B -> Prop) (h : A * B -> C)
    (l : list A) (l' : list B) :
  Forall2 R l l' ->
  Forall2 (fun a c => exists b, R a b /\ c = h (a, b)) l (map h (combine l l')).
Proof.
  induction 1 as [| a b l l' Hab _ IH]; cbn [combine map]; constructor.
  - exists b. split; [exact Hab | reflexivity].
  - exact IH.
Qed.

(** What the cast leaves in a cell of the object column, when it succeeds. *)
Lemma cast_Q8_value_Ok (v : Q8_value) (c : option Z) :
  cast_Q8_value v = Ok c ->
  match v with
  | Q8_label s => exists z, int_of_str s = Ok z /\ in_int64 z = true /\ c = Some z
  | Q8_code k => c = Some k
  | Q8_missing => c = None
  end.
Proof.
  destruct v as [s | k |]; cbn [cast_Q8_value].
  - destruct (int_of_str s) as [z | e]; cbn [bind]; [| discriminate].
    unfold to_int64. destruct (in_int64 z) eqn:Hz; cbn [bind]; [| discriminate].
    intro E. injection E as <-. exists z. repeat split. exact Hz.
  - intro E. injection E as <-. reflexivity.
  - intro E. injection E as <-. reflexivity.
Qed.

Lemma cast_Q8_value_exn (v : Q8_value) (e : exn) :
  cast_Q8_value v = Raise e ->
  exists s, v = Q8_label s
            /\ ((int_of_str s = Raise ValueError /\ e = ValueError)
                \/ (exists z, int_of_str s = Ok z /\ in_int64 z = false
                              /\ e = OverflowError)).
Proof.
  destruct v as [s | k |]; cbn [cast_Q8_value]; try discriminate.
  intro E. exists s. split; [reflexivity |].
  destruct (int_of_str s) as [z | e'] eqn:Es; cbn [bind] in E.
  - right. exists z. split; [reflexivity |].
    unfold to_int64 in E. destruct (in_int64 z); cbn [bind] in E; [discriminate E |].
    injection E as <-. split; reflexivity.
  - left. injection E as <-. pose proof (int_of_str_exn s e' Es) as ->.
    split; reflexivity.
Qed.

Lemma asarray_Int64_small (col : list (option Z)) :
  (forall z, In (Some z) col -> Z.abs z <= 2 ^ 53) -> asarray_Int64 col = col.
Proof.
  intro H. unfold asarray_Int64.
  destruct (existsb _ col); [| reflexivity].
  induction col as [| c col IH]; [reflexivity |].
  cbn [map]. rewrite IH by (intros z Hz; apply H; right; exact Hz).
  destruct c as [z |]; [| reflexivity].
  cbn [option_map]. rewrite round_binary64_small; [reflexivity |].
  apply H. left. reflexivity.
Qed.

(** The finished column: the cells cast, stored, and overwritten by the
    write-in answers. *)
Lemma Q8_uoa_column_rows (rows : list (option string * option string))
    (codes : list (option Z)) :
  Q8_uoa_column rows = Ok codes ->
  exists casted,
    Forall2 (fun row c => cast_Q8_value (Q8_uoa_object (fst row)) = Ok c) rows casted
    /\ (existsb is_Q8_code (map (fun row => Q8_uoa_object (fst row)) rows)
        && existsb is_Q8_label (map (fun row => Q8_uoa_object (fst row)) rows)) = false
    /\ codes
       = map (fun rc : (option string * option string) * option Z =>
                write_in_code (snd (fst rc)) (snd rc))
           (combine rows (asarray_Int64 casted)).
Proof.
  intro E. unfold Q8_uoa_column in E. apply bind_Ok in E.
  destruct E as (cs & Ecs & E). injection E as <-.
  unfold astype_Int64_object in Ecs. apply bind_Ok in Ecs.
  destruct Ecs as (casted & Ecast & Ecs).
  destruct (existsb is_Q8_code _ && existsb is_Q8_label _) eqn:Emixed;
    [discriminate Ecs |].
  injection Ecs as <-. exists casted.
  split; [apply mapM_map_Forall2; exact Ecast |]. split; reflexivity.
Qed.

Lemma write_in_code_range (Q8_a : option string) (c : option Z) :
  (c = None \/ exists n, c = Some n /\ 1 <= n <= 34) ->
  (write_in_code Q8_a c = None \/ exists n, write_in_code Q8_a c = Some n /\ 1 <= n <= 34).
Proof.
  intro Hc. unfold write_in_code.
  destruct (where_chain (fun rule => eq_str Q8_a (fst rule))
              (fun rule => Some (snd rule)) Q8_a_write_ins c)
    as [(Ef & _) | ((text, k) & Hin & _ & Ef)]; rewrite Ef; [exact Hc |].
  right. exists k. split; [reflexivity |]. cbn in Hin.
  repeat (destruct Hin as [Hin | Hin]; [injection Hin as <- <-; lia |]).
  destruct Hin.
Qed.

Lemma write_in_code_answer (Q8_a : option string) (c : option Z) (text : string)
    (k : Z) :
  In (text, k) Q8_a_write_ins -> Q8_a = Some text -> write_in_code Q8_a c = Some k.
Proof.
  intros Hin ->. cbn in Hin.
  repeat (destruct Hin as [Hin | Hin]; [injection Hin as <- <-; reflexivity |]).
  destruct Hin.
Qed.

Lemma panel_missing_iff (code : option Z) :
  (code = None \/ exists n, code = Some n /\ 1 <= n <= 34) ->
  (Q8_panel code = "nan" <-> code = None)
  /\ (Q8_stemshape code = "nan" <-> code = None).
Proof.
  intros [-> | (n & -> & Hn)]; [split; split; reflexivity |].
  apply code_cases in Hn. cbn [map seq Z.of_nat Pos.of_succ_nat Pos.succ In] in Hn.
  repeat (destruct Hn as [<- | Hn];
          [split; (split; [vm_compute; discriminate | discriminate]) |]).
  destruct Hn.
Qed.

Lemma existsb_map_false {A B : Type} (p : B -> bool) (g : A -> B) (l : list A) :
  existsb p (map g l) = false <-> forall a, In a l -> p (g a) = false.
Proof.
  induction l as [| x l IH]; cbn [map existsb]; split.
  - intros _ a [].
  - reflexivity.
  - intros E a [<- | Ha]; apply orb_false_iff in E; destruct E as (E1 & E2);
      [exact E1 | apply IH; assumption].
  - intro H. apply orb_false_iff. split; [apply H; left; reflexivity |].
    apply IH. intros a Ha. apply H. right. exact Ha.
Qed.

Lemma existsb_map_ext {A B : Type} (p : B -> bool) (q : A -> bool) (g : A -> B)
    (l : list A) :
  (forall a, In a l -> p (g a) = q a) -> existsb p (map g l) = existsb q l.
Proof.
  induction l as [| x l IH]; intro H; [reflexivity |].
  cbn [map existsb]. rewrite (H x (or_introl eq_refl)).
  rewrite IH by (intros a Ha; apply H; right; exact Ha). reflexivity.
Qed.

Lemma mapM_map_Ok {A B C : Type} (f : B -> result C) (g : A -> B) (h : A -> C)
    (l : list A) :
  (forall a, In a l -> f (g a) = Ok (h a)) -> mapM f (map g l) = Ok (map h l).
Proof.
  induction l as [| a l IH]; intro H; [reflexivity |].
  cbn [map mapM]. rewrite (H a (or_introl eq_refl)). cbn [bind].
  rewrite IH by (intros a' Ha'; apply H; right; exact Ha'). reflexivity.
Qed.

Lemma combine_map_self {A B : Type} (g : A -> B) (l : list A) :
  combine l (map g l) = map (fun a => (a, g a)) l.
Proof. induction l as [| a l IH]; [reflexivity | cbn [map combine]; rewrite IH; reflexivity]. Qed.

Lemma Forall2_eq_map {A B : Type} (g : A -> B) (l : list A) (l' : list B) :
  Forall2 (fun a b => b = g a) l l' -> l' = map g l.
Proof. induction 1 as [| a b l l' -> _ IH]; [reflexivity | cbn [map]; rewrite IH; reflexivity]. Qed.

Lemma name_is_code (name : string) (k : Z) :
  In (name, k) Q8_names -> Q8_uoa_object (Some name) = Q8_code k.
Proof.
  intro Hin.
  destruct (Q8_uoa_object_cases (Some name))
    as [(D & _) | [(D & E) | [(n & k' & D & Hin' & E) | (s & D & _ & Hnot & _)]]].
  - discriminate D.
  - injection D as ->. exfalso.
    assert (H : existsb (String.eqb "Other") (map fst Q8_names) = true).
    { apply existsb_exists. exists "Other". split; [| reflexivity].
      apply (in_map fst _ _ Hin). }
    vm_compute in H. discriminate H.
  - injection D as <-.
    assert (k' = k) by (apply (NoDup_map_fst_unique Q8_names name);
                        [apply Q8_names_distinct | exact Hin' | exact Hin]).
    subst k'. exact E.
  - injection D as <-. exfalso. apply Hnot. apply (in_map fst _ _ Hin).
Qed.

(** In a column that converts and holds no text, every cell is a code from 1
    to 34 or nothing, and is stored as it is. *)
Lemma casted_codes (rows : list (option string * option string))
    (casted : list (option Z)) :
  Forall2 (fun row c => cast_Q8_value (Q8_uoa_object (fst row)) = Ok c) rows casted ->
  (forall row, In row rows -> is_Q8_label (Q8_uoa_object (fst row)) = false) ->
  casted = map (fun row => code_of_Q8_value (Q8_uoa_object (fst row))) rows
  /\ asarray_Int64 casted = casted
  /\ forall c, In c casted -> c = None \/ exists n, c = Some n /\ 1 <= n <= 34.
Proof.
  intros Hcast Hnolabel.
  assert (E : casted = map (fun row => code_of_Q8_value (Q8_uoa_object (fst row))) rows).
  { apply Forall2_eq_map. apply (Forall2_impl_In _ _ _ _ Hcast).
    intros row c Hin Ec. specialize (Hnolabel row Hin).
    apply cast_Q8_value_Ok in Ec.
    destruct (Q8_uoa_object (fst row)); [discriminate Hnolabel | exact Ec | exact Ec]. }
  assert (Hrange : forall c, In c casted ->
                             c = None \/ exists n, c = Some n /\ 1 <= n <= 34).
  { intros c Hc. rewrite E in Hc. apply in_map_iff in Hc.
    destruct Hc as (row & <- & Hin).
    destruct (Q8_uoa_object (fst row)) as [s | k |] eqn:Eo; cbn [code_of_Q8_value];
      [left; reflexivity | | left; reflexivity].
    right. exists k. split; [reflexivity |].
    destruct (Q8_code_object _ _ Eo) as (n & _ & Hn).
    exact (Q8_names_in_range n k Hn). }
  split; [exact E |]. split; [| exact Hrange].
  apply asarray_Int64_small. intros z Hz.
  destruct (Hrange _ Hz) as [D | (n & D & Hn)]; [discriminate D |].
  injection D as ->. lia.
Qed.

(** X12. Each of the 34 subject names is given its code, a number from 1 to
    34; two different names never share a code and every number from 1 to
    34 is the code of a name; 'Other' and a missing answer are given no
    code. When every answer of the column is one of the 34 names, 'Other'
    or missing, the conversion to integers succeeds, and each row holds the
    code of its answer, or the code of its write-in answer when [Q8_a] is
    one of the five. *)
Theorem X12_subject_code_of_name :
  (forall name k, In (name, k) Q8_names ->
                  Q8_uoa_object (Some name) = Q8_code k /\ 1 <= k <= 34)
  /\ (forall name name' k, In (name, k) Q8_names -> In (name', k) Q8_names ->
                           name = name')
  /\ (forall k, 1 <= k <= 34 -> exists name, In (name, k) Q8_names)
  /\ Q8_uoa_object (Some "Other") = Q8_missing
  /\ Q8_uoa_object None = Q8_missing
  /\ (forall rows,
         forallb (fun row => recognised_Q8 (fst row)) rows = true ->
         Q8_uoa_column rows
         = Ok (map (fun row => write_in_code (snd row)
                                 (code_of_Q8_value (Q8_uoa_object (fst row))))
                 rows)).
Proof.
  split; [| split; [| split; [| split; [reflexivity | split; [reflexivity |]]]]].
  - intros name k Hin. split; [| exact (Q8_names_in_range name k Hin)].
    exact (name_is_code name k Hin).
  - intros name name' k H H'.
    assert (Hsw : forall l : list (string * Z),
               NoDup (map snd l) -> In (name, k) l -> In (name', k) l -> name = name').
    { clear. intros l Hnd H1 H2.
      assert (Hs : forall p : string * Z, In p l -> In (snd p, fst p) (map (fun q => (snd q, fst q)) l))
        by (intros p Hp; apply (in_map (fun q => (snd q, fst q)) _ _ Hp)).
      apply (NoDup_map_fst_unique (map (fun q => (snd q, fst q)) l) k).
      - rewrite map_map. exact Hnd.
      - apply (Hs _ H1).
      - apply (Hs _ H2). }
    apply (Hsw Q8_names); [| exact H | exact H'].
    rewrite Q8_names_codes. generalize (seq_NoDup 34 1).
    generalize (seq 1 34). clear. intros l Hl.
    induction Hl as [| n l Hn _ IH]; constructor; [| exact IH].
    intro Hin. apply in_map_iff in Hin. destruct Hin as (m & Em & Hm).
    apply Nat2Z.inj in Em. subst m. contradiction.
  - intros k Hk.
    assert (Hin : In k (map snd Q8_names))
      by (rewrite Q8_names_codes; apply code_cases; exact Hk).
    apply in_map_iff in Hin. destruct Hin as ((name, k') & Ek & Hin).
    cbn [snd] in Ek. subst k'. exists name. exact Hin.
  - intros rows Hrec.
    assert (Hrow : forall row, In row rows -> is_Q8_label (Q8_uoa_object (fst row)) = false).
    { intros row Hin. apply recognised_Q8_object.
      exact (proj1 (forallb_forall _ rows) Hrec row Hin). }
    assert (Ecast : mapM cast_Q8_value (map (fun row => Q8_uoa_object (fst row)) rows)
                    = Ok (map (fun row => code_of_Q8_value (Q8_uoa_object (fst row)))
                            rows)).
    { apply mapM_map_Ok. intros row Hin. specialize (Hrow row Hin).
      destruct (Q8_uoa_object (fst row)); [discriminate Hrow | reflexivity | reflexivity]. }
    pose proof Ecast as Hall. apply mapM_map_Forall2 in Hall.
    destruct (casted_codes rows _ Hall Hrow) as (_ & Hstore & _).
    unfold Q8_uoa_column, astype_Int64_object. rewrite Ecast. cbn [bind].
    rewrite (proj2 (existsb_map_false is_Q8_label
                      (fun row : option string * option string => Q8_uoa_object (fst row))
                      rows) Hrow).
    rewrite andb_false_r. cbn [bind]. rewrite Hstore.
    rewrite combine_map_self, map_map. reflexivity.
Qed.

Lemma X12_subject_code_of_name_witness :
  Q8_uoa_column [(Some "Sociology", None); (Some "Other", Some "Medical ethics");
                 (None, None); (Some "Physics", Some "Criminology")]
  = Ok [Some 21; Some 30; None; Some 21].
Proof.
  exact (proj2 (proj2 (proj2 (proj2 (proj2 X12_subject_code_of_name))))
           [(Some "Sociology", None); (Some "Other", Some "Medical ethics");
            (None, None); (Some "Physics", Some "Criminology")] eq_refl).
Defined.

(** X13. In a column where some respondent chose one of the 34 names,
    whenever the conversion succeeds every code is missing or a number from
    1 to 34, also after the five write-in answers of [Q8_a] have been
    applied; so the panel and the domain are left at 'nan' exactly for the
    respondents without a code. A write-in answer among the five gives its
    code whatever code [Q8] gave. *)
Theorem X13_subject_code_range (rows : list (option string * option string))
    (codes : list (option Z)) :
  Q8_uoa_column rows = Ok codes ->
  (exists row name k, In row rows /\ fst row = Some name /\ In (name, k) Q8_names) ->
  Forall (fun code => (code = None \/ exists n, code = Some n /\ 1 <= n <= 34)
                      /\ (Q8_panel code = "nan" <-> code = None)
                      /\ (Q8_stemshape code = "nan" <-> code = None))
    codes
  /\ Forall2 (fun row code => forall text k, In (text, k) Q8_a_write_ins ->
                                             snd row = Some text -> code = Some k)
       rows codes.
Proof.
  intros E (row0 & name & k0 & Hin0 & Ename & Hname).
  apply Q8_uoa_column_rows in E. destruct E as (casted & Hcast & Hmixed & ->).
  assert (Hcode : existsb is_Q8_code (map (fun row => Q8_uoa_object (fst row)) rows) = true).
  { apply existsb_exists. exists (Q8_uoa_object (fst row0)). split.
    - apply (in_map (fun row => Q8_uoa_object (fst row)) _ _ Hin0).
    - rewrite Ename, (name_is_code name k0 Hname). reflexivity. }
  rewrite Hcode in Hmixed. cbn [andb] in Hmixed.
  pose proof (proj1 (existsb_map_false is_Q8_label
                       (fun row : option string * option string => Q8_uoa_object (fst row))
                       rows) Hmixed) as Hnolabel.
  destruct (casted_codes rows casted Hcast Hnolabel) as (_ & -> & Hrange).
  assert (Hrows : Forall2 (fun row code => exists c, In c casted
                                                     /\ code = write_in_code (snd row) c)
                    rows
                    (map (fun rc : (option string * option string) * option Z =>
                            write_in_code (snd (fst rc)) (snd rc))
                       (combine rows casted))).
  { clear - Hcast. induction Hcast as [| row c rows casted _ _ IH];
      cbn [combine map]; constructor.
    - exists c. split; [left; reflexivity | reflexivity].
    - apply (Forall2_impl_In _ _ _ _ IH). intros r code _ (c' & Hc' & Ec').
      exists c'. split; [right; exact Hc' | exact Ec']. }
  split.
  - apply (Forall2_Forall_r _ _ _ _ Hrows).
    intros row code _ (c & Hc & ->).
    pose proof (write_in_code_range (snd row) c (Hrange c Hc)) as Hfinal.
    split; [exact Hfinal | exact (panel_missing_iff _ Hfinal)].
  - apply (Forall2_impl_In _ _ _ _ Hrows).
    intros row code _ (c & _ & ->) text k Hin Htext.
    exact (write_in_code_answer _ _ text k Hin Htext).
Qed.

Lemma X13_subject_code_range_witness :
  Forall (fun code => (code = None \/ exists n, code = Some n /\ 1 <= n <= 34)
                      /\ (Q8_panel code = "nan" <-> code = None)
                      /\ (Q8_stemshape code = "nan" <-> code = None))
    [Some 21; None]
  /\ Forall2 (fun row code => forall text k, In (text, k) Q8_a_write_ins ->
                                             snd row = Some text -> code = Some k)
       [(Some "Physics", Some "Criminology"); (Some "Other", None)] [Some 21; None].
Proof.
  apply (X13_subject_code_range
           [(Some "Physics", Some "Criminology"); (Some "Other", None)] [Some 21; None]).
  - reflexivity.
  - exists (Some "Physics", Some "Criminology"), "Physics", 9.
    split; [left; reflexivity |]. split; [reflexivity |].
    do 8 right. left. reflexivity.
Defined.

(** X18. An answer to [Q8] that is none of the 34 names, not 'Other' and not
    an integer literal stops the conversion of the column: with a
    [ValueError] when every integer literal among the answers fits in 64
    bits, and with a [ValueError] or an [OverflowError] in general. An
    answer that is none of the 34 names, not 'Other' and is an integer
    literal stops the conversion too once some respondent of the column
    chose one of the 34 names. *)
Theorem X18_unknown_subject_stops (rows : list (option string * option string))
    (s : string) (Q8_a : option string) :
  In (Some s, Q8_a) rows ->
  recognised_Q8 (Some s) = false ->
  (int_of_str s = Raise ValueError ->
   (Q8_uoa_column rows = Raise ValueError \/ Q8_uoa_column rows = Raise OverflowError)
   /\ ((forall row t z, In row rows -> fst row = Some t -> int_of_str t = Ok z ->
                        in_int64 z = true) ->
       Q8_uoa_column rows = Raise ValueError))
  /\ ((exists row name k, In row rows /\ fst row = Some name /\ In (name, k) Q8_names) ->
      exists e, Q8_uoa_column rows = Raise e).
Proof.
  intros Hin Hrec. pose proof (unrecognised_Q8_object s Hrec) as Eo.
  split.
  - intro Es.
    destruct (mapM cast_Q8_value (map (fun row => Q8_uoa_object (fst row)) rows))
      as [casted | e] eqn:E.
    + exfalso. apply mapM_map_Forall2 in E.
      assert (Hall : forall (l : list (option string * option string)) l',
                 Forall2 (fun a c => cast_Q8_value (Q8_uoa_object (fst a)) = Ok c) l l' ->
                 forall a, In a l -> exists c, cast_Q8_value (Q8_uoa_object (fst a)) = Ok c).
      { clear. induction 1 as [| a b l l' Hab _ IH]; intros x [].
        - subst x. exists b. exact Hab.
        - apply IH. assumption. }
      destruct (Hall _ _ E _ Hin) as (c & Ec). cbn [fst] in Ec.
      rewrite Eo in Ec. cbn [cast_Q8_value] in Ec. rewrite Es in Ec. discriminate Ec.
    + assert (Ecol : Q8_uoa_column rows = Raise e)
        by (unfold Q8_uoa_column, astype_Int64_object; rewrite E; reflexivity).
      rewrite Ecol. apply mapM_Raise in E. destruct E as (v & Hv & Ev).
      apply cast_Q8_value_exn in Ev.
      destruct Ev as (t & -> & [(_ & ->) | (z & Et & Hz & ->)]).
      * split; [left; reflexivity | intros _; reflexivity].
      * split; [right; reflexivity |]. intro Hfit. exfalso.
        apply in_map_iff in Hv. destruct Hv as (row & Erow & Hrow).
        assert (Ht : fst row = Some t).
        { destruct (Q8_uoa_object_cases (fst row))
            as [(_ & E') | [(_ & E') | [(n & k & _ & _ & E') | (t' & D & _ & _ & E')]]];
            rewrite E' in Erow; try discriminate Erow.
          injection Erow as ->. exact D. }
        rewrite (Hfit row t z Hrow Ht Et) in Hz. discriminate Hz.
  - intros (row0 & name & k0 & Hin0 & Ename & Hname).
    destruct (Q8_uoa_column rows) as [codes |] eqn:E; [| eexists; reflexivity].
    exfalso. apply Q8_uoa_column_rows in E. destruct E as (_ & _ & Hmixed & _).
    apply andb_false_iff in Hmixed. destruct Hmixed as [H | H].
    + pose proof (proj1 (existsb_map_false is_Q8_code
                           (fun row : option string * option string => Q8_uoa_object (fst row))
                           rows) H row0 Hin0) as H0.
      cbv beta in H0. rewrite Ename, (name_is_code name k0 Hname) in H0.
      discriminate H0.
    + pose proof (proj1 (existsb_map_false is_Q8_label
                           (fun row : option string * option string => Q8_uoa_object (fst row))
                           rows) H _ Hin) as H0.
      cbn [fst] in H0. rewrite Eo in H0. discriminate H0.
Qed.

Lemma X18_unknown_subject_stops_witness :
  Q8_uoa_column [(Some "Physics", None); (Some "Astrology", None)] = Raise ValueError.
Proof.
  refine (proj2 (proj1 (X18_unknown_subject_stops
                          [(Some "Physics", None); (Some "Astrology", None)]
                          "Astrology" None _ _) _) _).
  - right. left. reflexivity.
  - reflexivity.
  - reflexivity.
  - intros row t z [<- | [<- | []]] E; injection E as <-; discriminate.
Defined.

(** An integer literal beyond 64 bits in a row before the unknown answer
    stops the conversion first. *)
Lemma overflow_before_unknown_subject :
  Q8_uoa_column [(Some "99999999999999999999", None); (Some "Astrology", None)]
  = Raise OverflowError.
Proof. reflexivity. Qed.

(** X19. In a column where no respondent chose one of the 34 names and every
    other answer is 'Other', missing or an integer literal that fits in 64
    bits, the conversion succeeds and an integer literal becomes the code
    of its row, whatever its value: exactly when every answer of the column
    is such a literal or the number has no more than 53 bits, and rounded
    to 53 significant bits otherwise, since a missing code makes lines
    178-182 store the column as floats. *)
Theorem X19_numeric_answers_become_codes (rows : list (option string * option string)) :
  (forall row name k, In row rows -> fst row = Some name -> ~ In (name, k) Q8_names) ->
  (forall row s, In row rows -> fst row = Some s -> recognised_Q8 (Some s) = false ->
                 exists z, int_of_str s = Ok z /\ in_int64 z = true) ->
  exists codes,
    Q8_uoa_column rows = Ok codes
    /\ Forall2 (fun row code =>
                  forall s z, fst row = Some s -> recognised_Q8 (Some s) = false ->
                              int_of_str s = Ok z ->
                              code = write_in_code (snd row)
                                       (Some (if existsb (fun r => recognised_Q8 (fst r)) rows
                                              then round_binary64 z else z))
                              /\ (Z.abs z <= 2 ^ 53 ->
                                  code = write_in_code (snd row) (Some z)))
         rows codes.
Proof.
  intros Hnoname Hlit.
  set (obj := fun row : option string * option string => Q8_uoa_object (fst row)).
  set (g := fun row : option string * option string =>
              match obj row with
              | Q8_label s => match int_of_str s with
                              | Ok z => Some z
                              | Raise _ => None
                              end
              | Q8_code k => Some k
              | Q8_missing => None
              end).
  assert (Hrow : forall row, In row rows ->
             (recognised_Q8 (fst row) = true /\ obj row = Q8_missing
              /\ cast_Q8_value (obj row) = Ok None /\ g row = None)
             \/ (exists s z, fst row = Some s /\ recognised_Q8 (fst row) = false
                             /\ obj row = Q8_label s /\ int_of_str s = Ok z
                             /\ cast_Q8_value (obj row) = Ok (Some z)
                             /\ g row = Some z)).
  { intros row Hin. unfold g, obj.
    destruct (Q8_uoa_object_cases (fst row))
      as [(D & E) | [(D & E) | [(n & k & D & Hn & _) | (s & D & Hs & Hnot & E)]]].
    - left. rewrite E, D. repeat split.
    - left. rewrite E, D. repeat split.
    - exfalso. exact (Hnoname row n k Hin D Hn).
    - right.
      assert (Hrec : recognised_Q8 (Some s) = false).
      { cbn [recognised_Q8]. apply orb_false_iff. split.
        - apply String.eqb_neq. exact Hs.
        - destruct (existsb (String.eqb s) (map fst Q8_names)) eqn:Ex; [| reflexivity].
          exfalso. apply existsb_exists in Ex. destruct Ex as (x & Hx & Ex).
          apply String.eqb_eq in Ex. subst x. contradiction. }
      destruct (Hlit row s Hin D Hrec) as (z & Ez & Hz).
      exists s, z. rewrite E, D. cbn [cast_Q8_value]. rewrite Ez. cbn [bind].
      unfold to_int64. rewrite Hz. repeat split. exact Hrec. }
  assert (Ecast : mapM cast_Q8_value (map obj rows) = Ok (map g rows)).
  { apply mapM_map_Ok. intros row Hin.
    destruct (Hrow row Hin) as [(_ & _ & Ec & ->) | (s & z & _ & _ & _ & _ & Ec & ->)];
      exact Ec. }
  assert (Hnocode : existsb is_Q8_code (map obj rows) = false).
  { apply existsb_map_false. intros row Hin.
    destruct (Hrow row Hin) as [(_ & -> & _) | (s & z & _ & _ & -> & _)]; reflexivity. }
  assert (Hfloat : existsb (fun c : option Z => match c with
                                               | Some _ => false
                                               | None => true
                                               end) (map g rows)
                   = existsb (fun r => recognised_Q8 (fst r)) rows).
  { apply existsb_map_ext. intros row Hin.
    destruct (Hrow row Hin) as [(-> & _ & _ & ->) | (s & z & _ & -> & _ & _ & _ & ->)];
      reflexivity. }
  assert (E : Q8_uoa_column rows
              = Ok (map (fun rc : (option string * option string) * option Z =>
                           write_in_code (snd (fst rc)) (snd rc))
                      (combine rows (asarray_Int64 (map g rows))))).
  { unfold Q8_uoa_column, astype_Int64_object. fold obj. rewrite Ecast. cbn [bind].
    rewrite Hnocode. reflexivity. }
  eexists. split; [exact E |].
  unfold asarray_Int64. rewrite Hfloat.
  set (store := fun z : Z => if existsb (fun r => recognised_Q8 (fst r)) rows
                             then round_binary64 z else z).
  assert (Estore : (if existsb (fun r => recognised_Q8 (fst r)) rows
                    then map (option_map round_binary64) (map g rows)
                    else map g rows)
                   = map (fun row => option_map store (g row)) rows).
  { unfold store. destruct (existsb _ rows).
    - rewrite map_map. reflexivity.
    - apply map_ext. intro row. destruct (g row); reflexivity. }
  rewrite Estore, combine_map_self, map_map. cbn [fst snd].
  assert (Hall : forall l : list (option string * option string),
             (forall row, In row l -> In row rows) ->
             Forall2
               (fun row code =>
                  forall s z, fst row = Some s -> recognised_Q8 (Some s) = false ->
                              int_of_str s = Ok z ->
                              code = write_in_code (snd row) (Some (store z))
                              /\ (Z.abs z <= 2 ^ 53 ->
                                  code = write_in_code (snd row) (Some z)))
               l (map (fun row => write_in_code (snd row) (option_map store (g row))) l)).
  { induction l as [| row l IH]; intro Hsub; cbn [map]; constructor.
    - intros s z Es Hrec Ez.
      destruct (Hrow row (Hsub row (or_introl eq_refl)))
        as [(Hr & _) | (s' & z' & Es' & _ & _ & Ez' & _ & ->)].
      + rewrite Es, Hrec in Hr. discriminate Hr.
      + rewrite Es in Es'. injection Es' as <-. rewrite Ez in Ez'. injection Ez' as <-.
        cbn [option_map]. split; [reflexivity |].
        intro Hz. unfold store. rewrite round_binary64_small by exact Hz.
        destruct (existsb _ rows); reflexivity.
    - apply IH. intros r Hr. apply Hsub. right. exact Hr. }
  apply Hall. intros row Hr. exact Hr.
Qed.

Lemma X19_numeric_answers_become_codes_witness :
  exists codes,
    Q8_uoa_column [(Some "99", None); (Some "Other", None)] = Ok codes
    /\ Forall2 (fun row code =>
                  forall s z, fst row = Some s -> recognised_Q8 (Some s) = false ->
                              int_of_str s = Ok z ->
                              code = write_in_code (snd row)
                                       (Some (if existsb (fun r => recognised_Q8 (fst r))
                                                   [(Some "99", None);
                                                    (Some "Other", @None string)]
                                              then round_binary64 z else z))
                              /\ (Z.abs z <= 2 ^ 53 ->
                                  code = write_in_code (snd row) (Some z)))
         [(Some "99", None); (Some "Other", @None string)] codes.
Proof.
  apply (X19_numeric_answers_become_codes [(Some "99", None); (Some "Other", None)]).
  - intros row name k [<- | [<- | []]] E Hin; injection E as <-.
    + assert (H : existsb (String.eqb "99") (map fst Q8_names) = true).
      { apply existsb_exists. exists "99". split; [| reflexivity].
        apply (in_map fst _ _ Hin). }
      vm_compute in H. discriminate H.
    + assert (H : existsb (String.eqb "Other") (map fst Q8_names) = true).
      { apply existsb_exists. exists "Other". split; [| reflexivity].
        apply (in_map fst _ _ Hin). }
      vm_compute in H. discriminate H.
  - intros row s [<- | [<- | []]] E Hrec; injection E as <-.
    + exists 99. split; reflexivity.
    + vm_compute in Hrec. discriminate Hrec.
Defined.

(** ** The audit table *)

Section AuditTableProperties.

Variable float_of_text : string -> float.

(** X14. A row of the first merge is saved to the audit table exactly when
    the respondent gave an institution other than 'Other' and has a
    subject-area code, and either no row of the department-level table has
    the respondent's institution name and code, or the row joined to it
    has no impact grade point average (NaN): the table also holds
    respondents whose department was found. *)
Theorem X14_audit_table_rows (df_clean : list respondent) (raw_dep : list dept_row)
    (r : respondent) (d : option department) :
  In (r, d) (institutions_didnt_submit_to_uoa float_of_text df_clean raw_dep)
  <-> In r df_clean
      /\ (exists name, Q3 r = Some name /\ name <> "Other")
      /\ (exists n, Q8_uoa r = Some n)
      /\ ((d = None
           /\ forall x, In x raw_dep -> department_key x <> (Q3 r, Q8_uoa r))
          \/ (exists x, In x raw_dep /\ d = Some (add_gpa float_of_text x)
                        /\ department_key x = (Q3 r, Q8_uoa r)
                        /\ PrimFloat.is_nan (ICS_GPA float_of_text x) = true)).
Proof.
  unfold institutions_didnt_submit_to_uoa.
  rewrite !filter_In, in_merge_left. cbn [fst snd].
  assert (HQ3 : notnull (Q3 r) = true /\ negb (eq_str (Q3 r) "Other") = true
                <-> exists name, Q3 r = Some name /\ name <> "Other").
  { destruct (Q3 r) as [name |]; cbn [notnull eq_str].
    - rewrite negb_true_iff, String.eqb_neq. split.
      + intros (_ & H). exists name. split; [reflexivity | exact H].
      + intros (n & E & H). injection E as <-. split; [reflexivity | exact H].
    - split; [intros (D & _); discriminate D | intros (n & D & _); discriminate D]. }
  assert (HQ8 : notnull (Q8_uoa r) = true <-> exists n, Q8_uoa r = Some n).
  { destruct (Q8_uoa r) as [n |]; cbn [notnull].
    - split; [intros _; exists n; reflexivity | reflexivity].
    - split; [discriminate | intros (n & D); discriminate D]. }
  rewrite <- HQ3, <- HQ8. unfold merged_ICS_GPA. cbn [snd].
  destruct d as [dep |].
  - split.
    + intros (((((Hr & Hin & Hsame) & Hnan) & H3) & H3') & H8).
      apply in_map_iff in Hin. destruct Hin as (x & <- & Hx).
      split; [exact Hr |]. split; [split; assumption |]. split; [exact H8 |].
      right. exists x. split; [exact Hx |]. split; [reflexivity |].
      split; [apply (same_department_iff float_of_text); exact Hsame | exact Hnan].
    + intros (Hr & (H3 & H3') & H8 & [(D & _) | (x & Hx & E & Hkey & Hnan)]);
        [discriminate D |].
      injection E as ->.
      repeat split; try assumption.
      * apply in_map. exact Hx.
      * apply (same_department_iff float_of_text). exact Hkey.
  - split.
    + intros (((((Hr & Hnone) & _) & H3) & H3') & H8).
      split; [exact Hr |]. split; [split; assumption |]. split; [exact H8 |].
      left. split; [reflexivity |]. intros x Hx Hkey.
      apply (same_department_iff float_of_text) in Hkey.
      rewrite (Hnone _ (in_map _ _ _ Hx)) in Hkey. discriminate Hkey.
    + intros (Hr & (H3 & H3') & H8 & [(_ & Hnone) | (x & _ & D & _)]);
        [| discriminate D].
      repeat split; try assumption.
      intros dep Hdep. apply in_map_iff in Hdep. destruct Hdep as (x & <- & Hx).
      destruct (same_department r (add_gpa float_of_text x)) eqn:E; [| reflexivity].
      exfalso. apply (Hnone x Hx). apply (same_department_iff float_of_text). exact E.
Qed.

End AuditTableProperties.

(** ** The sample of [run_OLS] *)

Lemma filter_filter {X : Type} (p q : X -> bool) (l : list X) :
  filter q (filter p l) = filter (fun x => p x && q x) l.
Proof.
  induction l as [| x l IH]; [reflexivity |].
  cbn [filter]. destruct (p x); cbn [filter andb];
    [destruct (q x); rewrite IH; reflexivity | exact IH].
Qed.

Lemma keep_notnull_cases (var : string) (temp : frame) :
  (In var (frame_columns temp)
   /\ keep_notnull var temp
      = Ok {| frame_columns := frame_columns temp;
              frame_rows := filter (fun row => cell_notnull (cell_at var row))
                              (frame_rows temp) |})
  \/ (~ In var (frame_columns temp) /\ keep_notnull var temp = Raise KeyError).
Proof.
  unfold keep_notnull.
  destruct (existsb (String.eqb var) (frame_columns temp)) eqn:E.
  - left. split; [| reflexivity]. apply existsb_exists in E.
    destruct E as (c & Hc & Ec). apply String.eqb_eq in Ec. subst c. exact Hc.
  - right. split; [| reflexivity]. intro H.
    assert (E' : existsb (String.eqb var) (frame_columns temp) = true)
      by (apply existsb_exists; exists var; split; [exact H | apply String.eqb_refl]).
    rewrite E in E'. discriminate E'.
Qed.

Lemma keep_all_notnull_cases (vars : list string) (temp : frame) :
  ((forall var, In var vars -> In var (frame_columns temp))
   /\ keep_all_notnull vars temp
      = Ok {| frame_columns := frame_columns temp;
              frame_rows := filter (complete_case vars) (frame_rows temp) |})
  \/ ((exists var, In var vars /\ ~ In var (frame_columns temp))
      /\ keep_all_notnull vars temp = Raise KeyError).
Proof.
  revert temp. induction vars as [| var vars IH]; intro temp.
  - left. split; [intros var [] |]. cbn [keep_all_notnull complete_case forallb].
    destruct temp as [cols rows]. cbn [frame_columns frame_rows]. f_equal. f_equal.
    induction rows as [| row rows IHr]; [reflexivity |].
    cbn [filter]. rewrite <- IHr. reflexivity.
  - cbn [keep_all_notnull].
    destruct (keep_notnull_cases var temp) as [(Hin & E) | (Hnot & E)]; rewrite E;
      cbn [bind].
    + destruct (IH {| frame_columns := frame_columns temp;
                      frame_rows := filter (fun row => cell_notnull (cell_at var row))
                                      (frame_rows temp) |})
        as [(Hall & E') | ((v & Hv & Hnot) & E')]; rewrite E';
        cbn [frame_columns frame_rows] in *.
      * left. split; [intros v [<- | Hv]; [exact Hin | apply Hall; exact Hv] |].
        f_equal. f_equal. rewrite filter_filter. reflexivity.
      * right. split; [| reflexivity]. exists v. split; [right; exact Hv | exact Hnot].
    + right. split; [| reflexivity]. exists var. split; [left; reflexivity | exact Hnot].
Qed.

Lemma complete_case_app (vars vars' : list string) (row : list (string * cell)) :
  complete_case (vars ++ vars') row = complete_case vars row && complete_case vars' row.
Proof. unfold complete_case. apply forallb_app. Qed.

(** The selection of the sample fails, with a [KeyError], exactly when a
    variable is no column of the table, and otherwise keeps the complete
    cases. *)
Lemma run_OLS_sample_cases (df : frame) (dep_var : string)
    (indep_vars : list string) :
  let vars := (indep_vars ++ [dep_var])%list in
  let kept := filter (complete_case vars) (frame_rows df) in
  (run_OLS_sample df dep_var indep_vars = Raise KeyError
   <-> exists var, In var vars /\ ~ In var (frame_columns df))
  /\ (forall e, run_OLS_sample df dep_var indep_vars = Raise e -> e = KeyError)
  /\ ((forall var, In var vars -> In var (frame_columns df)) ->
      run_OLS_sample df dep_var indep_vars
      = Ok (map (cell_at dep_var) kept,
            map (fun row => map (fun var => cell_at var row) indep_vars) kept))
  /\ Forall (fun c => cell_notnull c = true) (map (cell_at dep_var) kept)
  /\ Forall (Forall (fun c => cell_notnull c = true))
            (map (fun row => map (fun var => cell_at var row) indep_vars) kept)
  /\ (forall row, In row kept
                  <-> In row (frame_rows df)
                      /\ forall var, In var vars -> cell_notnull (cell_at var row) = true).
Proof.
  cbv zeta.
  assert (Hkept : forall row,
             In row (filter (complete_case (indep_vars ++ [dep_var])) (frame_rows df))
             <-> In row (frame_rows df)
                 /\ forall var, In var (indep_vars ++ [dep_var])%list ->
                                cell_notnull (cell_at var row) = true).
  { intro row. rewrite filter_In. unfold complete_case. rewrite forallb_forall.
    reflexivity. }
  assert (Hrun :
            ((forall var, In var (indep_vars ++ [dep_var])%list -> In var (frame_columns df))
             /\ run_OLS_sample df dep_var indep_vars
                = Ok (map (cell_at dep_var)
                        (filter (complete_case (indep_vars ++ [dep_var])) (frame_rows df)),
                      map (fun row => map (fun var => cell_at var row) indep_vars)
                        (filter (complete_case (indep_vars ++ [dep_var])) (frame_rows df))))
            \/ ((exists var, In var (indep_vars ++ [dep_var])%list
                             /\ ~ In var (frame_columns df))
                /\ run_OLS_sample df dep_var indep_vars = Raise KeyError)).
  { unfold run_OLS_sample.
    destruct (keep_all_notnull_cases indep_vars df) as [(Hall & E) | ((v & Hv & Hnot) & E)];
      rewrite E; cbn [bind].
    - destruct (keep_notnull_cases dep_var
                  {| frame_columns := frame_columns df;
                     frame_rows := filter (complete_case indep_vars) (frame_rows df) |})
        as [(Hin & E') | (Hnot & E')]; rewrite E'; cbn [bind frame_columns frame_rows] in *.
      + left. split.
        * intros var Hvar. apply in_app_or in Hvar.
          destruct Hvar as [Hvar | [<- | []]]; [apply Hall; exact Hvar | exact Hin].
        * rewrite filter_filter.
          assert (Eq : forall l : list (list (string * cell)),
                     filter (fun x => complete_case indep_vars x
                                      && cell_notnull (cell_at dep_var x)) l
                     = filter (complete_case (indep_vars ++ [dep_var])) l).
          { intro l. apply filter_ext. intro row. rewrite complete_case_app.
            change (complete_case [dep_var] row)
              with (cell_notnull (cell_at dep_var row) && true).
            rewrite andb_true_r. reflexivity. }
          rewrite Eq. reflexivity.
      + right. split; [| reflexivity]. exists dep_var.
        split; [apply in_or_app; right; left; reflexivity | exact Hnot].
    - right. split; [| reflexivity]. exists v.
      split; [apply in_or_app; left; exact Hv | exact Hnot]. }
  split; [| split; [| split; [| split; [| split]]]].
  - destruct Hrun as [(Hall & E) | (Hex & E)]; rewrite E.
    + split; [discriminate |]. intros (v & Hv & Hnot). exfalso. apply Hnot, Hall, Hv.
    + split; [intros _; exact Hex | reflexivity].
  - intros e Ee. destruct Hrun as [(_ & E) | (_ & E)]; rewrite E in Ee;
      [discriminate Ee | injection Ee as <-; reflexivity].
  - intro Hall. destruct Hrun as [(_ & E) | ((v & Hv & Hnot) & _)]; [exact E |].
    exfalso. apply Hnot, Hall, Hv.
  - apply Forall_forall. intros c Hc. apply in_map_iff in Hc.
    destruct Hc as (row & <- & Hrow). apply Hkept in Hrow.
    apply (proj2 Hrow). apply in_or_app. right. left. reflexivity.
  - apply Forall_forall. intros cells Hc. apply in_map_iff in Hc.
    destruct Hc as (row & <- & Hrow). apply Hkept in Hrow.
    apply Forall_forall. intros c Hcell. apply in_map_iff in Hcell.
    destruct Hcell as (var & <- & Hvar).
    apply (proj2 Hrow). apply in_or_app. left. exact Hvar.
  - exact Hkept.
Qed.

Section RunOLSProperties.

Variable fit : string -> list string -> list cell -> list (list cell) -> result unit.

(** X15. [run_OLS] fails with a [KeyError], before anything is fitted, when
    the dependent variable or one of the independent variables is no
    column of the table; the selection of the sample fails in no other
    way. Otherwise the regression is given the complete cases and nothing
    else: the rows of the table, in order, in which none of these
    variables is null; so [y] and the rows of [X] correspond one to one and
    hold no null value, and [run_OLS] ends as the regression does on
    them. *)
Theorem X15_run_OLS_complete_cases (df : frame) (dep_var : string)
    (indep_vars : list string) :
  let vars := (indep_vars ++ [dep_var])%list in
  let kept := filter (complete_case vars) (frame_rows df) in
  let y := map (cell_at dep_var) kept in
  let X := map (fun row => map (fun var => cell_at var row) indep_vars) kept in
  ((exists var, In var vars /\ ~ In var (frame_columns df)) ->
   run_OLS fit df dep_var indep_vars = Raise KeyError)
  /\ ((forall var, In var vars -> In var (frame_columns df)) ->
      run_OLS fit df dep_var indep_vars = fit dep_var indep_vars y X)
  /\ (run_OLS_sample df dep_var indep_vars = Raise KeyError
      <-> exists var, In var vars /\ ~ In var (frame_columns df))
  /\ (forall e, run_OLS_sample df dep_var indep_vars = Raise e -> e = KeyError)
  /\ List.length y = List.length X
  /\ Forall (fun c => cell_notnull c = true) y
  /\ Forall (Forall (fun c => cell_notnull c = true)) X
  /\ (forall row, In row kept
                  <-> In row (frame_rows df)
                      /\ forall var, In var vars -> cell_notnull (cell_at var row) = true).
Proof.
  cbv zeta.
  pose proof (run_OLS_sample_cases df dep_var indep_vars)
    as (Hkey & Hexn & Hok & Hy & HX & Hkept).
  cbv zeta in Hkey, Hexn, Hok, Hy, HX, Hkept.
  split; [| split; [| split; [exact Hkey | split; [exact Hexn | split;
    [rewrite !length_map; reflexivity | split; [exact Hy | split; [exact HX | exact Hkept]]]]]]].
  - intro Hmiss. unfold run_OLS. rewrite (proj2 Hkey Hmiss). reflexivity.
  - intro Hall. unfold run_OLS. rewrite (Hok Hall). reflexivity.
Qed.

End RunOLSProperties.

(** The sample table, of which one row is a complete case. *)
Lemma X15_run_OLS_complete_cases_witness :
  run_OLS sample_fit sample_frame "Q10" ["ICS_GPA"; "Q5_binary"]
  = sample_fit "Q10" ["ICS_GPA"; "Q5_binary"] [Int 25] [[Flt 3.25; Flt 1]].
Proof.
  refine (proj1 (proj2
            (X15_run_OLS_complete_cases sample_fit sample_frame "Q10"
               ["ICS_GPA"; "Q5_binary"])) _).
  intros var [<- | [<- | [<- | []]]]; cbn; tauto.
Defined.

Section ReferentialCompleteness.

Context {A B : Type} `{KA : Keyed A} `{KB : Keyed B}.

(** X16. When every pair of identifiers of the left table is the pair of some
    row of the right table, [merge_ins_uoa] passes both assertions and
    joins every left row to a right row: no row of the result has its
    right columns missing. *)
Theorem X16_complete_pairs_no_missing (df1 : list A) (df2 : list B) :
  (forall a, In a df1 ->
             exists b, In b df2 /\ (inst_id b, uoa_id b) = (inst_id a, uoa_id a)) ->
  exists out,
    merge_ins_uoa df1 df2 = Ok out
    /\ forall a o, In (a, o) out -> exists b, o = Some b.
Proof.
  intro H.
  assert (Hpass : all_inst_id_isin df1 df2 && all_uoa_id_isin df1 df2 = true).
  { apply andb_true_iff. unfold all_inst_id_isin, all_uoa_id_isin.
    rewrite !forallb_forall. split; intros a Ha;
      destruct (H a Ha) as (b & Hb & E); injection E as Ei Eu.
    - apply inst_id_isin_iff. rewrite <- Ei. apply in_map. exact Hb.
    - apply uoa_id_isin_iff. rewrite <- Eu. apply in_map. exact Hb. }
  destruct (merge_ins_uoa_cases df1 df2) as [(_ & E) | (Hstop & _)];
    [| rewrite Hpass in Hstop; discriminate Hstop].
  eexists. split; [exact E |].
  intros a [b |] Hin; [exists b; reflexivity |].
  apply in_merge_left in Hin. destruct Hin as (Ha & Hnone).
  destruct (H a Ha) as (b & Hb & Eb).
  apply same_ins_uoa_iff in Eb. rewrite (Hnone b Hb) in Eb. discriminate Eb.
Qed.

End ReferentialCompleteness.

Lemma X16_complete_pairs_no_missing_witness :
  exists out,
    merge_ins_uoa [sample_submission] sample_repeated_income = Ok out
    /\ forall a o, In (a, o) out -> exists b, o = Some b.
Proof.
  apply X16_complete_pairs_no_missing.
  intros a [<- | []].
  exists (id_row_of 10007783 12 None [("tot_income", Int 1200)]).
  split; [left; reflexivity | reflexivity].
Defined.

(** ** Answers that are no number *)





